(** * The game page's turn engine (apps/web/src/pages/GamePage.tsx)

    The page is a React function component.  Its behaviour is embedded as a
    transition system:

    - the values held by [useState] hooks form a [View] (one render's
      snapshot of the component state);
    - every handler is a function [View -> ... -> World -> World]: the first
      argument is the render whose closure the handler was created in (all
      plain reads of state go there), the [World] is the state the queued
      [setX] calls are applied to (a functional [setX(prev => ...)] reads the
      world, a plain [setX(v)] overwrites);
    - callbacks handed to [setTimeout] are pending [Timer]s that carry what
      their closure captured; they run when a [Fire] event picks them;
    - [Math.random] and [Date.now] are inputs of the event that consumes
      them.

    JavaScript numbers are integers of [Z] here (seconds, scores, stakes);
    array positions are [nat]. *)

From Stdlib Require Import ZArith String DecimalString Lia.
From stdpp Require Import base option list sorting.

Set Default Proof Using "Type".

(** ** Data model *)

(** The side identities of the transport protocol, ["a"] and ["b"]. *)
Inductive Side := SideA | SideB.

(** The strings that occupy board cells: ["X"], ["O"] on the 3x3 grid and
    ["red"], ["yellow"] on the 7x6 grid.  A cell is [string | null]. *)
Inductive Token := X | O | Red | Yellow.

Definition Board := list (option Token).

Inductive RPSChoice := Rock | Paper | Scissors.
Inductive RoundResult := RoundWin | RoundLose | RoundDraw.

(** ["player" | "opponent" | "draw"] *)
Inductive Winner := Player | Opponent | Draw.

(** ["playing" | "finished"] *)
Inductive Phase := Playing | Finished.

Inductive GameName := TicTacToe | ConnectFour | RockPaperScissors | OtherGame.
Inductive PlayMode := Free | Stake.
Inductive OpponentType := VsPlayer | VsAI.
Inductive Role := P1 | P2.

#[global] Instance Side_eq_dec : EqDecision Side.
Proof. solve_decision. Defined.
#[global] Instance Token_eq_dec : EqDecision Token.
Proof. solve_decision. Defined.
#[global] Instance RPSChoice_eq_dec : EqDecision RPSChoice.
Proof. solve_decision. Defined.
#[global] Instance Winner_eq_dec : EqDecision Winner.
Proof. solve_decision. Defined.
#[global] Instance Phase_eq_dec : EqDecision Phase.
Proof. solve_decision. Defined.
#[global] Instance GameName_eq_dec : EqDecision GameName.
Proof. solve_decision. Defined.
#[global] Instance OpponentType_eq_dec : EqDecision OpponentType.
Proof. solve_decision. Defined.
#[global] Instance Role_eq_dec : EqDecision Role.
Proof. solve_decision. Defined.
#[global] Instance string_eq_dec' : EqDecision string := String.string_dec.

(** The component's props, together with what it reads from its two
    context hooks ([xp] from the wallet, [address] from the account) and the
    XP policy [calculateXPChange] imported from [../types], which is not
    part of the sources at hand and is therefore left abstract. *)
Class Props := {
  game_name : GameName;
  stakeAmount : Z;
  playMode : PlayMode;
  matchId : option string;
  opponentWallet : option string;
  role : option Role;
  opponentType : OpponentType;
  address : option string;
  xp : Z;
  calculateXPChange : bool -> Z -> Z -> Z;
}.

(** Payload of [rps_reveal]. *)
Record RevealData := {
  rv_round : Z;
  rv_aChoice : RPSChoice;
  rv_bChoice : RPSChoice;
  rv_winnerSide : option Side;
}.

(** Session-level hooks. *)
Record Session := {
  turnTime : Z;
  gameState : Phase;
  winner : option Winner;
  earnedARK : Z;
  earnedXP : Z;
  opponentXP : Z;
  showExitDialog : bool;
  gameClient : bool;          (* the socket client object is non-null *)
  started : bool;
  pendingWinnerSide : option Side;
  side : option Side;
}.

(** Tic-Tac-Toe hooks. *)
Record TTTState := {
  tttBoard : Board;
  tttCurrentPlayer : Token;
  playerMoves : list nat;
  opponentMoves : list nat;
  fadingCell : option nat;
}.

(** Connect-Four hooks. *)
Record C4State := {
  c4Board : Board;
  c4CurrentPlayer : Token;
  c4DroppingToken : option (nat * nat);   (* col, row *)
  c4RoundCount : Z;
}.

(** Rock-Paper-Scissors hooks. *)
Record RPSState := {
  rpsPlayerChoice : option RPSChoice;
  rpsOpponentChoice : option RPSChoice;
  rpsPlayerScore : Z;
  rpsOpponentScore : Z;
  rpsCurrentRound : Z;
  rpsRoundResult : option RoundResult;
  rpsRevealing : bool;
  rpsWaitingForOpponent : bool;
  pendingRpsReveal : option RevealData;
}.

(** One render's snapshot of the hooks.  (The display-only hooks
    [opponentName], [gameStartTime] and the unused chess hooks are left
    out.) *)
Record View := {
  sess :> Session;
  ttt :> TTTState;
  c4 :> C4State;
  rps :> RPSState;
}.

(** Pending [setTimeout] callbacks with the values their closures hold. *)
Inductive Timer :=
| TTTPlayerFade (c : View) (oldestMove index : nat)
| TTTAIThink (c : View) (currentBoard : Board) (currentOpponentMoves : list nat)
| TTTAIFade (c : View) (currentBoard : Board) (currentOpponentMoves : list nat)
            (oldestMove aiMove : nat)
| C4PlayerDrop (c : View) (col targetRow : nat)
| C4Reset
| C4AIThink (c : View) (currentBoard : Board)
| C4AIDrop (c : View) (currentBoard : Board) (aiCol targetRow : nat)
| RPSAICommit (c : View) (choice : RPSChoice)
| RPSAIReveal (c : View) (choice opponentChoice : RPSChoice)
| RPSAIResult (c : View) (newPlayerScore newOpponentScore : Z)
| RPSRevealResult (result : RoundResult)
| RPSRevealReset.

(** The delay, in milliseconds, each callback is scheduled with. *)
Definition timer_delay (t : Timer) : Z :=
  match t with
  | TTTPlayerFade _ _ _ => 400
  | TTTAIThink _ _ _ => 700
  | TTTAIFade _ _ _ _ _ => 400
  | C4PlayerDrop _ _ _ => 500
  | C4Reset => 2000
  | C4AIThink _ _ => 1000
  | C4AIDrop _ _ _ _ => 500
  | RPSAICommit _ _ => 1500
  | RPSAIReveal _ _ _ => 1000
  | RPSAIResult _ _ _ => 2500
  | RPSRevealResult _ => 800
  | RPSRevealReset => 1500
  end%Z.

(** Calls made to the collaborators: messages sent on the socket and XP
    handed to the wallet. *)
Inductive Call :=
| SendMove (n : nat)
| SendChoice (ch : RPSChoice)
| SendForfeit
| AddXP (delta : Z).

(** The component state plus its environment.  [ended] is a ghost log:
    the arguments of the [handleGameEnd] calls made so far, oldest first. *)
Record World := {
  view :> View;
  timers : list Timer;
  calls : list Call;
  ended : list Winner;
}.

(** ** State setters *)

Definition upd_sess (f : Session -> Session) (w : World) : World :=
  {| view := {| sess := f w; ttt := w; c4 := w; rps := w |};
     timers := timers w; calls := calls w; ended := ended w |}.
Definition upd_ttt (f : TTTState -> TTTState) (w : World) : World :=
  {| view := {| sess := w; ttt := f w; c4 := w; rps := w |};
     timers := timers w; calls := calls w; ended := ended w |}.
Definition upd_c4 (f : C4State -> C4State) (w : World) : World :=
  {| view := {| sess := w; ttt := w; c4 := f w; rps := w |};
     timers := timers w; calls := calls w; ended := ended w |}.
Definition upd_rps (f : RPSState -> RPSState) (w : World) : World :=
  {| view := {| sess := w; ttt := w; c4 := w; rps := f w |};
     timers := timers w; calls := calls w; ended := ended w |}.

Definition setTurnTime (v : Z) : World -> World :=
  upd_sess (fun s =>
    {| turnTime := v; gameState := gameState s; winner := winner s;
       earnedARK := earnedARK s; earnedXP := earnedXP s; opponentXP := opponentXP s;
       showExitDialog := showExitDialog s; gameClient := gameClient s;
       started := started s; pendingWinnerSide := pendingWinnerSide s; side := side s |}).
Definition setGameState (v : Phase) : World -> World :=
  upd_sess (fun s =>
    {| turnTime := turnTime s; gameState := v; winner := winner s;
       earnedARK := earnedARK s; earnedXP := earnedXP s; opponentXP := opponentXP s;
       showExitDialog := showExitDialog s; gameClient := gameClient s;
       started := started s; pendingWinnerSide := pendingWinnerSide s; side := side s |}).
Definition setWinner (v : option Winner) : World -> World :=
  upd_sess (fun s =>
    {| turnTime := turnTime s; gameState := gameState s; winner := v;
       earnedARK := earnedARK s; earnedXP := earnedXP s; opponentXP := opponentXP s;
       showExitDialog := showExitDialog s; gameClient := gameClient s;
       started := started s; pendingWinnerSide := pendingWinnerSide s; side := side s |}).
Definition setEarnedARK (v : Z) : World -> World :=
  upd_sess (fun s =>
    {| turnTime := turnTime s; gameState := gameState s; winner := winner s;
       earnedARK := v; earnedXP := earnedXP s; opponentXP := opponentXP s;
       showExitDialog := showExitDialog s; gameClient := gameClient s;
       started := started s; pendingWinnerSide := pendingWinnerSide s; side := side s |}).
Definition setEarnedXP (v : Z) : World -> World :=
  upd_sess (fun s =>
    {| turnTime := turnTime s; gameState := gameState s; winner := winner s;
       earnedARK := earnedARK s; earnedXP := v; opponentXP := opponentXP s;
       showExitDialog := showExitDialog s; gameClient := gameClient s;
       started := started s; pendingWinnerSide := pendingWinnerSide s; side := side s |}).
Definition setShowExitDialog (v : bool) : World -> World :=
  upd_sess (fun s =>
    {| turnTime := turnTime s; gameState := gameState s; winner := winner s;
       earnedARK := earnedARK s; earnedXP := earnedXP s; opponentXP := opponentXP s;
       showExitDialog := v; gameClient := gameClient s;
       started := started s; pendingWinnerSide := pendingWinnerSide s; side := side s |}).
Definition setStarted (v : bool) : World -> World :=
  upd_sess (fun s =>
    {| turnTime := turnTime s; gameState := gameState s; winner := winner s;
       earnedARK := earnedARK s; earnedXP := earnedXP s; opponentXP := opponentXP s;
       showExitDialog := showExitDialog s; gameClient := gameClient s;
       started := v; pendingWinnerSide := pendingWinnerSide s; side := side s |}).
Definition setPendingWinnerSide (v : option Side) : World -> World :=
  upd_sess (fun s =>
    {| turnTime := turnTime s; gameState := gameState s; winner := winner s;
       earnedARK := earnedARK s; earnedXP := earnedXP s; opponentXP := opponentXP s;
       showExitDialog := showExitDialog s; gameClient := gameClient s;
       started := started s; pendingWinnerSide := v; side := side s |}).
Definition setSide (v : option Side) : World -> World :=
  upd_sess (fun s =>
    {| turnTime := turnTime s; gameState := gameState s; winner := winner s;
       earnedARK := earnedARK s; earnedXP := earnedXP s; opponentXP := opponentXP s;
       showExitDialog := showExitDialog s; gameClient := gameClient s;
       started := started s; pendingWinnerSide := pendingWinnerSide s; side := v |}).

Definition setTttBoard (v : Board) : World -> World :=
  upd_ttt (fun s =>
    {| tttBoard := v; tttCurrentPlayer := tttCurrentPlayer s; playerMoves := playerMoves s;
       opponentMoves := opponentMoves s; fadingCell := fadingCell s |}).
Definition setTttCurrentPlayer (v : Token) : World -> World :=
  upd_ttt (fun s =>
    {| tttBoard := tttBoard s; tttCurrentPlayer := v; playerMoves := playerMoves s;
       opponentMoves := opponentMoves s; fadingCell := fadingCell s |}).
Definition setPlayerMoves (v : list nat) : World -> World :=
  upd_ttt (fun s =>
    {| tttBoard := tttBoard s; tttCurrentPlayer := tttCurrentPlayer s; playerMoves := v;
       opponentMoves := opponentMoves s; fadingCell := fadingCell s |}).
Definition setOpponentMoves (v : list nat) : World -> World :=
  upd_ttt (fun s =>
    {| tttBoard := tttBoard s; tttCurrentPlayer := tttCurrentPlayer s;
       playerMoves := playerMoves s; opponentMoves := v; fadingCell := fadingCell s |}).
Definition setFadingCell (v : option nat) : World -> World :=
  upd_ttt (fun s =>
    {| tttBoard := tttBoard s; tttCurrentPlayer := tttCurrentPlayer s;
       playerMoves := playerMoves s; opponentMoves := opponentMoves s; fadingCell := v |}).

Definition setC4Board (v : Board) : World -> World :=
  upd_c4 (fun s =>
    {| c4Board := v; c4CurrentPlayer := c4CurrentPlayer s;
       c4DroppingToken := c4DroppingToken s; c4RoundCount := c4RoundCount s |}).
Definition setC4CurrentPlayer (v : Token) : World -> World :=
  upd_c4 (fun s =>
    {| c4Board := c4Board s; c4CurrentPlayer := v;
       c4DroppingToken := c4DroppingToken s; c4RoundCount := c4RoundCount s |}).
Definition setC4DroppingToken (v : option (nat * nat)) : World -> World :=
  upd_c4 (fun s =>
    {| c4Board := c4Board s; c4CurrentPlayer := c4CurrentPlayer s;
       c4DroppingToken := v; c4RoundCount := c4RoundCount s |}).
(** [setC4RoundCount(prev => f prev)] *)
Definition setC4RoundCount (f : Z -> Z) : World -> World :=
  upd_c4 (fun s =>
    {| c4Board := c4Board s; c4CurrentPlayer := c4CurrentPlayer s;
       c4DroppingToken := c4DroppingToken s; c4RoundCount := f (c4RoundCount s) |}).

Definition setRpsPlayerChoice (v : option RPSChoice) : World -> World :=
  upd_rps (fun s =>
    {| rpsPlayerChoice := v; rpsOpponentChoice := rpsOpponentChoice s;
       rpsPlayerScore := rpsPlayerScore s; rpsOpponentScore := rpsOpponentScore s;
       rpsCurrentRound := rpsCurrentRound s; rpsRoundResult := rpsRoundResult s;
       rpsRevealing := rpsRevealing s; rpsWaitingForOpponent := rpsWaitingForOpponent s;
       pendingRpsReveal := pendingRpsReveal s |}).
Definition setRpsOpponentChoice (v : option RPSChoice) : World -> World :=
  upd_rps (fun s =>
    {| rpsPlayerChoice := rpsPlayerChoice s; rpsOpponentChoice := v;
       rpsPlayerScore := rpsPlayerScore s; rpsOpponentScore := rpsOpponentScore s;
       rpsCurrentRound := rpsCurrentRound s; rpsRoundResult := rpsRoundResult s;
       rpsRevealing := rpsRevealing s; rpsWaitingForOpponent := rpsWaitingForOpponent s;
       pendingRpsReveal := pendingRpsReveal s |}).
(** [setRpsPlayerScore(s => f s)]; a plain value [v] is [fun _ => v]. *)
Definition setRpsPlayerScore (f : Z -> Z) : World -> World :=
  upd_rps (fun s =>
    {| rpsPlayerChoice := rpsPlayerChoice s; rpsOpponentChoice := rpsOpponentChoice s;
       rpsPlayerScore := f (rpsPlayerScore s); rpsOpponentScore := rpsOpponentScore s;
       rpsCurrentRound := rpsCurrentRound s; rpsRoundResult := rpsRoundResult s;
       rpsRevealing := rpsRevealing s; rpsWaitingForOpponent := rpsWaitingForOpponent s;
       pendingRpsReveal := pendingRpsReveal s |}).
Definition setRpsOpponentScore (f : Z -> Z) : World -> World :=
  upd_rps (fun s =>
    {| rpsPlayerChoice := rpsPlayerChoice s; rpsOpponentChoice := rpsOpponentChoice s;
       rpsPlayerScore := rpsPlayerScore s; rpsOpponentScore := f (rpsOpponentScore s);
       rpsCurrentRound := rpsCurrentRound s; rpsRoundResult := rpsRoundResult s;
       rpsRevealing := rpsRevealing s; rpsWaitingForOpponent := rpsWaitingForOpponent s;
       pendingRpsReveal := pendingRpsReveal s |}).
Definition setRpsCurrentRound (f : Z -> Z) : World -> World :=
  upd_rps (fun s =>
    {| rpsPlayerChoice := rpsPlayerChoice s; rpsOpponentChoice := rpsOpponentChoice s;
       rpsPlayerScore := rpsPlayerScore s; rpsOpponentScore := rpsOpponentScore s;
       rpsCurrentRound := f (rpsCurrentRound s); rpsRoundResult := rpsRoundResult s;
       rpsRevealing := rpsRevealing s; rpsWaitingForOpponent := rpsWaitingForOpponent s;
       pendingRpsReveal := pendingRpsReveal s |}).
Definition setRpsRoundResult (v : option RoundResult) : World -> World :=
  upd_rps (fun s =>
    {| rpsPlayerChoice := rpsPlayerChoice s; rpsOpponentChoice := rpsOpponentChoice s;
       rpsPlayerScore := rpsPlayerScore s; rpsOpponentScore := rpsOpponentScore s;
       rpsCurrentRound := rpsCurrentRound s; rpsRoundResult := v;
       rpsRevealing := rpsRevealing s; rpsWaitingForOpponent := rpsWaitingForOpponent s;
       pendingRpsReveal := pendingRpsReveal s |}).
Definition setRpsRevealing (v : bool) : World -> World :=
  upd_rps (fun s =>
    {| rpsPlayerChoice := rpsPlayerChoice s; rpsOpponentChoice := rpsOpponentChoice s;
       rpsPlayerScore := rpsPlayerScore s; rpsOpponentScore := rpsOpponentScore s;
       rpsCurrentRound := rpsCurrentRound s; rpsRoundResult := rpsRoundResult s;
       rpsRevealing := v; rpsWaitingForOpponent := rpsWaitingForOpponent s;
       pendingRpsReveal := pendingRpsReveal s |}).
Definition setRpsWaitingForOpponent (v : bool) : World -> World :=
  upd_rps (fun s =>
    {| rpsPlayerChoice := rpsPlayerChoice s; rpsOpponentChoice := rpsOpponentChoice s;
       rpsPlayerScore := rpsPlayerScore s; rpsOpponentScore := rpsOpponentScore s;
       rpsCurrentRound := rpsCurrentRound s; rpsRoundResult := rpsRoundResult s;
       rpsRevealing := rpsRevealing s; rpsWaitingForOpponent := v;
       pendingRpsReveal := pendingRpsReveal s |}).
Definition setPendingRpsReveal (v : option RevealData) : World -> World :=
  upd_rps (fun s =>
    {| rpsPlayerChoice := rpsPlayerChoice s; rpsOpponentChoice := rpsOpponentChoice s;
       rpsPlayerScore := rpsPlayerScore s; rpsOpponentScore := rpsOpponentScore s;
       rpsCurrentRound := rpsCurrentRound s; rpsRoundResult := rpsRoundResult s;
       rpsRevealing := rpsRevealing s; rpsWaitingForOpponent := rpsWaitingForOpponent s;
       pendingRpsReveal := v |}).

(** [setTimeout(cb, delay)]: the callback joins the pending ones. *)
Definition schedule (t : Timer) (w : World) : World :=
  {| view := w; timers := timers w ++ [t]; calls := calls w; ended := ended w |}.
(** A call to a collaborator. *)
Definition emit (k : Call) (w : World) : World :=
  {| view := w; timers := timers w; calls := calls w ++ [k]; ended := ended w |}.
Definition note_end (g : Winner) (w : World) : World :=
  {| view := w; timers := timers w; calls := calls w; ended := ended w ++ [g] |}.
Definition set_timers (ts : list Timer) (w : World) : World :=
  {| view := w; timers := ts; calls := calls w; ended := ended w |}.

(** Statements of a handler, in program order. *)
Notation "w |> f" := (f w) (at level 45, left associativity, only parsing).

(** ** JavaScript arrays *)

(** [b[i]] read for its truthiness or compared with a token: [null] and an
    index past the end ([undefined]) both come out as [None]. *)
Definition cell (b : Board) (i : nat) : option Token := default None (b !! i).

(** [b[i] = v] on a copy of [b].  Within range the slot is overwritten; past
    the end JavaScript grows the array, the gap reading as empty. *)
Definition js_set (b : Board) (i : nat) (v : option Token) : Board :=
  if decide (i < length b) then <[i := v]> b
  else b ++ replicate (i - length b) None ++ [v].

Definition truthy_cell (o : option Token) : bool :=
  match o with Some _ => true | None => false end.

Definition truthy (s : option string) : bool :=
  match s with
  | Some EmptyString => false
  | Some _ => true
  | None => false
  end.

(** Positions of [b] holding exactly [v], in ascending order (a [forEach]
    or [map]/[filter] pass over the array). *)
Definition positions (v : option Token) (b : Board) : list nat :=
  filter (fun i => b !! i = Some v) (seq 0 (length b)).

(** [Array.prototype.sort()] without a comparator orders the elements by
    their string forms. *)
Definition js_key (n : nat) : string := NilEmpty.string_of_uint (Nat.to_uint n).
Definition js_leb (a b : nat) : bool := String.leb (js_key a) (js_key b).
Fixpoint js_insert (x : nat) (l : list nat) : list nat :=
  match l with
  | [] => [x]
  | y :: r => if js_leb x y then x :: l else y :: js_insert x r
  end.
Definition js_sort (l : list nat) : list nat := foldr js_insert [] l.

(** [l[Math.floor(Math.random() * l.length)]], the random draw being the
    input [rnd]; [None] exactly when [l] is empty. *)
Definition pick {A} (rnd : nat) (l : list A) : option A := l !! (rnd mod length l).

(** First line, in scan order, on which [test] reports a token. *)
Fixpoint first_line {A} (test : A -> option Token) (ls : list A) : option Token :=
  match ls with
  | [] => None
  | l :: r => match test l with Some t => Some t | None => first_line test r end
  end.

(** ** Rule engines *)

Definition ttt_lines : list (nat * nat * nat) :=
  [(0, 1, 2); (3, 4, 5); (6, 7, 8);
   (0, 3, 6); (1, 4, 7); (2, 5, 8);
   (0, 4, 8); (2, 4, 6)].

Definition ttt_line (squares : Board) (l : nat * nat * nat) : option Token :=
  let '(a, b, c) := l in
  match cell squares a with
  | Some t =>
      if bool_decide (cell squares b = Some t) && bool_decide (cell squares c = Some t)
      then Some t else None
  | None => None
  end.

Definition checkTTTWinner (squares : Board) : option Token :=
  first_line (ttt_line squares) ttt_lines.

(** The four cells [idx, idx+d, idx+2d, idx+3d] of every start offset the
    loops of [checkC4Winner] visit, in their order. *)
Definition c4_starts (rows cols : list nat) (outer_is_row : bool) : list nat :=
  if outer_is_row
  then flat_map (fun row => map (fun col => row * 7 + col) cols) rows
  else flat_map (fun col => map (fun row => row * 7 + col) rows) cols.

Definition c4_lines : list (nat * nat) :=
  map (fun idx => (idx, 1)) (c4_starts (seq 0 6) (seq 0 4) true)        (* horizontal *)
  ++ map (fun idx => (idx, 7)) (c4_starts (seq 0 3) (seq 0 7) false)    (* vertical *)
  ++ map (fun idx => (idx, 8)) (c4_starts (seq 0 3) (seq 0 4) true)     (* down-right *)
  ++ map (fun idx => (idx, 6)) (c4_starts (seq 0 3) (seq 3 4) true).    (* down-left *)

Definition c4_line (board : Board) (l : nat * nat) : option Token :=
  let '(idx, d) := l in
  match cell board idx with
  | Some t =>
      if bool_decide (cell board (idx + d) = Some t)
         && bool_decide (cell board (idx + 2 * d) = Some t)
         && bool_decide (cell board (idx + 3 * d) = Some t)
      then Some t else None
  | None => None
  end.

Definition checkC4Winner (board : Board) : option Token :=
  first_line (c4_line board) c4_lines.

(** The landing row: scan from row 5 up to row 0, stop at the first empty
    cell of the column. *)
Definition lowest_empty_row (board : Board) (col : nat) : option nat :=
  List.find (fun row => negb (truthy_cell (cell board (row * 7 + col)))) [5; 4; 3; 2; 1; 0].

(** [board.every(cell => cell !== null)] *)
Definition board_full (board : Board) : bool :=
  forallb (fun v => truthy_cell v) board.

Definition determineRPSWinner (player opponent : option RPSChoice) : RoundResult :=
  match player, opponent with
  | None, _ | _, None => RoundDraw
  | Some pl, Some op =>
      if decide (pl = op) then RoundDraw
      else match pl, op with
           | Rock, Scissors | Scissors, Paper | Paper, Rock => RoundWin
           | _, _ => RoundLose
           end
  end.

#[global] Arguments checkTTTWinner : simpl never.
#[global] Arguments checkC4Winner : simpl never.
#[global] Arguments js_set : simpl never.
#[global] Arguments js_sort : simpl never.
#[global] Arguments positions : simpl never.

(** ** Events *)

(** [game_end]: [isDraw], [winnerSide], [winner] (an address). *)
Record GameEndData := {
  ge_isDraw : bool;
  ge_winnerSide : option Side;
  ge_winner : option string;
}.

(** [start]: [side] is [None] when the payload's value is neither ["a"] nor
    ["b"]; [start_elapsed] is [Math.floor((Date.now() - startAt) / 1000)]
    when [startAt] is present. *)
Record StartData := {
  start_side : option Side;
  start_current : option Side;
  start_elapsed : option Z;
}.

(** [state]: the authoritative board, whose turn it is, and the seconds
    elapsed since the server's timestamp when there is one. *)
Record StateData := {
  state_board : Board;
  state_current : option Side;
  state_elapsed : option Z;
}.

Inductive Event :=
| Tick                                    (* one period of the 1s interval *)
| ClickTTT (index : nat)
| ClickC4 (col : nat)
| ClickRPS (choice : RPSChoice)
| OpenExitDialog
| CancelExit
| Forfeit
| WsOpponentMove (elapsed : option Z)
| WsGameEnd (d : GameEndData)
| WsStart (d : StartData)
| WsState (d : StateData)
| WsRpsReveal (d : RevealData)
| Fire (k : nat) (rnd : nat).             (* the k-th pending timeout runs *)

(** ** The component *)

Section Component.
Context `{P : Props}.

(** *** Derived values of a render *)

Definition playerSymbol (c : View) : Token :=
  match side c with
  | Some SideA => X
  | Some SideB => O
  | None => if decide (role = Some P2) then O else X
  end.
Definition opponentSymbol (c : View) : Token :=
  if decide (playerSymbol c = X) then O else X.
Definition playerColor (c : View) : Token :=
  match side c with
  | Some SideA => Red
  | Some SideB => Yellow
  | None => if decide (role = Some P2) then Yellow else Red
  end.
Definition opponentColor (c : View) : Token :=
  if decide (playerColor c = Red) then Yellow else Red.

(** [data.current === "a" ? "X" : "O"] and its Connect-Four twin. *)
Definition symbol_of_current (cur : option Side) : Token :=
  if decide (cur = Some SideA) then X else O.
Definition color_of_current (cur : option Side) : Token :=
  if decide (cur = Some SideA) then Red else Yellow.

(** *** Mounting *)

(** The first render: every hook at its initial value. *)
Definition first_render : View :=
  {| sess := {| turnTime := 30; gameState := Playing; winner := None;
                earnedARK := 0; earnedXP := 0; opponentXP := 800;
                showExitDialog := false; gameClient := false;
                started := negb (bool_decide (opponentType = VsPlayer));
                pendingWinnerSide := None; side := None |};
     ttt := {| tttBoard := replicate 9 None; tttCurrentPlayer := X;
               playerMoves := []; opponentMoves := []; fadingCell := None |};
     c4 := {| c4Board := replicate 42 None; c4CurrentPlayer := Red;
              c4DroppingToken := None; c4RoundCount := 1 |};
     rps := {| rpsPlayerChoice := None; rpsOpponentChoice := None;
               rpsPlayerScore := 0; rpsOpponentScore := 0; rpsCurrentRound := 1;
               rpsRoundResult := None; rpsRevealing := false;
               rpsWaitingForOpponent := false; pendingRpsReveal := None |} |}.

(** The socket effect creates a client only for a multiplayer match that
    has an id. *)
Definition has_client : bool :=
  bool_decide (opponentType = VsPlayer) && truthy matchId.

Definition setGameClient (v : bool) : World -> World :=
  upd_sess (fun s =>
    {| turnTime := turnTime s; gameState := gameState s; winner := winner s;
       earnedARK := earnedARK s; earnedXP := earnedXP s; opponentXP := opponentXP s;
       showExitDialog := showExitDialog s; gameClient := v;
       started := started s; pendingWinnerSide := pendingWinnerSide s; side := side s |}).

(** The world once the mount effects have run ([setOpponentXP(800)],
    [setGameClient(client)]). *)
Definition init : World :=
  {| view := first_render; timers := []; calls := []; ended := [] |}
  |> setGameClient has_client.

(** *** Session controller *)

Definition resetTurnTimer : World -> World := setTurnTime 30.

(** [handleGameEnd].  Its asynchronous tail (result submission, balance
    refreshes, closing the socket) only talks to collaborators outside this
    file and writes no hook; it is not represented. *)
Definition handleGameEnd (c : View) (gameWinner : Winner) (w : World) : World :=
  let w := w |> note_end gameWinner
             |> setWinner (Some gameWinner)
             |> setGameState Finished in
  match playMode with
  | Stake =>
      let won := bool_decide (gameWinner = Player) in
      let xpChange := calculateXPChange won xp (opponentXP c) in
      let arkReward := (if won then stakeAmount * 2 else - stakeAmount)%Z in
      w |> setEarnedXP xpChange |> setEarnedARK arkReward |> emit (AddXP xpChange)
  | Free =>
      w |> setEarnedXP 0 |> setEarnedARK 0
  end.

(** *** Turn clock *)

(** The guard at the top of the timer effect: while it holds no interval
    exists. *)
Definition clock_paused (c : View) : bool :=
  bool_decide (gameState c = Finished)
  || bool_decide (fadingCell c <> None)
  || bool_decide (c4DroppingToken c <> None)
  || rpsWaitingForOpponent c
  || rpsRevealing c.

(** What the interval callback does when [prev <= 1]. *)
Definition timeout_resolution (c : View) (w : World) : World :=
  match game_name with
  | TicTacToe =>
      if decide (tttCurrentPlayer c = X) then handleGameEnd c Opponent w
      else handleGameEnd c Player w
  | ConnectFour =>
      if decide (c4CurrentPlayer c = Red) then handleGameEnd c Opponent w
      else handleGameEnd c Player w
  | RockPaperScissors => handleGameEnd c Opponent w
  | OtherGame => w
  end.

(** One period of the interval.  The effect is re-created whenever one of
    the values the callback reads changes, so [c] is the current render. *)
Definition tick (c : View) (w : World) : World :=
  if clock_paused c then w
  else if (turnTime w <=? 1)%Z
       then w |> timeout_resolution c |> setTurnTime 0
       else w |> setTurnTime (turnTime w - 1).

(** *** Tic-Tac-Toe, local input and the local opponent *)

Definition makeAIMove (c : View) (currentBoard : Board)
    (currentOpponentMoves : list nat) : World -> World :=
  schedule (TTTAIThink c currentBoard currentOpponentMoves).

Definition handleTTTCellClick (c : View) (index : nat) (w : World) : World :=
  if negb (started c)
     || truthy_cell (cell (tttBoard c) index)
     || bool_decide (tttCurrentPlayer c <> playerSymbol c)
     || bool_decide (fadingCell c <> None)
  then w
  else if decide (opponentType = VsPlayer) then
    (if gameClient c
     then w |> emit (SendMove index) |> setTttCurrentPlayer (opponentSymbol c)
     else w)
  else if decide (3 <= length (playerMoves c)) then
    match playerMoves c with
    | oldestMove :: _ =>
        w |> setFadingCell (Some oldestMove)
          |> schedule (TTTPlayerFade c oldestMove index)
    | [] => w                       (* not reached: the length is at least 3 *)
    end
  else
    let newBoard := js_set (tttBoard c) index (Some (playerSymbol c)) in
    let w := w |> setTttBoard newBoard
               |> setPlayerMoves (playerMoves c ++ [index]) in
    if decide (checkTTTWinner newBoard = Some (playerSymbol c))
    then handleGameEnd c Player w
    else
      let w := w |> setTttCurrentPlayer (opponentSymbol c) |> resetTurnTimer in
      if decide (opponentType = VsAI) then makeAIMove c newBoard (opponentMoves c) w
      else w.

(** The callback of the 400ms timeout set by a click that evicts. *)
Definition ttt_player_fade (c : View) (oldestMove index : nat) (w : World) : World :=
  let updatedBoard :=
    js_set (js_set (tttBoard c) oldestMove None) index (Some (playerSymbol c)) in
  let w := w |> setTttBoard updatedBoard
             |> setFadingCell None
             |> setPlayerMoves (tail (playerMoves c) ++ [index]) in
  if decide (checkTTTWinner updatedBoard = Some (playerSymbol c))
  then handleGameEnd c Player w
  else
    let w := w |> setTttCurrentPlayer (opponentSymbol c) |> resetTurnTimer in
    if decide (opponentType = VsAI) then makeAIMove c updatedBoard (opponentMoves c) w
    else w.

(** The callback of [makeAIMove]'s 700ms timeout. *)
Definition ttt_ai_think (c : View) (currentBoard : Board)
    (currentOpponentMoves : list nat) (rnd : nat) (w : World) : World :=
  match pick rnd (positions None currentBoard) with
  | None => w
  | Some aiMove =>
      if decide (3 <= length currentOpponentMoves) then
        match currentOpponentMoves with
        | oldestMove :: _ =>
            w |> setFadingCell (Some oldestMove)
              |> schedule (TTTAIFade c currentBoard currentOpponentMoves oldestMove aiMove)
        | [] => w                   (* not reached: the length is at least 3 *)
        end
      else
        let updatedBoard := js_set currentBoard aiMove (Some O) in
        let w := w |> setTttBoard updatedBoard
                   |> setOpponentMoves (currentOpponentMoves ++ [aiMove]) in
        if decide (checkTTTWinner updatedBoard = Some O)
        then handleGameEnd c Opponent w
        else w |> setTttCurrentPlayer X |> resetTurnTimer
  end.

(** The callback of the 400ms timeout set when the local opponent evicts. *)
Definition ttt_ai_fade (c : View) (currentBoard : Board)
    (currentOpponentMoves : list nat) (oldestMove aiMove : nat) (w : World) : World :=
  let updatedBoard := js_set (js_set currentBoard oldestMove None) aiMove (Some O) in
  let w := w |> setTttBoard updatedBoard
             |> setFadingCell None
             |> setOpponentMoves (tail currentOpponentMoves ++ [aiMove]) in
  if decide (checkTTTWinner updatedBoard = Some O)
  then handleGameEnd c Opponent w
  else w |> setTttCurrentPlayer X |> resetTurnTimer.

(** *** Connect-Four, local input and the local opponent *)

Definition makeC4AIMove (c : View) (currentBoard : Board) : World -> World :=
  schedule (C4AIThink c currentBoard).

(** The 2000ms callback of the full-board policy. *)
Definition c4_reset (w : World) : World :=
  w |> setC4Board (replicate 42 None)
    |> setC4RoundCount (fun prev => prev + 1)%Z
    |> setC4CurrentPlayer Red
    |> resetTurnTimer.

Definition handleC4ColumnClick (c : View) (col : nat) (w : World) : World :=
  if negb (started c)
     || bool_decide (c4CurrentPlayer c <> playerColor c)
     || bool_decide (c4DroppingToken c <> None)
  then w
  else
    match lowest_empty_row (c4Board c) col with
    | None => w                                         (* column is full *)
    | Some targetRow =>
        if decide (opponentType = VsPlayer) then
          (if gameClient c
           then w |> emit (SendMove col) |> setC4CurrentPlayer (opponentColor c)
           else w)
        else
          w |> setC4DroppingToken (Some (col, targetRow))
            |> schedule (C4PlayerDrop c col targetRow)
    end.

(** The 500ms callback that lands the player's token. *)
Definition c4_player_drop (c : View) (col targetRow : nat) (w : World) : World :=
  let newBoard := js_set (c4Board c) (targetRow * 7 + col) (Some (playerColor c)) in
  let w := w |> setC4Board newBoard |> setC4DroppingToken None in
  if decide (checkC4Winner newBoard = Some (playerColor c))
  then handleGameEnd c Player w
  else if board_full newBoard then schedule C4Reset w
  else
    let w := w |> setC4CurrentPlayer (opponentColor c) |> resetTurnTimer in
    if decide (opponentType = VsAI) then makeC4AIMove c newBoard w else w.

(** The callback of [makeC4AIMove]'s 1000ms timeout. *)
Definition c4_ai_think (c : View) (currentBoard : Board) (rnd : nat) (w : World) : World :=
  let availableCols :=
    filter (fun col => cell currentBoard col = None) (seq 0 7) in
  match pick rnd availableCols with
  | None => w
  | Some aiCol =>
      match lowest_empty_row currentBoard aiCol with
      | None => w
      | Some targetRow =>
          w |> setC4DroppingToken (Some (aiCol, targetRow))
            |> schedule (C4AIDrop c currentBoard aiCol targetRow)
      end
  end.

(** The 500ms callback that lands the local opponent's token. *)
Definition c4_ai_drop (c : View) (currentBoard : Board) (aiCol targetRow : nat)
    (w : World) : World :=
  let newBoard := js_set currentBoard (targetRow * 7 + aiCol) (Some Yellow) in
  let w := w |> setC4Board newBoard |> setC4DroppingToken None in
  if decide (checkC4Winner newBoard = Some Yellow)
  then handleGameEnd c Opponent w
  else if board_full newBoard then schedule C4Reset w
  else w |> setC4CurrentPlayer Red |> resetTurnTimer.

(** *** Rock-Paper-Scissors *)

(** The statements that open the next round. *)
Definition rps_next_round (w : World) : World :=
  w |> setRpsCurrentRound (fun r => r + 1)%Z
    |> setRpsPlayerChoice None
    |> setRpsOpponentChoice None
    |> setRpsRoundResult None
    |> setRpsRevealing false
    |> setRpsWaitingForOpponent false
    |> resetTurnTimer.

Definition handleRPSChoice (c : View) (choice : option RPSChoice) (w : World) : World :=
  match choice with
  | None => w
  | Some ch =>
      if rpsWaitingForOpponent c || rpsRevealing c then w
      else
        let w := w |> setRpsPlayerChoice (Some ch) |> setRpsWaitingForOpponent true in
        if decide (opponentType = VsPlayer) then
          (if gameClient c then emit (SendChoice ch) w else w)
        else schedule (RPSAICommit c ch) w
  end.

(** The three nested callbacks of the simulated opponent (1500ms, 1000ms,
    2500ms). *)
Definition rps_ai_commit (c : View) (choice : RPSChoice) (rnd : nat) (w : World) : World :=
  match pick rnd [Rock; Paper; Scissors] with
  | None => w
  | Some opponentChoice =>
      w |> setRpsOpponentChoice (Some opponentChoice)
        |> setRpsRevealing true
        |> schedule (RPSAIReveal c choice opponentChoice)
  end.

Definition rps_ai_reveal (c : View) (choice opponentChoice : RPSChoice) (w : World) : World :=
  let result := determineRPSWinner (Some choice) (Some opponentChoice) in
  let w := setRpsRoundResult (Some result) w in
  match result with
  | RoundWin =>
      let newPlayerScore := (rpsPlayerScore c + 1)%Z in
      w |> setRpsPlayerScore (fun _ => newPlayerScore)
        |> schedule (RPSAIResult c newPlayerScore (rpsOpponentScore c))
  | RoundLose =>
      let newOpponentScore := (rpsOpponentScore c + 1)%Z in
      w |> setRpsOpponentScore (fun _ => newOpponentScore)
        |> schedule (RPSAIResult c (rpsPlayerScore c) newOpponentScore)
  | RoundDraw =>
      w |> schedule (RPSAIResult c (rpsPlayerScore c) (rpsOpponentScore c))
  end.

Definition rps_ai_result (c : View) (newPlayerScore newOpponentScore : Z)
    (w : World) : World :=
  if (5 <=? newPlayerScore)%Z then handleGameEnd c Player w
  else if (5 <=? newOpponentScore)%Z then handleGameEnd c Opponent w
  else rps_next_round w.

(** What both the [rps_reveal] handler and the buffered-reveal effect do
    once the local side [mySide] is known. *)
Definition rps_show_reveal (mySide : Side) (data : RevealData) (w : World) : World :=
  let myChoice := if decide (mySide = SideA) then rv_aChoice data else rv_bChoice data in
  let oppChoice := if decide (mySide = SideA) then rv_bChoice data else rv_aChoice data in
  let result :=
    match rv_winnerSide data with
    | None => RoundDraw
    | Some ws => if decide (ws = mySide) then RoundWin else RoundLose
    end in
  w |> setRpsPlayerChoice (Some myChoice)
    |> setRpsOpponentChoice (Some oppChoice)
    |> setRpsRevealing true
    |> setRpsWaitingForOpponent false
    |> schedule (RPSRevealResult result).

(** The 800ms callback, then the 1500ms one. *)
Definition rps_reveal_result (result : RoundResult) (w : World) : World :=
  let w := setRpsRoundResult (Some result) w in
  let w := match result with
           | RoundWin => setRpsPlayerScore (fun s => s + 1)%Z w
           | RoundLose => setRpsOpponentScore (fun s => s + 1)%Z w
           | RoundDraw => w
           end in
  schedule RPSRevealReset w.

(** *** Callbacks of the socket client

    They are created once, by the effect that opens the socket; the render
    [c] they close over is the one of that effect. *)

Definition resync (elapsed : option Z) (w : World) : World :=
  match elapsed with
  | Some e => setTurnTime (Z.max 0 (30 - e)) w
  | None => w
  end.

Definition onOpponentMove (c : View) (elapsed : option Z) (w : World) : World :=
  match game_name with
  | TicTacToe | ConnectFour => resync elapsed w
  | _ => w
  end.

Definition onGameEnd (c : View) (data : GameEndData) (w : World) : World :=
  if ge_isDraw data then handleGameEnd c Draw w
  else match ge_winnerSide data with
       | Some ws =>
           match side c with
           | Some s => handleGameEnd c (if decide (ws = s) then Player else Opponent) w
           | None => setPendingWinnerSide (Some ws) w     (* buffer *)
           end
       | None =>
           if decide (ge_winner data = address) then handleGameEnd c Player w
           else handleGameEnd c Opponent w
       end.

Definition onStart (c : View) (data : StartData) (w : World) : World :=
  let w := match start_side data with
           | Some s => setSide (Some s) w
           | None => w
           end in
  let w := w |> setTttCurrentPlayer (symbol_of_current (start_current data))
             |> setC4CurrentPlayer (color_of_current (start_current data))
             |> setStarted true in
  match start_elapsed data with
  | Some e => setTurnTime (Z.max 0 (30 - e)) w
  | None => resetTurnTimer w
  end.

Definition onState (c : View) (data : StateData) (w : World) : World :=
  let srvBoard := state_board data in
  let w :=
    match game_name with
    | TicTacToe =>
        w |> setTttBoard srvBoard
          |> setPlayerMoves (js_sort (positions (Some (playerSymbol c)) srvBoard))
          |> setOpponentMoves (js_sort (positions (Some (opponentSymbol c)) srvBoard))
          |> setFadingCell None
          |> setTttCurrentPlayer (symbol_of_current (state_current data))
    | ConnectFour =>
        w |> setC4Board srvBoard
          |> setC4DroppingToken None
          |> setC4CurrentPlayer (color_of_current (state_current data))
    | _ => w
    end in
  w |> resync (state_elapsed data) |> setStarted true.

Definition onRpsReveal (c : View) (data : RevealData) (w : World) : World :=
  if decide (game_name = RockPaperScissors) then
    match side c with
    | None => setPendingRpsReveal (Some data) w
    | Some mySide => rps_show_reveal mySide data w
    end
  else w.

Definition handleForfeit (c : View) (w : World) : World :=
  let w := setShowExitDialog false w in
  let w := if gameClient c then emit SendForfeit w else w in
  handleGameEnd c Opponent w.

(** *** Effects that replay buffered events *)

(** [useEffect(..., [pendingWinnerSide, side, gameState])] *)
Definition pendingWinnerEffect (c : View) (w : World) : World :=
  match gameState c, pendingWinnerSide c, side c with
  | Playing, Some pws, Some s =>
      w |> handleGameEnd c (if decide (pws = s) then Player else Opponent)
        |> setPendingWinnerSide None
  | _, _, _ => w
  end.

(** [useEffect(..., [pendingRpsReveal, side, gameState, game.name])] *)
Definition pendingRevealEffect (c : View) (w : World) : World :=
  if decide (game_name = RockPaperScissors) then
    match side c, pendingRpsReveal c, gameState c with
    | Some s, Some data, Playing =>
        w |> rps_show_reveal s data |> setPendingRpsReveal None
    | _, _, _ => w
    end
  else w.

(** The effects of one render, in declaration order; both close over the
    same render.  Each one clears what triggered it, so running them after
    every event is running them whenever their dependencies changed. *)
Definition run_effects (w : World) : World :=
  let c : View := w in
  w |> pendingWinnerEffect c |> pendingRevealEffect c.

(** *** Dispatch *)

(** A pending timeout runs. *)
Definition fire (t : Timer) (rnd : nat) (w : World) : World :=
  match t with
  | TTTPlayerFade c oldestMove index => ttt_player_fade c oldestMove index w
  | TTTAIThink c b ms => ttt_ai_think c b ms rnd w
  | TTTAIFade c b ms oldestMove aiMove => ttt_ai_fade c b ms oldestMove aiMove w
  | C4PlayerDrop c col targetRow => c4_player_drop c col targetRow w
  | C4Reset => c4_reset w
  | C4AIThink c b => c4_ai_think c b rnd w
  | C4AIDrop c b aiCol targetRow => c4_ai_drop c b aiCol targetRow w
  | RPSAICommit c ch => rps_ai_commit c ch rnd w
  | RPSAIReveal c ch oc => rps_ai_reveal c ch oc w
  | RPSAIResult c np no => rps_ai_result c np no w
  | RPSRevealResult r => rps_reveal_result r w
  | RPSRevealReset => rps_next_round w
  end.

(** The [disabled] attributes of the three kinds of input buttons. *)
Definition ttt_cell_disabled (c : View) : bool :=
  bool_decide (gameState c = Finished)
  || negb (started c)
  || bool_decide (tttCurrentPlayer c <> playerSymbol c)
  || bool_decide (fadingCell c <> None).
Definition c4_column_disabled (c : View) : bool :=
  bool_decide (gameState c = Finished)
  || bool_decide (c4CurrentPlayer c <> playerColor c)
  || bool_decide (c4DroppingToken c <> None).
Definition rps_choice_disabled (c : View) : bool :=
  bool_decide (gameState c = Finished).

(** What an event does to the hooks.  A click reaches its handler only if
    the button is rendered and not disabled; the handler is the one of the
    current render.  Socket events exist only while there is a client.
    Two things are left more liberal than the browser: any pending timeout
    may be the next to run, whatever its delay, and socket events may still
    arrive after the session has closed the socket. *)
Definition handle (e : Event) (w : World) : World :=
  let c : View := w in
  match e with
  | Tick => tick c w
  | ClickTTT index =>
      if bool_decide (game_name = TicTacToe)
         && bool_decide (index < length (tttBoard c))
         && negb (ttt_cell_disabled c)
      then handleTTTCellClick c index w else w
  | ClickC4 col =>
      if bool_decide (game_name = ConnectFour)
         && bool_decide (col < 7)
         && negb (c4_column_disabled c)
      then handleC4ColumnClick c col w else w
  | ClickRPS choice =>
      if bool_decide (game_name = RockPaperScissors)
         && negb (rpsWaitingForOpponent c) && negb (rpsRevealing c)
         && negb (rps_choice_disabled c)
      then handleRPSChoice c (Some choice) w else w
  | OpenExitDialog =>
      if bool_decide (gameState c = Playing) then setShowExitDialog true w else w
  | CancelExit => if showExitDialog c then setShowExitDialog false w else w
  | Forfeit => if showExitDialog c then handleForfeit c w else w
  | WsOpponentMove elapsed => if gameClient c then onOpponentMove first_render elapsed w else w
  | WsGameEnd d => if gameClient c then onGameEnd first_render d w else w
  | WsStart d => if gameClient c then onStart first_render d w else w
  | WsState d => if gameClient c then onState first_render d w else w
  | WsRpsReveal d => if gameClient c then onRpsReveal first_render d w else w
  | Fire k rnd =>
      match timers w !! k with
      | Some t => fire t rnd (set_timers (delete k (timers w)) w)
      | None => w
      end
  end.

(** One event handled to completion, then the render's effects. *)
Definition step (e : Event) (w : World) : World := run_effects (handle e w).

Definition run (es : list Event) (w : World) : World := foldl (fun w e => step e w) w es.

(** The worlds the component can be in. *)
Inductive reachable : World -> Prop :=
| reach_init : reachable init
| reach_step e w : reachable w -> reachable (step e w).

End Component.

(** ** Sample configurations *)

(** A stand-in for the XP policy, used only to run examples. *)
Definition sample_xp_policy (won : bool) (localXP oppXP : Z) : Z :=
  (if won then 10 + (oppXP - localXP) / 100 else - (10 + (localXP - oppXP) / 100))%Z.

(** A session against the built-in opponent. *)
Definition local_props (g : GameName) (mode : PlayMode) (stake : Z) : Props :=
  {| game_name := g; stakeAmount := stake; playMode := mode;
     matchId := None; opponentWallet := None; role := None;
     opponentType := VsAI; address := None; xp := 1000;
     calculateXPChange := sample_xp_policy |}.

(** A staked multiplayer match. *)
Definition online_props (g : GameName) : Props :=
  {| game_name := g; stakeAmount := 10; playMode := Stake;
     matchId := Some "m-1"%string; opponentWallet := Some "0xB0B"%string;
     role := Some P1; opponentType := VsPlayer; address := Some "0xA11CE"%string;
     xp := 1000; calculateXPChange := sample_xp_policy |}.

(** [n] consecutive periods of the interval with nothing in between. *)
Definition ticks `{P : Props} (n : nat) (w : World) : World :=
  Nat.iter n (handle Tick) w.

(** A [start] payload. *)
Definition start_as (s cur : Side) : StartData :=
  {| start_side := Some s; start_current := Some cur; start_elapsed := None |}.

(** A full Connect-Four board without four in a row: columns alternate
    red and yellow, the lower three rows shifted by one. *)
Definition drawn_board : Board :=
  map (fun i => Some (if Nat.even (i mod 7 + i / 21) then Red else Yellow)) (seq 0 42).

(** A render of a running local Connect-Four round with board [b] and
    [cur] to move. *)
Definition c4_view `{P : Props} (b : Board) (cur : Token) : View :=
  {| sess := first_render; ttt := first_render; rps := first_render;
     c4 := {| c4Board := b; c4CurrentPlayer := cur;
              c4DroppingToken := None; c4RoundCount := 1 |} |}.

(** Sample sessions. *)
Definition local_ttt : Props := local_props TicTacToe Free 0.
Definition local_c4 : Props := local_props ConnectFour Free 0.
Definition staked_ttt : Props := local_props TicTacToe Stake 10.

(** Against the built-in opponent: X on cells 0, 1, 5 and O on 3, 4, 8, in
    that order of placement, X to move. *)
Definition ttt_three_each : World :=
  @run local_ttt
    [ClickTTT 0; Fire 0 2; ClickTTT 1; Fire 0 1; ClickTTT 5; Fire 0 3]
    (@init local_ttt).

(** Against the built-in opponent: X placed on cell 5, then on cell 2. *)
Definition x_placed_5_then_2 : World :=
  @run local_ttt [ClickTTT 5; Fire 0 0; ClickTTT 2] (@init local_ttt).

(** A multiplayer match in which the server made the local player side
    [s] and gave the first turn to side [cur]. *)
Definition online_started (g : GameName) (s cur : Side) : World :=
  @step (online_props g) (WsStart (start_as s cur)) (@init (online_props g)).

(** A [state] payload. *)
Definition state_of (b : Board) (cur : Side) : StateData :=
  {| state_board := b; state_current := Some cur; state_elapsed := None |}.



(** ** Reference notions the properties are stated with *)

(** The winner a timeout should produce when the side on the clock
    forfeits: the opponent if the local side is on the clock, the local
    player otherwise.  (In Rock-Paper-Scissors the clock only runs while the
    local choice is missing.) *)
Definition clocked_side_loses `{P : Props} (c : View) : option Winner :=
  match game_name with
  | TicTacToe =>
      Some (if decide (tttCurrentPlayer c = playerSymbol c) then Opponent else Player)
  | ConnectFour =>
      Some (if decide (c4CurrentPlayer c = playerColor c) then Opponent else Player)
  | RockPaperScissors => Some Opponent
  | OtherGame => None
  end.

(** The winner the interval callback hands to [handleGameEnd]. *)
Definition timeout_winner `{P : Props} (c : View) : option Winner :=
  match game_name with
  | TicTacToe => Some (if decide (tttCurrentPlayer c = X) then Opponent else Player)
  | ConnectFour => Some (if decide (c4CurrentPlayer c = Red) then Opponent else Player)
  | RockPaperScissors => Some Opponent
  | OtherGame => None
  end.


(** The timeouts a multiplayer session can have pending: only the two of
    the reveal sequence. *)
Definition online_timer (t : Timer) : Prop :=
  match t with
  | RPSRevealResult _ | RPSRevealReset => True
  | _ => False
  end.


(** A move history kept in placement order: the new cell goes to the tail,
    and when three cells are already recorded the head is given up. *)
Definition placed (history : list nat) (i : nat) : list nat :=
  (if decide (3 <= length history) then tail history else history) ++ [i].

(** The board on which win detection must run when [sym] places at [idx]
    and its mark at [oldest] is evicted. *)
Definition post_eviction (board : Board) (sym : Token) (oldest idx : nat) : Board :=
  js_set (js_set board oldest None) idx (Some sym).

(** The two visible steps of an evicting placement.  First [w1]: the cell
    to be removed is announced through [fadingCell], the board is still
    untouched, nothing is decided, and the callback [t] waits for 400ms.
    Then, whenever [t] runs: the board becomes the post-eviction board (the
    evicted cell empty, the new mark present) and the session ends, with
    outcome [who], exactly if [sym] holds a line of that board. *)
Definition evicts_before_win_check `{P : Props}
    (sym : Token) (who : Winner) (board : Board) (oldest idx : nat)
    (t : Timer) (w w1 : World) : Prop :=
  let post := post_eviction board sym oldest idx in
  (tttBoard w1 = tttBoard w /\ fadingCell w1 = Some oldest
   /\ gameState w1 = gameState w /\ ended w1 = ended w
   /\ timers w1 = timers w ++ [t] /\ timer_delay t = 400%Z)
  /\ (post !! oldest = Some None /\ post !! idx = Some (Some sym))
  /\ forall (rnd : nat) (w2 : World),
       let w3 := fire t rnd w2 in
       tttBoard w3 = post /\ fadingCell w3 = None
       /\ (checkTTTWinner post = Some sym ->
           gameState w3 = Finished /\ ended w3 = ended w2 ++ [who])
       /\ (checkTTTWinner post <> Some sym ->
           gameState w3 = gameState w2 /\ ended w3 = ended w2).


(** Histories of at most three cells, in the hooks and in what pending
    timeouts captured. *)
Definition timer_histories_ok (t : Timer) : Prop :=
  match t with
  | TTTPlayerFade c _ _ => length (playerMoves c) <= 3 /\ length (opponentMoves c) <= 3
  | TTTAIThink _ _ ms => length ms <= 3
  | TTTAIFade _ _ ms _ _ => length ms <= 3
  | _ => True
  end.

Definition histories_ok (w : World) : Prop :=
  length (playerMoves w) <= 3 /\ length (opponentMoves w) <= 3
  /\ Forall timer_histories_ok (timers w).


(** ** Further notions *)

(** The payloads whose elapsed time (server timestamp against the local
    clock) is not negative. *)
Definition elapsed_nonneg (e : Event) : Prop :=
  match e with
  | WsOpponentMove (Some z) => (0 <= z)%Z
  | WsStart d => match start_elapsed d with Some z => (0 <= z)%Z | None => True end
  | WsState d => match state_elapsed d with Some z => (0 <= z)%Z | None => True end
  | _ => True
  end.

(** Phase, recorded winner and the log of resolutions agree. *)
Definition outcome_consistent (w : World) : Prop :=
  (gameState w = Playing ->
   winner w = None /\ ended w = [] /\ earnedARK w = 0%Z /\ earnedXP w = 0%Z)
  /\ (gameState w = Finished -> ended w <> [] /\ winner w = last (ended w)).

Definition is_send (k : Call) : Prop :=
  match k with AddXP _ => False | _ => True end.
Definition is_addXP (k : Call) : Prop :=
  match k with AddXP _ => True | _ => False end.


(** The board with every token renamed by [f]. *)
Definition rename (f : Token -> Token) (b : Board) : Board :=
  (fun v : option Token => f <$> v) <$> (b : list (option Token)).

(** X and O exchanged, and likewise red and yellow. *)
Definition swap_marks (t : Token) : Token :=
  match t with X => O | O => X | Red => Yellow | Yellow => Red end.

(** Token [t] holds the three cells of one of the eight lines. *)
Definition three_in_line (b : Board) (t : Token) : Prop :=
  exists x y z, (x, y, z) ∈ ttt_lines
    /\ cell b x = Some t /\ cell b y = Some t /\ cell b z = Some t.

(** The 7x6 grid: cell (row, col) is at position [row * 7 + col].  A line
    of four starts at (r, c) and runs in one of four directions. *)
Inductive Direction := Horizontal | Vertical | DownRight | DownLeft.

Definition line_cell (d : Direction) (r c k : nat) : nat :=
  match d with
  | Horizontal => r * 7 + (c + k)
  | Vertical => (r + k) * 7 + c
  | DownRight => (r + k) * 7 + (c + k)
  | DownLeft => (r + k) * 7 + (c - k)
  end.

(** All four cells of the line lie on the grid. *)
Definition line_in_grid (d : Direction) (r c : nat) : Prop :=
  r < 6 /\ c < 7 /\
  match d with
  | Horizontal => c + 3 < 7
  | Vertical => r + 3 < 6
  | DownRight => r + 3 < 6 /\ c + 3 < 7
  | DownLeft => r + 3 < 6 /\ 3 <= c
  end.

Definition four_in_line (b : Board) (t : Token) : Prop :=
  exists d r c, line_in_grid d r c
    /\ forall k, k < 4 -> cell b (line_cell d r c k) = Some t.

(** The step between consecutive cells of a line, as a position offset. *)
Definition line_offset (d : Direction) : nat :=
  match d with Horizontal => 1 | Vertical => 7 | DownRight => 8 | DownLeft => 6 end.

(** Decidable form of [line_in_grid], to enumerate the grid. *)
Definition line_in_gridb (d : Direction) (r c : nat) : bool :=
  bool_decide (r < 6) && bool_decide (c < 7) &&
  match d with
  | Horizontal => bool_decide (c + 3 < 7)
  | Vertical => bool_decide (r + 3 < 6)
  | DownRight => bool_decide (r + 3 < 6) && bool_decide (c + 3 < 7)
  | DownLeft => bool_decide (r + 3 < 6) && bool_decide (3 <= c)
  end.

(** The direction a scanned line runs in, read back from its offset. *)
Definition direction_of_offset (o : nat) : option Direction :=
  match o with
  | 1 => Some Horizontal
  | 7 => Some Vertical
  | 8 => Some DownRight
  | 6 => Some DownLeft
  | _ => None
  end.

(** Gravity: an occupied cell that is not in the bottom row rests on an
    occupied cell. *)
Definition gravity (b : Board) : Prop :=
  forall r c, r < 5 -> c < 7 ->
    cell b (r * 7 + c) <> None -> cell b ((r + 1) * 7 + c) <> None.

Definition c4_good (b : Board) : Prop := length b = 42 /\ gravity b.

(** What a pending Connect-Four timeout must have captured for its landing
    to respect gravity. *)
Definition c4_timer_ok (t : Timer) : Prop :=
  match t with
  | C4PlayerDrop c col row =>
      c4_good (c4Board c) /\ col < 7 /\ lowest_empty_row (c4Board c) col = Some row
  | C4AIThink _ b => c4_good b
  | C4AIDrop _ b col row =>
      c4_good b /\ col < 7 /\ lowest_empty_row b col = Some row
  | _ => True
  end.

Definition c4_inv (w : World) : Prop :=
  c4_good (c4Board w) /\ Forall c4_timer_ok (timers w).


(** The 3x3 board determined by the two move histories: X on the cells of
    the first, O on the cells of the second, every other cell empty. *)
Definition cell_of (pm om : list nat) (i : nat) : option Token :=
  if decide (i ∈ pm) then Some X
  else if decide (i ∈ om) then Some O
  else None.

Definition board_of (pm om : list nat) : Board := map (cell_of pm om) (seq 0 9).

(** Board and histories tell the same story: the board is the one the
    histories determine, no cell is recorded twice, every recorded cell is on
    the grid and neither history holds more than three cells. *)
Definition ttt_consistent (b : Board) (pm om : list nat) : Prop :=
  b = board_of pm om
  /\ NoDup pm /\ NoDup om /\ (forall i, i ∈ pm -> i ∉ om)
  /\ Forall (fun i => i < 9) pm /\ Forall (fun i => i < 9) om
  /\ length pm <= 3 /\ length om <= 3.

(** At most one Tic-Tac-Toe timeout is pending, it captured the current
    board and histories, and input is blocked while it is. *)
Definition ttt_pending_ok (w : World) : Prop :=
  match timers w with
  | [] => True
  | [TTTPlayerFade c o i] =>
      tttBoard c = tttBoard w /\ playerMoves c = playerMoves w
      /\ opponentMoves c = opponentMoves w /\ side c = None
      /\ head (playerMoves w) = Some o /\ 3 <= length (playerMoves w)
      /\ tttBoard w !! i = Some None /\ fadingCell w = Some o
  | [TTTAIThink c b ms] =>
      b = tttBoard w /\ ms = opponentMoves w /\ tttCurrentPlayer w = O
  | [TTTAIFade c b ms o a] =>
      b = tttBoard w /\ ms = opponentMoves w /\ head ms = Some o
      /\ 3 <= length ms /\ b !! a = Some None /\ fadingCell w = Some o
  | _ => False
  end.

Definition ttt_inv (w : World) : Prop :=
  side w = None
  /\ ttt_consistent (tttBoard w) (playerMoves w) (opponentMoves w)
  /\ ttt_pending_ok w.


(** ** A handler no socket callback calls *)

Section OpponentMove.
Context `{P : Props}.

(** [handleOpponentTTTMove]: the opponent's mark is applied at once, the
    eviction included, and a line of either symbol ends the session. *)
Definition handleOpponentTTTMove (c : View) (position : nat) (w : World) : World :=
  let '(board1, moves1) :=
    if decide (3 <= length (opponentMoves c)) then
      match opponentMoves c with
      | oldestMove :: rest => (js_set (tttBoard c) oldestMove None, rest)
      | [] => (tttBoard c, [])      (* not reached: the length is at least 3 *)
      end
    else (tttBoard c, opponentMoves c) in
  let newBoard := js_set board1 position (Some (opponentSymbol c)) in
  let w := w |> setTttBoard newBoard
             |> setOpponentMoves (moves1 ++ [position])
             |> setTttCurrentPlayer (playerSymbol c)
             |> resetTurnTimer in
  match checkTTTWinner newBoard with
  | Some winner =>
      handleGameEnd c (if decide (winner = playerSymbol c) then Player else Opponent) w
  | None => w
  end.

End OpponentMove.

(** The world after a Rock-Paper-Scissors round against the built-in
    opponent that ended with scores [np] and [no] and did not decide the
    match. *)
Definition rps_round_done (w : World) (np no : Z) (w' : World) : Prop :=
  gameState w' = gameState w /\ ended w' = ended w
  /\ rpsCurrentRound w' = (rpsCurrentRound w + 1)%Z
  /\ rpsPlayerScore w' = np /\ rpsOpponentScore w' = no
  /\ rpsPlayerChoice w' = None /\ rpsOpponentChoice w' = None
  /\ rpsRoundResult w' = None
  /\ rpsRevealing w' = false /\ rpsWaitingForOpponent w' = false
  /\ turnTime w' = 30%Z /\ timers w' = [].

(** The other side. *)
Definition other_side (s : Side) : Side :=
  match s with SideA => SideB | SideB => SideA end.

(** The choice side [s] committed in a reveal. *)
Definition choice_of (s : Side) (d : RevealData) : RPSChoice :=
  match s with SideA => rv_aChoice d | SideB => rv_bChoice d end.

(** The round result for side [s] that a reveal announces. *)
Definition reveal_result (s : Side) (d : RevealData) : RoundResult :=
  match rv_winnerSide d with
  | None => RoundDraw
  | Some ws => if decide (ws = s) then RoundWin else RoundLose
  end.


(** What a pending Connect-Four timeout must have captured for its landing
    not to leave a line unnoticed: a board without a line. *)
Definition c4_timer_no_line (t : Timer) : Prop :=
  match t with
  | C4PlayerDrop c _ _ => checkC4Winner (c4Board c) = None
  | C4AIThink _ b => checkC4Winner b = None
  | C4AIDrop _ b _ _ => checkC4Winner b = None
  | _ => True
  end.

Definition c4_line_inv (w : World) : Prop :=
  (gameState w = Playing -> checkC4Winner (c4Board w) = None)
  /\ Forall c4_timer_no_line (timers w).


(** ** Further sample sessions *)

(** Sessions against the built-in opponent in the other games. *)
Definition local_rps : Props := local_props RockPaperScissors Free 0.
Definition unruled : Props := local_props OtherGame Free 0.

(** The exit dialog is opened and the forfeit confirmed. *)
Definition forfeited `{P : Props} : World := run [OpenExitDialog; Forfeit] init.

(** Connect-Four against the built-in opponent: the player drops four
    tokens in column 0, the opponent answers in column 1. *)
Definition c4_red_wins : World :=
  @run local_c4
    [ClickC4 0; Fire 0 0; Fire 0 1; Fire 0 0;
     ClickC4 0; Fire 0 0; Fire 0 1; Fire 0 0;
     ClickC4 0; Fire 0 0; Fire 0 1; Fire 0 0;
     ClickC4 0; Fire 0 0]
    (@init local_c4).

(** Tic-Tac-Toe against the built-in opponent: X on 0, 1 and 2, O on 3
    and 4. *)
Definition ttt_x_wins : World :=
  @run local_ttt [ClickTTT 0; Fire 0 2; ClickTTT 1; Fire 0 1; ClickTTT 2]
    (@init local_ttt).

(** A reveal: side a played rock, side b paper, so side b takes the round. *)
Definition sample_reveal : RevealData :=
  {| rv_round := 1; rv_aChoice := Rock; rv_bChoice := Paper;
     rv_winnerSide := Some SideB |}.

(** A [game_end] payload with the draw flag and, against it, a winning
    side. *)
Definition flagged_draw : GameEndData :=
  {| ge_isDraw := true; ge_winnerSide := Some SideA; ge_winner := None |}.



(** The symbol the socket callbacks hold for the local player is the one
    of the first render, derived from the role.  It is the local player's
    symbol as long as no side is assigned, or the side assigned by [start]
    is the one the role stands for (a for player 1, b for player 2). *)
Definition side_agrees_with_role `{P : Props} (c : View) : Prop :=
  match side c with
  | None => True
  | Some SideA => role <> Some P2
  | Some SideB => role = Some P2
  end.


(** ** Properties *)

Ltac unfold_handlers :=
  unfold handle, fire, tick, timeout_resolution,
    handleTTTCellClick, ttt_player_fade, ttt_ai_think, ttt_ai_fade, makeAIMove,
    handleC4ColumnClick, c4_player_drop, c4_ai_think, c4_ai_drop, c4_reset,
    makeC4AIMove, handleRPSChoice, rps_ai_commit, rps_ai_reveal, rps_ai_result,
    rps_show_reveal, rps_reveal_result, rps_next_round,
    onOpponentMove, onGameEnd, onStart, onState, onRpsReveal, handleForfeit,
    pendingWinnerEffect, pendingRevealEffect,
    resync, resetTurnTimer, handleGameEnd in *.

Ltac split_cases :=
  repeat match goal with
         | |- context [match ?x with _ => _ end] => destruct x eqn:?
         end.

(** Closes a goal about a field that the handlers at hand do not write. *)
Ltac frame := unfold_handlers; cbv zeta; split_cases; cbn; congruence.

Section Properties.
Context `{P : Props}.

(** *** What the handlers leave alone *)

Lemma handle_gameClient (e : Event) (w : World) : gameClient (handle e w) = gameClient w.
Proof. destruct e; frame. Qed.

Lemma run_effects_gameClient (w : World) : gameClient (run_effects w) = gameClient w.
Proof. unfold run_effects. frame. Qed.

Lemma run_effects_boards (w : World) :
  tttBoard (run_effects w) = tttBoard w /\ c4Board (run_effects w) = c4Board w
  /\ tttCurrentPlayer (run_effects w) = tttCurrentPlayer w
  /\ c4CurrentPlayer (run_effects w) = c4CurrentPlayer w.
Proof. unfold run_effects. repeat split; frame. Qed.

(** Once the session is over the replay effects have nothing to do. *)
Lemma run_effects_finished (w : World) : gameState w = Finished -> run_effects w = w.
Proof.
  intros Hf. unfold run_effects, pendingWinnerEffect, pendingRevealEffect.
  rewrite Hf. cbn. repeat case_match; reflexivity.
Qed.

(** The replay effects settle in one pass. *)
Lemma run_effects_stable (w : World) : run_effects (run_effects w) = run_effects w.
Proof.
  unfold run_effects, pendingWinnerEffect, pendingRevealEffect.
  unfold_handlers. cbv zeta.
  destruct (gameState w) eqn:Hg, (pendingWinnerSide w) eqn:Hp, (side w) eqn:Hs,
    (pendingRpsReveal w) eqn:Hr, (decide (game_name = RockPaperScissors)),
    playMode; cbn; rewrite ?Hg, ?Hp, ?Hs, ?Hr; cbn; reflexivity.
Qed.

(** *** Session controller *)

Lemma handleGameEnd_finished (c : View) (g : Winner) (w : World) :
  gameState (handleGameEnd c g w) = Finished
  /\ winner (handleGameEnd c g w) = Some g
  /\ ended (handleGameEnd c g w) = ended w ++ [g].
Proof. unfold handleGameEnd. destruct playMode; cbn; auto. Qed.

(** C4. Entering [Finished] through [handleGameEnd]: in a staked session a
    local win yields an ARK delta of twice the stake and a loss the negated
    stake, the XP delta being the policy applied to (won, local XP, opponent
    XP); in free play both deltas are zero whatever the outcome. *)
Theorem C4_reward_deltas (c : View) (g : Winner) (w : World) :
  let w' := handleGameEnd c g w in
  gameState w' = Finished
  /\ (playMode = Stake -> g = Player ->
        earnedARK w' = (2 * stakeAmount)%Z
        /\ earnedXP w' = calculateXPChange true xp (opponentXP c))
  /\ (playMode = Stake -> g = Opponent ->
        earnedARK w' = (- stakeAmount)%Z
        /\ earnedXP w' = calculateXPChange false xp (opponentXP c))
  /\ (playMode = Free -> earnedARK w' = 0%Z /\ earnedXP w' = 0%Z).
Proof.
  cbv zeta. split; [apply handleGameEnd_finished|].
  unfold handleGameEnd.
  split; [|split].
  - intros Hm ->. rewrite Hm. cbn. rewrite bool_decide_true by done.
    split; [lia | reflexivity].
  - intros Hm ->. rewrite Hm. cbn. rewrite bool_decide_false by done.
    split; reflexivity.
  - intros Hm. rewrite Hm. cbn. split; reflexivity.
Qed.

(** C10. In a staked session a draw is rewarded exactly like a loss: the
    ARK delta is the negated stake and the XP delta is the policy's value
    for a match that was not won. *)
Theorem C10_staked_draw_is_a_loss (c : View) (w : World) :
  playMode = Stake ->
  earnedARK (handleGameEnd c Draw w) = (- stakeAmount)%Z
  /\ earnedXP (handleGameEnd c Draw w) = calculateXPChange false xp (opponentXP c)
  /\ earnedARK (handleGameEnd c Draw w) = earnedARK (handleGameEnd c Opponent w)
  /\ earnedXP (handleGameEnd c Draw w) = earnedXP (handleGameEnd c Opponent w)
  /\ calls (handleGameEnd c Draw w) = calls (handleGameEnd c Opponent w).
Proof.
  intros Hm. unfold handleGameEnd. rewrite Hm. cbn.
  rewrite !bool_decide_false by done. auto.
Qed.

(** *** Reconciliation of the terminal event with the side assignment *)


(** *** Turn clock *)

(** C7. While a gate is active (a Tic-Tac-Toe mark fading, a Connect-Four
    token dropping, the Rock-Paper-Scissors wait for the opponent or its
    reveal) a period of the clock changes nothing at all: the remaining
    seconds stay as they are and no timeout resolution is made, however
    many periods elapse. *)
Theorem C7_clock_suspended_while_gated (w : World) (n : nat) :
  fadingCell w <> None \/ c4DroppingToken w <> None
  \/ rpsWaitingForOpponent w = true \/ rpsRevealing w = true ->
  handle Tick w = w
  /\ ticks n w = w
  /\ turnTime (ticks n w) = turnTime w
  /\ gameState (ticks n w) = gameState w
  /\ ended (ticks n w) = ended w.
Proof.
  intros Hgate.
  assert (Hp : clock_paused w = true).
  { unfold clock_paused.
    destruct Hgate as [H|[H|[H|H]]].
    - rewrite (bool_decide_true (fadingCell w <> None)) by done.
      by rewrite orb_true_r.
    - rewrite (bool_decide_true (c4DroppingToken w <> None)) by done.
      by rewrite !orb_true_r.
    - rewrite H. by rewrite !orb_true_r.
    - rewrite H. by rewrite !orb_true_r. }
  assert (H1 : handle Tick w = w) by (cbn; unfold tick; by rewrite Hp).
  assert (Hn : ticks n w = w).
  { unfold ticks. induction n as [|n IH]; [reflexivity|].
    rewrite Nat.iter_succ, IH. exact H1. }
  rewrite Hn. auto.
Qed.

(** *** Input after the end *)

(** C8. Once the phase is [Finished], a click on a Tic-Tac-Toe cell, on a
    Connect-Four column or on a Rock-Paper-Scissors choice leaves the whole
    world as it was: no board, turn, score or outcome changes, nothing is
    sent and nothing is scheduled. *)
Theorem C8_input_ignored_when_finished
    (w : World) (index col : nat) (choice : RPSChoice) :
  gameState w = Finished ->
  step (ClickTTT index) w = w
  /\ step (ClickC4 col) w = w
  /\ step (ClickRPS choice) w = w.
Proof.
  intros Hf.
  assert (Ht : ttt_cell_disabled w = true)
    by (unfold ttt_cell_disabled; rewrite Hf; reflexivity).
  assert (Hc : c4_column_disabled w = true)
    by (unfold c4_column_disabled; rewrite Hf; reflexivity).
  assert (Hr : rps_choice_disabled w = true)
    by (unfold rps_choice_disabled; rewrite Hf; reflexivity).
  unfold step, handle. rewrite Ht, Hc, Hr. cbn [negb].
  rewrite !andb_false_r. auto using run_effects_finished.
Qed.

(** *** Countdown and expiry *)

Lemma setTurnTime_same (w : World) : setTurnTime (turnTime w) w = w.
Proof. destruct w as [[[] ? ? ?] ? ? ?]. reflexivity. Qed.

(** While the clock runs and more than [n] seconds remain, [n] periods take
    exactly [n] seconds off and touch nothing else. *)
Lemma ticks_countdown (n : nat) (w : World) :
  clock_paused w = false ->
  (Z.of_nat n < turnTime w)%Z ->
  ticks n w = setTurnTime (turnTime w - Z.of_nat n) w.
Proof.
  intros Hp. induction n as [|n IH]; intros Hlt.
  - cbn. rewrite Z.sub_0_r. symmetry. apply setTurnTime_same.
  - unfold ticks in *. rewrite Nat.iter_succ, IH by lia.
    cbn [handle]. unfold tick.
    change (clock_paused (setTurnTime (turnTime w - Z.of_nat n) w))
      with (clock_paused w).
    rewrite Hp.
    change (turnTime (setTurnTime (turnTime w - Z.of_nat n) w))
      with (turnTime w - Z.of_nat n)%Z.
    destruct (Z.leb_spec (turnTime w - Z.of_nat n) 1); [lia|].
    replace (turnTime w - Z.of_nat (S n))%Z
      with (turnTime w - Z.of_nat n - 1)%Z by lia.
    reflexivity.
Qed.

Lemma timeout_resolution_spec (c : View) (w : World) :
  timeout_resolution c w =
    match timeout_winner c with
    | Some g => handleGameEnd c g w
    | None => w
    end.
Proof.
  unfold timeout_resolution, timeout_winner.
  destruct game_name; repeat case_decide; reflexivity.
Qed.

(** The period on which the clock reaches zero makes the one and only
    timeout resolution; afterwards the clock stands still. *)
Lemma ticks_expiry (n : nat) (w : World) (g : Winner) :
  clock_paused w = false ->
  turnTime w = Z.of_nat (S n) ->
  timeout_winner w = Some g ->
  let w' := ticks (S n) w in
  turnTime w' = 0%Z /\ gameState w' = Finished /\ winner w' = Some g
  /\ ended w' = ended w ++ [g]
  /\ forall m, ticks m w' = w'.
Proof.
  intros Hp Ht Hg w'.
  assert (E : w' = setTurnTime 0
                (handleGameEnd (setTurnTime 1 w) g (setTurnTime 1 w))).
  { unfold w', ticks. rewrite Nat.iter_succ.
    fold (ticks n w). rewrite ticks_countdown by (auto; lia).
    replace (turnTime w - Z.of_nat n)%Z with 1%Z by lia.
    cbn [handle]. unfold tick.
    change (clock_paused (setTurnTime 1 w)) with (clock_paused w). rewrite Hp.
    change (turnTime (setTurnTime 1 w)) with 1%Z. cbn [Z.leb Z.compare Pos.compare].
    rewrite timeout_resolution_spec.
    change (timeout_winner (setTurnTime 1 w)) with (timeout_winner w).
    rewrite Hg. reflexivity. }
  assert (F : gameState w' = Finished).
  { rewrite E. unfold handleGameEnd. destruct playMode; reflexivity. }
  repeat split.
  - rewrite E. reflexivity.
  - exact F.
  - rewrite E. unfold handleGameEnd. destruct playMode; reflexivity.
  - rewrite E. unfold handleGameEnd. destruct playMode; reflexivity.
  - intros m. induction m as [|m IH]; [reflexivity|].
    unfold ticks in *. rewrite Nat.iter_succ, IH.
    cbn [handle]. unfold tick, clock_paused. rewrite F. reflexivity.
Qed.

(** When the local player holds X and red (every session against the
    built-in opponent, and a multiplayer one played as side a), the winner a
    timeout produces is the side that was not on the clock. *)
Lemma timeout_winner_when_first (c : View) :
  playerSymbol c = X -> playerColor c = Red ->
  timeout_winner c = clocked_side_loses c.
Proof.
  intros Hs Hc. unfold timeout_winner, clocked_side_loses. rewrite Hs, Hc.
  reflexivity.
Qed.

(** *** Connect-Four: a full board restarts the round *)

(** C5. When the token just landed fills the board and no four-in-a-row
    exists, the match does not end: the landing callback (the player's as
    well as the built-in opponent's) only schedules the 2000ms reset, and the
    reset empties the board, adds exactly one to the round counter and gives
    the turn to red, the fixed starting side, whoever moved last. *)
Theorem C5_full_board_restarts_round
    (c : View) (col targetRow : nat) (currentBoard : Board) (aiCol aiRow : nat)
    (w : World) (rnd : nat) :
  let newBoard := js_set (c4Board c) (targetRow * 7 + col) (Some (playerColor c)) in
  let aiBoard := js_set currentBoard (aiRow * 7 + aiCol) (Some Yellow) in
  (board_full newBoard = true -> checkC4Winner newBoard = None ->
   let w1 := fire (C4PlayerDrop c col targetRow) rnd w in
   c4Board w1 = newBoard /\ gameState w1 = gameState w /\ winner w1 = winner w
   /\ ended w1 = ended w /\ c4RoundCount w1 = c4RoundCount w
   /\ timers w1 = timers w ++ [C4Reset])
  /\ (board_full aiBoard = true -> checkC4Winner aiBoard = None ->
      let w1 := fire (C4AIDrop c currentBoard aiCol aiRow) rnd w in
      c4Board w1 = aiBoard /\ gameState w1 = gameState w /\ winner w1 = winner w
      /\ ended w1 = ended w /\ c4RoundCount w1 = c4RoundCount w
      /\ timers w1 = timers w ++ [C4Reset])
  /\ (let w2 := fire C4Reset rnd w in
      c4Board w2 = replicate 42 None
      /\ c4RoundCount w2 = (c4RoundCount w + 1)%Z
      /\ c4CurrentPlayer w2 = Red
      /\ turnTime w2 = 30%Z
      /\ gameState w2 = gameState w /\ winner w2 = winner w /\ ended w2 = ended w)
  /\ timer_delay C4Reset = 2000%Z.
Proof.
  cbv zeta. split; [|split; [|split]].
  - intros Hfull Hno. cbn [fire]. unfold c4_player_drop. cbv zeta.
    rewrite Hno, Hfull. case_decide; [done|]. cbn. auto 10.
  - intros Hfull Hno. cbn [fire]. unfold c4_ai_drop. cbv zeta.
    rewrite Hno, Hfull. case_decide; [done|]. cbn. auto 10.
  - cbn. auto 10.
  - reflexivity.
Qed.

(** *** Multiplayer: the board belongs to the server *)

Lemma handle_online_timers (e : Event) (w : World) :
  opponentType = VsPlayer ->
  Forall online_timer (timers w) ->
  Forall online_timer (timers (handle e w)).
Proof.
  intros Hmp Hall.
  destruct e; try (unfold_handlers; cbv zeta; split_cases; cbn;
                   rewrite ?Forall_app; repeat split; repeat constructor;
                   solve [assumption | congruence]).
  cbn [handle]. destruct (timers w !! k) as [t|] eqn:Hk; [|assumption].
  assert (Ht : online_timer t) by (eapply Forall_lookup_1; eauto).
  assert (Hd : Forall online_timer (delete k (timers w)))
    by (by apply Forall_delete).
  destruct t; try contradiction; unfold_handlers; cbv zeta; split_cases; cbn;
    rewrite ?Forall_app; repeat split; repeat constructor; assumption.
Qed.

Lemma run_effects_online_timers (w : World) :
  Forall online_timer (timers w) ->
  Forall online_timer (timers (run_effects w)).
Proof.
  intros Hall. unfold run_effects. unfold_handlers. cbv zeta. split_cases; cbn;
    rewrite ?Forall_app; repeat split; repeat constructor; assumption.
Qed.

Lemma handle_started (e : Event) (w : World) :
  started (handle e w) = true -> started w = true \/ gameClient w = true.
Proof.
  destruct e; try (intros H; left; revert H; frame).
  all: cbn [handle]; destruct (gameClient w); auto.
Qed.

Lemma run_effects_started (w : World) : started (run_effects w) = started w.
Proof. unfold run_effects. frame. Qed.

(** In a multiplayer session only reveal timeouts are ever pending, and the
    match can only have started through the socket client. *)
Lemma reachable_online (w : World) :
  opponentType = VsPlayer ->
  reachable w ->
  Forall online_timer (timers w) /\ (started w = true -> gameClient w = true).
Proof.
  intros Hmp Hr. induction Hr as [|e w Hr [IHt IHs]].
  - split; [constructor|]. cbn. rewrite bool_decide_true by done. discriminate.
  - split.
    + unfold step. by apply run_effects_online_timers, handle_online_timers.
    + unfold step. rewrite run_effects_started, run_effects_gameClient, handle_gameClient.
      intros H. apply handle_started in H as [H|H]; auto.
Qed.

Lemma handle_boards_online (e : Event) (w : World) :
  opponentType = VsPlayer ->
  Forall online_timer (timers w) ->
  (forall d, e <> WsState d) ->
  tttBoard (handle e w) = tttBoard w /\ c4Board (handle e w) = c4Board w.
Proof.
  intros Hmp Hall Hne.
  destruct e; try (split; frame).
  - exfalso. by eapply Hne.
  - cbn [handle]. destruct (timers w !! k) as [t|] eqn:Hk; [|done].
    assert (Ht : online_timer t) by (eapply Forall_lookup_1; eauto).
    destruct t; try contradiction; split; frame.
Qed.

(** C6. In a multiplayer session a legal local move (a click on an empty
    Tic-Tac-Toe cell, or on a Connect-Four column that still has room, while
    it is the local player's turn) sends the move, hands the perceived turn
    to the opponent and leaves the board as it was.  No event other than an
    authoritative [state] changes either board, and a [state] event replaces
    the board of the game being played by the server's. *)
Theorem C6_online_board_is_server_owned
    (w : World) (index col : nat) :
  opponentType = VsPlayer ->
  reachable w ->
  (game_name = TicTacToe -> index < length (tttBoard w) ->
   ttt_cell_disabled w = false -> cell (tttBoard w) index = None ->
   tttBoard (step (ClickTTT index) w) = tttBoard w
   /\ tttCurrentPlayer (step (ClickTTT index) w) = opponentSymbol w
   /\ calls (handle (ClickTTT index) w) = calls w ++ [SendMove index])
  /\ (game_name = ConnectFour -> col < 7 ->
      c4_column_disabled w = false -> started w = true ->
      lowest_empty_row (c4Board w) col <> None ->
      c4Board (step (ClickC4 col) w) = c4Board w
      /\ c4CurrentPlayer (step (ClickC4 col) w) = opponentColor w
      /\ calls (handle (ClickC4 col) w) = calls w ++ [SendMove col])
  /\ (forall e, (forall d, e <> WsState d) ->
      tttBoard (step e w) = tttBoard w /\ c4Board (step e w) = c4Board w)
  /\ (forall d, gameClient w = true ->
      (game_name = TicTacToe -> tttBoard (step (WsState d) w) = state_board d)
      /\ (game_name = ConnectFour -> c4Board (step (WsState d) w) = state_board d)).
Proof.
  intros Hmp Hr. destruct (reachable_online w Hmp Hr) as [Hall Hst].
  split; [|split; [|split]].
  - intros Hg Hi Hdis Hcell.
    unfold ttt_cell_disabled in Hdis.
    apply orb_false_elim in Hdis as [Hdis Hfade].
    apply orb_false_elim in Hdis as [Hdis Hturn].
    apply orb_false_elim in Hdis as [Hfin Hstarted].
    apply negb_false_iff in Hstarted.
    assert (E : handle (ClickTTT index) w
                = w |> emit (SendMove index) |> setTttCurrentPlayer (opponentSymbol w)).
    { cbn [handle]. rewrite (bool_decide_true _ Hg), (bool_decide_true _ Hi).
      unfold ttt_cell_disabled, handleTTTCellClick.
      rewrite Hstarted, Hcell, Hturn, Hfade, Hfin.
      cbn [negb orb truthy_cell].
      destruct (decide (opponentType = VsPlayer)); [|done].
      by rewrite (Hst Hstarted). }
    unfold step. destruct (run_effects_boards (handle (ClickTTT index) w)) as (-> & _ & -> & _).
    rewrite E. cbn. auto.
  - intros Hg Hc Hdis Hstarted Hrow.
    unfold c4_column_disabled in Hdis.
    apply orb_false_elim in Hdis as [Hdis Hdrop].
    apply orb_false_elim in Hdis as [Hfin Hturn].
    destruct (lowest_empty_row (c4Board w) col) as [row|] eqn:Hrow'; [|done].
    assert (E : handle (ClickC4 col) w
                = w |> emit (SendMove col) |> setC4CurrentPlayer (opponentColor w)).
    { cbn [handle]. rewrite (bool_decide_true _ Hg), (bool_decide_true _ Hc).
      unfold c4_column_disabled, handleC4ColumnClick.
      rewrite Hstarted, Hturn, Hdrop, Hfin, Hrow'.
      cbn [negb orb].
      destruct (decide (opponentType = VsPlayer)); [|done].
      by rewrite (Hst Hstarted). }
    unfold step. destruct (run_effects_boards (handle (ClickC4 col) w)) as (_ & -> & _ & ->).
    rewrite E. cbn. auto.
  - intros e Hne. unfold step.
    destruct (run_effects_boards (handle e w)) as (-> & -> & _).
    by apply handle_boards_online.
  - intros d Hc. unfold step.
    destruct (run_effects_boards (handle (WsState d) w)) as (-> & -> & _).
    cbn [handle]. rewrite Hc. unfold onState.
    split; intros ->; cbv zeta; unfold resync; destruct (state_elapsed d); reflexivity.
Qed.

(** *** Arrays *)

Lemma js_set_lookup_eq (b : Board) (i : nat) (v : option Token) :
  i < length b -> js_set b i v !! i = Some v.
Proof.
  intros Hi. unfold js_set. case_decide; [|lia]. by apply list_lookup_insert_eq.
Qed.

Lemma js_set_lookup_ne (b : Board) (i j : nat) (v : option Token) :
  i < length b -> i <> j -> js_set b i v !! j = b !! j.
Proof.
  intros Hi Hne. unfold js_set. case_decide; [|lia]. by apply list_lookup_insert_ne.
Qed.

Lemma js_set_length (b : Board) (i : nat) (v : option Token) :
  i < length b -> length (js_set b i v) = length b.
Proof. intros Hi. unfold js_set. case_decide; [|lia]. apply length_insert. Qed.

Lemma pick_elem_of {A} (rnd : nat) (l : list A) (x : A) :
  pick rnd l = Some x -> x ∈ l.
Proof. unfold pick. apply list_elem_of_lookup_2. Qed.

(** A cell drawn among the empty ones is an empty cell of the board. *)
Lemma pick_positions (rnd : nat) (v : option Token) (b : Board) (i : nat) :
  pick rnd (positions v b) = Some i -> b !! i = Some v.
Proof.
  intros H. apply pick_elem_of in H. unfold positions in H.
  by apply list_elem_of_filter in H as [H _].
Qed.

Lemma post_eviction_cells (board : Board) (sym : Token) (oldest idx : nat) :
  oldest < length board -> idx < length board -> oldest <> idx ->
  post_eviction board sym oldest idx !! oldest = Some None
  /\ post_eviction board sym oldest idx !! idx = Some (Some sym).
Proof.
  intros Ho Hi Hne. unfold post_eviction. split.
  - rewrite js_set_lookup_ne by (rewrite ?js_set_length; auto).
    by apply js_set_lookup_eq.
  - apply js_set_lookup_eq. by rewrite js_set_length.
Qed.

(** *** Tic-Tac-Toe: eviction and win detection *)

(** C2. In a session against the built-in opponent, when a side that
    already holds three marks places a fourth, the placement happens in two
    steps 400ms apart: first the side's oldest mark (the head of its history)
    is put up for removal and nothing is placed or decided; then the board
    becomes the post-eviction board, with the evicted cell empty and the new
    mark present, and win detection is run on that board only.  This holds
    for the local player's click and for the built-in opponent's move. *)
Theorem C2_eviction_precedes_win_detection
    (w : World) (index oldest : nat) (rest : list nat)
    (c : View) (currentBoard : Board) (aiOldest aiMove : nat) (aiRest : list nat)
    (rnd : nat) :
  (opponentType = VsAI ->
   started w = true -> tttCurrentPlayer w = playerSymbol w -> fadingCell w = None ->
   tttBoard w !! index = Some None ->
   playerMoves w = oldest :: rest -> 3 <= length (playerMoves w) ->
   tttBoard w !! oldest = Some (Some (playerSymbol w)) ->
   evicts_before_win_check (playerSymbol w) Player (tttBoard w) oldest index
     (TTTPlayerFade w oldest index) w (handleTTTCellClick w index w))
  /\ (3 <= length (aiOldest :: aiRest) ->
      currentBoard !! aiOldest = Some (Some O) ->
      pick rnd (positions None currentBoard) = Some aiMove ->
      evicts_before_win_check O Opponent currentBoard aiOldest aiMove
        (TTTAIFade c currentBoard (aiOldest :: aiRest) aiOldest aiMove) w
        (fire (TTTAIThink c currentBoard (aiOldest :: aiRest)) rnd w)).
Proof.
  split.
  - intros Hai Hst Hturn Hfade Hcell Hmoves Hlen Hold.
    assert (Hne : oldest <> index) by (intros ->; congruence).
    assert (Ho : oldest < length (tttBoard w)) by (by eapply lookup_lt_Some).
    assert (Hi : index < length (tttBoard w)) by (by eapply lookup_lt_Some).
    assert (E : handleTTTCellClick w index w
                = w |> setFadingCell (Some oldest)
                    |> schedule (TTTPlayerFade w oldest index)).
    { unfold handleTTTCellClick, cell. rewrite Hst, Hcell, Hturn, Hfade.
      rewrite (bool_decide_false (playerSymbol w <> playerSymbol w)) by auto.
      rewrite (bool_decide_false (None <> None)) by auto.
      cbn [negb orb truthy_cell default].
      destruct (decide (opponentType = VsPlayer)); [congruence|].
      destruct (decide (3 <= length (playerMoves w))); [|lia].
      rewrite Hmoves. reflexivity. }
    unfold evicts_before_win_check. cbv zeta. rewrite E.
    split; [cbn; auto 10|].
    split; [by apply post_eviction_cells|].
    intros rnd' w2. cbn [fire]. unfold ttt_player_fade. cbv zeta.
    fold (post_eviction (tttBoard w) (playerSymbol w) oldest index).
    destruct (decide (checkTTTWinner
        (post_eviction (tttBoard w) (playerSymbol w) oldest index)
        = Some (playerSymbol w))) as [Hw|Hw].
    + unfold handleGameEnd. destruct playMode; cbn; repeat split; auto; done.
    + destruct (decide (opponentType = VsAI)); cbn; repeat split; auto; done.
  - intros Hlen Hold Hpick.
    assert (Hcell : currentBoard !! aiMove = Some None) by (by eapply pick_positions).
    assert (Hne : aiOldest <> aiMove) by (intros ->; congruence).
    assert (Ho : aiOldest < length currentBoard) by (by eapply lookup_lt_Some).
    assert (Hi : aiMove < length currentBoard) by (by eapply lookup_lt_Some).
    unfold evicts_before_win_check. cbv zeta.
    cbn [fire]. unfold ttt_ai_think. rewrite Hpick.
    destruct (decide (3 <= length (aiOldest :: aiRest))); [|lia].
    split; [cbn; auto 10|].
    split; [by apply post_eviction_cells|].
    intros rnd' w2. unfold ttt_ai_fade. cbv zeta.
    fold (post_eviction currentBoard O aiOldest aiMove).
    destruct (decide (checkTTTWinner (post_eviction currentBoard O aiOldest aiMove)
                      = Some O)) as [Hw|Hw].
    + unfold handleGameEnd. destruct playMode; cbn; repeat split; auto; done.
    + cbn; repeat split; auto; done.
Qed.

(** *** Move histories *)

Lemma js_leb_digits (x y : nat) :
  x < 10 -> y < 10 -> js_leb x y = bool_decide (x <= y).
Proof.
  intros Hx Hy.
  do 10 (destruct x as [|x];
         [do 10 (destruct y as [|y]; [reflexivity|]); lia|]).
  lia.
Qed.

(** On one-digit numbers in ascending order the default sort changes
    nothing. *)
Lemma js_sort_ascending (l : list nat) :
  Forall (fun i => i < 10) l -> StronglySorted lt l -> js_sort l = l.
Proof.
  intros Hsmall Hsorted. induction Hsorted as [|a l Hs IH Hall]; [reflexivity|].
  apply Forall_cons in Hsmall as [Ha Hl].
  unfold js_sort in *. cbn [foldr]. rewrite IH by done.
  destruct l as [|y r]; [reflexivity|].
  apply Forall_cons in Hall as [Hay _]. apply Forall_cons in Hl as [Hy _].
  cbn [js_insert]. rewrite js_leb_digits by done.
  rewrite bool_decide_true by lia. reflexivity.
Qed.

Lemma seq_ascending (j n : nat) : StronglySorted lt (seq j n).
Proof.
  revert j. induction n as [|n IH]; intros j; cbn; constructor; [apply IH|].
  apply Forall_forall. intros x Hx. apply elem_of_seq in Hx. lia.
Qed.

Lemma filter_ascending (Q : nat -> Prop) `{!forall x, Decision (Q x)} (l : list nat) :
  StronglySorted lt l -> StronglySorted lt (filter Q l).
Proof.
  induction 1 as [|a l Hs IH Hall]; [constructor|].
  rewrite filter_cons. case_decide; [|done].
  constructor; [done|].
  apply Forall_forall. intros x Hx. apply list_elem_of_filter in Hx as [_ Hx].
  rewrite Forall_forall in Hall. auto.
Qed.

Lemma positions_ascending (v : option Token) (b : Board) :
  StronglySorted lt (positions v b).
Proof. unfold positions. apply filter_ascending, seq_ascending. Qed.

Lemma positions_bound (v : option Token) (b : Board) :
  Forall (fun i => i < length b) (positions v b).
Proof.
  apply Forall_forall. intros x Hx. unfold positions in Hx.
  apply list_elem_of_filter in Hx as [Hx _]. by eapply lookup_lt_Some.
Qed.

Lemma js_sort_positions (v : option Token) (b : Board) :
  length b <= 10 -> js_sort (positions v b) = positions v b.
Proof.
  intros Hb. apply js_sort_ascending; [|apply positions_ascending].
  eapply Forall_impl; [apply positions_bound|]. cbn. lia.
Qed.

Lemma placed_length (h : list nat) (i : nat) :
  length h <= 3 -> length (placed h i) <= 3.
Proof.
  intros Hh. unfold placed. rewrite length_app. cbn.
  case_decide; [|lia]. destruct h; cbn in *; lia.
Qed.

(** *** Histories never exceed three cells without a socket *)

Lemma reachable_run (es : list Event) (w : World) : reachable w -> reachable (run es w).
Proof.
  revert w. induction es as [|e es IH]; intros w Hr; [exact Hr|].
  cbn. apply IH. by constructor.
Qed.

Lemma reachable_gameClient (w : World) : reachable w -> gameClient w = has_client.
Proof.
  induction 1 as [|e w Hr IH]; [reflexivity|].
  unfold step. by rewrite run_effects_gameClient, handle_gameClient.
Qed.

Lemma length_snoc_le3 (l : list nat) (i : nat) :
  ~ 3 <= length l -> length (l ++ [i]) <= 3.
Proof. intros H. rewrite length_app. cbn. lia. Qed.

Lemma length_tail_snoc_le3 (l : list nat) (i : nat) :
  length l <= 3 -> length (tail l ++ [i]) <= 3.
Proof. intros H. rewrite length_app. destruct l; cbn in *; lia. Qed.

Ltac hist_solve :=
  cbn; rewrite ?Forall_app; repeat split;
  rewrite ?Forall_singleton; cbn; repeat split;
  repeat match goal with
         | H : playerMoves _ = _ |- _ => rewrite H in *; clear H
         | H : opponentMoves _ = _ |- _ => rewrite H in *; clear H
         end;
  try first [ assumption
            | apply length_snoc_le3; assumption
            | apply length_tail_snoc_le3; assumption
            | exact I
            | cbn in *; lia ].

Lemma run_effects_histories (w : World) : histories_ok w -> histories_ok (run_effects w).
Proof.
  intros (Hp & Ho & Ht). unfold histories_ok, run_effects.
  unfold_handlers. cbv zeta. split_cases; hist_solve.
Qed.

Lemma handle_histories (e : Event) (w : World) :
  gameClient w = false -> histories_ok w -> histories_ok (handle e w).
Proof.
  intros Hc (Hp & Ho & Ht). unfold histories_ok.
  destruct e; try (cbn [handle]; rewrite Hc; auto; fail);
    try (unfold_handlers; cbv zeta; split_cases; hist_solve; fail).
  cbn [handle]. destruct (timers w !! k) as [t|] eqn:Hk; [|auto].
  assert (Hok : timer_histories_ok t) by (eapply Forall_lookup_1; eauto).
  assert (Hd : Forall timer_histories_ok (delete k (timers w)))
    by (by apply Forall_delete).
  destruct t; cbn in Hok;
    try match type of Hok with _ /\ _ => destruct Hok as [? ?] end;
    unfold_handlers; cbv zeta; split_cases; hist_solve.
Qed.

(** Against the built-in opponent (and whenever no socket exists) each
    side's history holds at most three cells in every reachable world. *)
Lemma reachable_histories (w : World) :
  has_client = false -> reachable w -> histories_ok w.
Proof.
  intros Hnc Hr. induction Hr as [|e w Hr IH].
  - repeat split; cbn; auto.
  - unfold step. apply run_effects_histories, handle_histories; [|done].
    by rewrite reachable_gameClient.
Qed.

(** The replay effects leave the side and both histories alone. *)
Lemma run_effects_histories_kept (w : World) :
  side (run_effects w) = side w
  /\ playerMoves (run_effects w) = playerMoves w
  /\ opponentMoves (run_effects w) = opponentMoves w.
Proof. unfold run_effects. repeat split; frame. Qed.

Lemma agreed_symbols (c : View) :
  side_agrees_with_role c ->
  playerSymbol c = playerSymbol first_render
  /\ opponentSymbol c = opponentSymbol first_render.
Proof.
  unfold side_agrees_with_role, opponentSymbol, playerSymbol. cbn [side sess first_render].
  destruct (side c) as [[|]|]; intros H; repeat case_decide; done.
Qed.

(** What a [state] message does to the Tic-Tac-Toe hooks, whatever the
    side: the board is the server's and the histories are the positions of
    the two symbols of the first render. *)
Lemma state_sync_histories (w : World) (d : StateData) :
  game_name = TicTacToe -> gameClient w = true -> length (state_board d) <= 10 ->
  let w' := step (WsState d) w in
  side w' = side w
  /\ tttBoard w' = state_board d
  /\ playerMoves w' = positions (Some (playerSymbol first_render)) (state_board d)
  /\ opponentMoves w' = positions (Some (opponentSymbol first_render)) (state_board d).
Proof.
  intros Hg Hc Hlen. cbv zeta. unfold step. cbn [handle]. rewrite Hc.
  destruct (run_effects_histories_kept (onState first_render d w)) as (Es & Ep & Eo).
  destruct (run_effects_boards (onState first_render d w)) as (Eb & _).
  rewrite Es, Eb, Ep, Eo.
  unfold onState, resync. rewrite Hg. cbv zeta.
  destruct (state_elapsed d); cbn; rewrite !js_sort_positions by done; auto.
Qed.

(** C9, as the code has it. A placement by the local player or by the
    built-in opponent keeps that side's history in placement order: the new
    cell is appended and, when three cells are recorded, the head is given
    up, so a history of at most three cells stays so.  An authoritative
    state sync (of a board of at most ten cells), received in a session in
    which the assigned side agrees with the role, instead makes the board
    the server's and sets each side's history to the positions of that
    side's marks on it in ascending cell order; the histories then hold at
    most three cells if the server's board holds at most three marks of each
    symbol.  In a session without a socket, where no sync can happen, every
    reachable history has at most three cells. *)
Theorem C9_histories_by_operation
    (w : World) (c : View) (index oldest : nat)
    (currentBoard : Board) (moves : list nat) (aiOldest aiMove : nat)
    (rnd : nat) (d : StateData) :
  (opponentType = VsAI ->
   started w = true -> tttCurrentPlayer w = playerSymbol w -> fadingCell w = None ->
   cell (tttBoard w) index = None ->
   length (playerMoves w) < 3 ->
   playerMoves (handleTTTCellClick w index w) = placed (playerMoves w) index)
  /\ (3 <= length (playerMoves c) ->
      playerMoves (fire (TTTPlayerFade c oldest index) rnd w)
      = placed (playerMoves c) index)
  /\ (pick rnd (positions None currentBoard) = Some aiMove ->
      length moves < 3 ->
      opponentMoves (fire (TTTAIThink c currentBoard moves) rnd w)
      = placed moves aiMove)
  /\ (3 <= length moves ->
      opponentMoves (fire (TTTAIFade c currentBoard moves aiOldest aiMove) rnd w)
      = placed moves aiMove)
  /\ (forall h i, length h <= 3 -> length (placed h i) <= 3)
  /\ (forall o h i, 3 <= length (o :: h) -> placed (o :: h) i = h ++ [i])
  /\ (game_name = TicTacToe -> gameClient w = true ->
      side_agrees_with_role w ->
      length (state_board d) <= 10 ->
      let w' := step (WsState d) w in
      tttBoard w' = state_board d
      /\ playerMoves w' = positions (Some (playerSymbol w')) (tttBoard w')
      /\ opponentMoves w' = positions (Some (opponentSymbol w')) (tttBoard w')
      /\ StronglySorted lt (playerMoves w')
      /\ StronglySorted lt (opponentMoves w')
      /\ ((forall t, length (positions (Some t) (state_board d)) <= 3) ->
          length (playerMoves w') <= 3 /\ length (opponentMoves w') <= 3))
  /\ (has_client = false -> reachable w ->
      length (playerMoves w) <= 3 /\ length (opponentMoves w) <= 3).
Proof.
  repeat apply conj; try (intros Hnc Hr;
    destruct (reachable_histories w Hnc Hr) as (? & ? & _); done).
  - intros Hai Hst Hturn Hfade Hcell Hlen.
    unfold handleTTTCellClick, placed. rewrite Hst, Hcell, Hturn, Hfade.
    rewrite (bool_decide_false (playerSymbol w <> playerSymbol w)) by auto.
    rewrite (bool_decide_false (None <> None)) by auto.
    cbn [negb orb truthy_cell].
    destruct (decide (opponentType = VsPlayer)); [congruence|].
    destruct (decide (3 <= length (playerMoves w))); [lia|].
    cbv zeta. unfold handleGameEnd.
    repeat case_decide; destruct playMode; try reflexivity; congruence.
  - intros Hlen. cbn [fire]. unfold ttt_player_fade, placed. cbv zeta.
    destruct (decide (3 <= length (playerMoves c))); [|lia].
    unfold handleGameEnd.
    repeat case_decide; destruct playMode; reflexivity.
  - intros Hpick Hlen. cbn [fire]. unfold ttt_ai_think, placed. rewrite Hpick.
    destruct (decide (3 <= length moves)); [lia|].
    cbv zeta. unfold handleGameEnd.
    repeat case_decide; destruct playMode; reflexivity.
  - intros Hlen. cbn [fire]. unfold ttt_ai_fade, placed. cbv zeta.
    destruct (decide (3 <= length moves)); [|lia].
    unfold handleGameEnd.
    repeat case_decide; destruct playMode; reflexivity.
  - apply placed_length.
  - intros o h i Hlen. unfold placed. case_decide; [reflexivity|lia].
  - intros Hg Hc Hagree Hlen. cbv zeta.
    destruct (state_sync_histories w d Hg Hc Hlen) as (Es & Eb & Ep & Eo).
    cbv zeta in Es, Eb, Ep, Eo.
    assert (Hsym : playerSymbol (step (WsState d) w) = playerSymbol first_render
                   /\ opponentSymbol (step (WsState d) w) = opponentSymbol first_render).
    { apply agreed_symbols. unfold side_agrees_with_role. rewrite Es. exact Hagree. }
    destruct Hsym as [Hps Hos].
    rewrite Ep, Eo, Eb, Hps, Hos.
    split; [reflexivity|]. split; [reflexivity|]. split; [reflexivity|].
    split; [apply positions_ascending|]. split; [apply positions_ascending|].
    intros Hmarks. split; apply Hmarks.
Qed.

End Properties.

(** ** The rule engines on sample boards *)

Example ttt_row_wins :
  checkTTTWinner [Some O; None; None; Some X; Some X; Some X; None; Some O; None] = Some X.
Proof. reflexivity. Qed.

Example ttt_first_line_in_scan_order :
  checkTTTWinner [Some O; Some O; Some O; Some X; Some X; Some X; None; None; None] = Some O.
Proof. reflexivity. Qed.

Example ttt_no_line :
  checkTTTWinner [Some X; Some O; Some X; None; Some O; None; Some O; Some X; None] = None.
Proof. reflexivity. Qed.

Example c4_vertical_wins :
  checkC4Winner (foldr (fun i b => <[i := Some Red]> b) (replicate 42 None) [14; 21; 28; 35])
  = Some Red.
Proof. vm_compute. reflexivity. Qed.

Example c4_down_left_wins :
  checkC4Winner (foldr (fun i b => <[i := Some Yellow]> b) (replicate 42 None) [20; 26; 32; 38])
  = Some Yellow.
Proof. vm_compute. reflexivity. Qed.

Example c4_no_wrap_around :
  checkC4Winner (foldr (fun i b => <[i := Some Red]> b) (replicate 42 None) [5; 6; 7; 8])
  = None.
Proof. vm_compute. reflexivity. Qed.

Example c4_drawn_board :
  length drawn_board = 42 /\ board_full drawn_board = true
  /\ checkC4Winner drawn_board = None.
Proof. vm_compute. auto. Qed.

Example c4_landing_row :
  lowest_empty_row (<[38 := Some Red]> (<[31 := Some Yellow]> (replicate 42 None))) 3
  = Some 3
  /\ lowest_empty_row drawn_board 3 = None.
Proof. vm_compute. auto. Qed.

Example js_sort_orders_by_text : js_sort [10; 9; 1; 2] = [1; 10; 2; 9].
Proof. vm_compute. reflexivity. Qed.

Example rps_rules :
  determineRPSWinner (Some Rock) (Some Scissors) = RoundWin
  /\ determineRPSWinner (Some Rock) (Some Paper) = RoundLose
  /\ determineRPSWinner (Some Paper) (Some Paper) = RoundDraw
  /\ determineRPSWinner None (Some Paper) = RoundDraw.
Proof. repeat split. Qed.

(** The phase test that protects a finished session sits in the buttons:
    called directly on a finished world, the choice handler would still
    record the choice. *)
Example handlers_do_not_test_the_phase :
  let P := local_props RockPaperScissors Free 0 in
  let w := ticks 30 init in
  gameState w = Finished
  /\ rpsPlayerChoice (handleRPSChoice w (Some Rock) w) = Some Rock
  /\ step (ClickRPS Rock) w = w.
Proof. vm_compute. auto. Qed.

(** ** The properties on sample sessions *)

(** C3. The timeout branch tests the turn owner against X (and red), not
    against the local player's own symbol.  In a multiplayer Tic-Tac-Toe
    match where the local player is side b (hence O) and side a (X, the
    opponent) is on a 30 second clock, 31 periods without a reset end the
    session exactly once, but with the opponent, who was on the clock,
    recorded as the winner and the stake taken from the local player; the
    side on the clock forfeiting would make the local player the winner. *)
Theorem C3_timeout_resolves_against_side_b :
  let P := online_props TicTacToe in
  let w0 := online_started TicTacToe SideB SideA in
  let w := ticks 31 w0 in
  (playerSymbol w0 = O /\ tttCurrentPlayer w0 = X /\ turnTime w0 = 30%Z
   /\ clock_paused w0 = false /\ gameState w0 = Playing)
  /\ turnTime (ticks 29 w0) = 1%Z /\ gameState (ticks 29 w0) = Playing
  /\ gameState w = Finished /\ ended w = [Opponent]
  /\ winner w = Some Opponent /\ earnedARK w = (-10)%Z
  /\ clocked_side_loses w0 = Some Player.
Proof. vm_compute. repeat split; reflexivity. Qed.


Lemma C2_witness :
  let P := local_ttt in
  let w := ttt_three_each in
  let post := post_eviction (tttBoard w) X 0 2 in
  evicts_before_win_check X Player (tttBoard w) 0 2
    (TTTPlayerFade w 0 2) w (handleTTTCellClick w 2 w)
  /\ evicts_before_win_check O Opponent post 3 0
       (TTTAIFade w post [3; 4; 8] 3 0) w (fire (TTTAIThink w post [3; 4; 8]) 0 w).
Proof.
  cbv zeta.
  destruct (@C2_eviction_precedes_win_detection local_ttt ttt_three_each
              2 0 [1; 5] ttt_three_each
              (post_eviction (tttBoard ttt_three_each) X 0 2) 3 0 [4; 8] 0)
    as [H1 H2].
  split.
  - apply H1; first [reflexivity | vm_compute; lia].
  - apply H2; first [reflexivity | vm_compute; lia].
Defined.

(** With X on 0, 1, 5, placing on 2 would complete the top row if the
    oldest mark stayed; it is evicted first, so no line is found and the
    match goes on. *)
Example eviction_forgoes_a_line :
  let P := local_ttt in
  let w := ttt_three_each in
  let w' := run [ClickTTT 2; Fire 0 0] w in
  checkTTTWinner (js_set (tttBoard w) 2 (Some X)) = Some X
  /\ tttBoard w' = [None; Some X; Some X; Some O; Some O; Some X; None; None; Some O]
  /\ playerMoves w' = [1; 5; 2]
  /\ gameState w' = Playing /\ ended w' = [].
Proof. vm_compute. repeat split; reflexivity. Qed.

Lemma C4_witness :
  (let P := staked_ttt in
   earnedARK (handleGameEnd first_render Player init) = 20%Z
   /\ earnedARK (handleGameEnd first_render Opponent init) = (-10)%Z
   /\ earnedXP (handleGameEnd first_render Player init)
      = sample_xp_policy true 1000 800)
  /\ (let P := local_ttt in
      earnedARK (handleGameEnd first_render Player init) = 0%Z
      /\ earnedXP (handleGameEnd first_render Opponent init) = 0%Z).
Proof.
  cbv zeta.
  destruct (@C4_reward_deltas staked_ttt (@first_render staked_ttt) Player
              (@init staked_ttt)) as (_ & Hwin & _ & _).
  destruct (@C4_reward_deltas staked_ttt (@first_render staked_ttt) Opponent
              (@init staked_ttt)) as (_ & _ & Hloss & _).
  destruct (@C4_reward_deltas local_ttt (@first_render local_ttt) Player
              (@init local_ttt)) as (_ & _ & _ & Hfree1).
  destruct (@C4_reward_deltas local_ttt (@first_render local_ttt) Opponent
              (@init local_ttt)) as (_ & _ & _ & Hfree2).
  cbv zeta in *.
  destruct (Hwin eq_refl eq_refl) as [Ha Hx].
  destruct (Hloss eq_refl eq_refl) as [Hb _].
  destruct (Hfree1 eq_refl) as [Hc _].
  destruct (Hfree2 eq_refl) as [_ Hd].
  repeat apply conj; assumption.
Defined.

Lemma C5_witness :
  let P := local_c4 in
  let c := c4_view (<[0 := None]> drawn_board) Red in
  let w1 := fire (C4PlayerDrop c 0 0) 0 init in
  let w1' := fire (C4AIDrop c (<[1 := None]> drawn_board) 1 0) 0 init in
  let w2 := fire C4Reset 0 w1' in
  (c4Board w1 = drawn_board /\ gameState w1 = Playing /\ timers w1 = [C4Reset])
  /\ (c4Board w1' = drawn_board /\ gameState w1' = Playing /\ timers w1' = [C4Reset])
  /\ c4Board w2 = replicate 42 None /\ c4RoundCount w2 = 2%Z
  /\ c4CurrentPlayer w2 = Red /\ gameState w2 = Playing.
Proof.
  cbv zeta.
  destruct (@C5_full_board_restarts_round local_c4
              (@c4_view local_c4 (<[0 := None]> drawn_board) Red) 0 0
              (<[1 := None]> drawn_board) 1 0 (@init local_c4) 0)
    as (Hp & Ha & _ & _).
  destruct (@C5_full_board_restarts_round local_c4
              (@c4_view local_c4 (<[0 := None]> drawn_board) Red) 0 0
              (<[1 := None]> drawn_board) 1 0
              (@fire local_c4
                 (C4AIDrop (@c4_view local_c4 (<[0 := None]> drawn_board) Red)
                    (<[1 := None]> drawn_board) 1 0) 0 (@init local_c4)) 0)
    as (_ & _ & Hr & _).
  cbv zeta in *.
  destruct (Hp eq_refl eq_refl) as (H1 & H2 & _ & _ & _ & H3).
  destruct (Ha eq_refl eq_refl) as (H4 & H5 & _ & _ & _ & H6).
  destruct Hr as (H7 & H8 & H9 & _ & H10 & _).
  repeat apply conj; assumption.
Defined.

Lemma C6_witness :
  (let P := online_props TicTacToe in
   let w := online_started TicTacToe SideA SideA in
   let b := [Some X; None; None; None; Some O; None; None; None; None] in
   tttBoard (step (ClickTTT 4) w) = tttBoard w
   /\ tttCurrentPlayer (step (ClickTTT 4) w) = O
   /\ calls (handle (ClickTTT 4) w) = [SendMove 4]
   /\ tttBoard (step Tick w) = tttBoard w
   /\ tttBoard (step (WsState (state_of b SideB)) w) = b)
  /\ (let P := online_props ConnectFour in
      let w := online_started ConnectFour SideA SideA in
      c4Board (step (ClickC4 3) w) = c4Board w
      /\ c4CurrentPlayer (step (ClickC4 3) w) = Yellow
      /\ calls (handle (ClickC4 3) w) = [SendMove 3]).
Proof.
  cbv zeta. split.
  - destruct (@C6_online_board_is_server_owned (online_props TicTacToe)
                (online_started TicTacToe SideA SideA) 4 0 eq_refl
                (reach_step _ _ reach_init))
      as (Hclick & _ & Hframe & Hstate).
    destruct (Hclick eq_refl ltac:(vm_compute; lia) eq_refl eq_refl) as (H1 & H2 & H3).
    destruct (Hframe Tick ltac:(discriminate)) as [H4 _].
    destruct (Hstate (state_of [Some X; None; None; None; Some O; None; None; None; None]
                        SideB) eq_refl) as [H5 _].
    repeat apply conj; [exact H1 | exact H2 | exact H3 | exact H4 | exact (H5 eq_refl)].
  - destruct (@C6_online_board_is_server_owned (online_props ConnectFour)
                (online_started ConnectFour SideA SideA) 0 3 eq_refl
                (reach_step _ _ reach_init))
      as (_ & Hclick & _ & _).
    destruct (Hclick eq_refl ltac:(vm_compute; lia) eq_refl eq_refl
                ltac:(vm_compute; discriminate)) as (H1 & H2 & H3).
    repeat apply conj; assumption.
Defined.

Lemma C7_witness :
  let P := local_ttt in
  let w := handle (ClickTTT 2) ttt_three_each in
  fadingCell w = Some 0
  /\ ticks 40 w = w /\ turnTime (ticks 40 w) = 30%Z /\ gameState (ticks 40 w) = Playing.
Proof.
  cbv zeta.
  destruct (@C7_clock_suspended_while_gated local_ttt
              (@handle local_ttt (ClickTTT 2) ttt_three_each) 40)
    as (_ & H1 & H2 & H3 & _).
  { left. vm_compute. discriminate. }
  repeat apply conj; [reflexivity | exact H1 | exact H2 | exact H3].
Defined.

Lemma C8_witness :
  let P := local_ttt in
  let w := ticks 30 init in
  gameState w = Finished
  /\ step (ClickTTT 4) w = w /\ step (ClickC4 3) w = w /\ step (ClickRPS Rock) w = w.
Proof.
  cbv zeta.
  destruct (@C8_input_ignored_when_finished local_ttt
              (@ticks local_ttt 30 (@init local_ttt)) 4 3 Rock eq_refl)
    as (H1 & H2 & H3).
  repeat apply conj; [reflexivity | exact H1 | exact H2 | exact H3].
Defined.

Lemma C9_witness :
  (let P := local_ttt in
   let w := ttt_three_each in
   playerMoves (handleTTTCellClick init 2 init) = [2]
   /\ playerMoves (fire (TTTPlayerFade w 0 2) 0 init) = [1; 5; 2]
   /\ opponentMoves (fire (TTTAIThink w (tttBoard w) [3]) 0 init) = [3; 2]
   /\ opponentMoves (fire (TTTAIFade w (tttBoard w) [3; 4; 8] 3 2) 0 init) = [4; 8; 2]
   /\ length (playerMoves w) <= 3 /\ length (opponentMoves w) <= 3)
  /\ (let P := online_props TicTacToe in
      let w' := step (WsState (state_of (tttBoard x_placed_5_then_2) SideB))
                  (online_started TicTacToe SideA SideA) in
      tttBoard w' = tttBoard x_placed_5_then_2
      /\ playerMoves w' = [2; 5] /\ opponentMoves w' = [0]
      /\ length (playerMoves w') <= 3 /\ length (opponentMoves w') <= 3).
Proof.
  cbv zeta. split.
  - destruct (@C9_histories_by_operation local_ttt (@init local_ttt) ttt_three_each
                2 0 (tttBoard ttt_three_each) [3] 3 2 0
                (state_of (tttBoard x_placed_5_then_2) SideA))
      as (H1 & H2 & H3 & _).
    destruct (@C9_histories_by_operation local_ttt ttt_three_each ttt_three_each
                2 0 (tttBoard ttt_three_each) [3; 4; 8] 3 2 0
                (state_of (tttBoard x_placed_5_then_2) SideA))
      as (_ & _ & _ & H4 & _ & _ & _ & Hsize).
    destruct (Hsize eq_refl (reachable_run _ _ reach_init)) as (H7 & H8).
    repeat apply conj.
    + apply H1; first [reflexivity | vm_compute; lia].
    + apply H2. vm_compute. lia.
    + apply H3; first [reflexivity | vm_compute; lia].
    + apply H4. vm_compute. lia.
    + exact H7.
    + exact H8.
  - destruct (@C9_histories_by_operation (online_props TicTacToe)
                (online_started TicTacToe SideA SideA)
                (online_started TicTacToe SideA SideA)
                0 0 [] [] 0 0 0
                (state_of (tttBoard x_placed_5_then_2) SideB))
      as (_ & _ & _ & _ & _ & _ & Hsync & _).
    cbv zeta in Hsync.
    destruct (Hsync eq_refl eq_refl ltac:(vm_compute; discriminate)
                ltac:(vm_compute; lia))
      as (Hb & Hp & Ho & _ & _ & Hlen).
    destruct Hlen as [Hlp Hlo].
    { intros t. destruct t; vm_compute; lia. }
    repeat apply conj; [exact Hb|exact Hp|exact Ho|exact Hlp|exact Hlo].
Defined.

(** C9 as stated fails for the state sync.  Player 1, made side a by
    [start], holds X.  The server's board shows X on cell 5, then O on cell
    0 as well, then also X on cell 2: X was placed on 5 first and on 2 later,
    and a session against the built-in opponent with the same placements
    records the history 5, 2.  After the third [state] the history is 2, 5:
    its head is the mark placed last, not the next one to be evicted. *)
Lemma C9_state_sync_forgets_placement_order :
  let wl := x_placed_5_then_2 in
  let P := online_props TicTacToe in
  let w0 := online_started TicTacToe SideA SideA in
  let b1 := [None; None; None; None; None; Some X; None; None; None] in
  let b2 := [Some O; None; None; None; None; Some X; None; None; None] in
  let b3 := [Some O; None; Some X; None; None; Some X; None; None; None] in
  let w1 := step (WsState (state_of b1 SideB)) w0 in
  let w3 := run [WsState (state_of b2 SideA); WsState (state_of b3 SideB)] w1 in
  (tttBoard wl = b3 /\ playerMoves wl = [5; 2]
   /\ playerMoves wl = placed (placed [] 5) 2)
  /\ (side w0 = Some SideA /\ playerSymbol w0 = X)
  /\ playerMoves w1 = [5]
  /\ tttBoard w3 = b3
  /\ playerMoves w3 = [2; 5]
  /\ head (playerMoves w3) = Some 2
  /\ playerMoves w3 <> placed (placed [] 5) 2.
Proof. vm_compute. repeat split; try reflexivity. discriminate. Qed.

(** When the side assigned by [start] is not the one the role stands for
    (player 1 made side b, so holding O), the socket callback still holds
    the symbol of the first render: a state sync files the opponent's X
    cells under the local player's history and the local player's O cell
    under the opponent's. *)
Example state_sync_reads_the_symbol_of_the_first_render :
  let P := online_props TicTacToe in
  let w0 := online_started TicTacToe SideB SideA in
  let b := [Some X; None; None; None; Some O; None; None; None; Some X] in
  let w := step (WsState (state_of b SideB)) w0 in
  role = Some P1 /\ side w = Some SideB /\ playerSymbol w = O
  /\ tttBoard w = b
  /\ playerMoves w = [0; 8] /\ opponentMoves w = [4].
Proof. vm_compute. repeat split; reflexivity. Qed.

Lemma C10_witness :
  let P := staked_ttt in
  earnedARK (handleGameEnd first_render Draw init) = (-10)%Z
  /\ earnedXP (handleGameEnd first_render Draw init) = sample_xp_policy false 1000 800
  /\ earnedXP (handleGameEnd first_render Draw init)
     = earnedXP (handleGameEnd first_render Opponent init).
Proof.
  cbv zeta.
  destruct (@C10_staked_draw_is_a_loss staked_ttt (@first_render staked_ttt)
              (@init staked_ttt) eq_refl) as (H1 & H2 & _ & H3 & _).
  repeat apply conj; assumption.
Defined.

(** ** Further properties of the session *)

Section SessionProperties.
Context `{P : Props}.

Lemma handle_keeps_finished (e : Event) (w : World) :
  gameState w = Finished -> gameState (handle e w) = Finished.
Proof. intros Hf. destruct e; frame. Qed.

Lemma handle_keeps_started (e : Event) (w : World) :
  started w = true -> started (handle e w) = true.
Proof. intros Hs. destruct e; frame. Qed.

(** X1. The phase is one-way: whatever event follows, a finished session
    stays finished, and a started match stays started. *)
Theorem X1_finished_is_absorbing (es : list Event) (w : World) :
  (gameState w = Finished -> gameState (run es w) = Finished)
  /\ (started w = true -> started (run es w) = true).
Proof.
  split; revert w; induction es as [|e es IH]; intros w H; cbn; auto; apply IH.
  - unfold step. rewrite run_effects_finished; by apply handle_keeps_finished.
  - unfold step. rewrite run_effects_started. by apply handle_keeps_started.
Qed.

Ltac leb_hyps :=
  repeat match goal with
         | H : (_ <=? _)%Z = false |- _ => apply Z.leb_gt in H
         | H : (_ <=? _)%Z = true |- _ => apply Z.leb_le in H
         end.

Lemma run_effects_turnTime (w : World) : turnTime (run_effects w) = turnTime w.
Proof. unfold run_effects. frame. Qed.

Lemma step_turnTime_nonneg (e : Event) (w : World) :
  (0 <= turnTime w)%Z -> (0 <= turnTime (step e w))%Z.
Proof.
  unfold step. rewrite run_effects_turnTime.
  intros H0. destruct e; unfold_handlers; cbv zeta; split_cases; cbn; leb_hyps; lia.
Qed.

(** X2. The remaining seconds never go below zero in any reachable world,
    and an event never takes them above the 30 second budget as long as the
    timestamp it carries is not ahead of the local clock. *)
Theorem X2_turn_time_bounds (e : Event) (w : World) :
  (reachable w -> (0 <= turnTime w)%Z)
  /\ (elapsed_nonneg e -> (turnTime w <= 30)%Z -> (turnTime (step e w) <= 30)%Z).
Proof.
  split.
  - induction 1 as [|e' w' Hr IH]; [cbn; lia|]. by apply step_turnTime_nonneg.
  - unfold step. rewrite run_effects_turnTime. intros He H30.
    destruct e; cbn in He; unfold_handlers; cbv zeta; split_cases; cbn;
      leb_hyps; cbn in *; try lia.
    all: repeat match goal with
                | H : start_elapsed _ = Some _ |- _ => rewrite H in He
                | H : state_elapsed _ = Some _ |- _ => rewrite H in He
                end; lia.
Qed.

Lemma handle_outcome_consistent (e : Event) (w : World) :
  outcome_consistent w -> outcome_consistent (handle e w).
Proof.
  intros [Hp Hf]. unfold outcome_consistent.
  destruct e; unfold_handlers; cbv zeta; split_cases; cbn;
    (split; intros Hg;
     [ first [ congruence | by (apply Hp; congruence) ]
     | first [ congruence | by (apply Hf; congruence)
             | split; [by destruct (ended w) | by rewrite last_snoc] ] ]).
Qed.

Lemma run_effects_outcome_consistent (w : World) :
  outcome_consistent w -> outcome_consistent (run_effects w).
Proof.
  intros [Hp Hf]. unfold outcome_consistent, run_effects.
  unfold_handlers; cbv zeta; split_cases; cbn;
    (split; intros Hg;
     [ first [ congruence | by (apply Hp; congruence) ]
     | first [ congruence | by (apply Hf; congruence)
             | split; [by destruct (ended w) | by rewrite last_snoc] ] ]).
Qed.

(** X3. In every reachable world the phase, the recorded winner and the
    rewards agree: while the session is playing there is no winner, no
    resolution has been made and both reward deltas are zero; once it is
    finished at least one resolution has been made and the recorded winner
    is the one of the latest resolution. *)
Theorem X3_phase_and_outcome_agree (w : World) :
  reachable w -> outcome_consistent w.
Proof.
  induction 1 as [|e w Hr IH].
  - split; [cbn; auto|discriminate].
  - by apply run_effects_outcome_consistent, handle_outcome_consistent.
Qed.

Ltac calls_solve :=
  cbn; rewrite ?Forall_app, ?Forall_singleton; cbn;
  first [ congruence | assumption | tauto ].

Lemma handle_free_play (e : Event) (w : World) :
  playMode = Free ->
  earnedARK w = 0%Z /\ earnedXP w = 0%Z /\ Forall is_send (calls w) ->
  earnedARK (handle e w) = 0%Z /\ earnedXP (handle e w) = 0%Z
  /\ Forall is_send (calls (handle e w)).
Proof.
  intros Hfree (Ha & Hx & Hc).
  destruct e; unfold_handlers; cbv zeta; split_cases; repeat apply conj; calls_solve.
Qed.

Lemma run_effects_free_play (w : World) :
  playMode = Free ->
  earnedARK w = 0%Z /\ earnedXP w = 0%Z /\ Forall is_send (calls w) ->
  earnedARK (run_effects w) = 0%Z /\ earnedXP (run_effects w) = 0%Z
  /\ Forall is_send (calls (run_effects w)).
Proof.
  intros Hfree (Ha & Hx & Hc). unfold run_effects.
  unfold_handlers; cbv zeta; split_cases; repeat apply conj; calls_solve.
Qed.

(** X4. A free-play session never touches the wallet: in every reachable
    world both reward deltas are zero and no XP has been handed to the
    wallet, whatever the outcome and however often the session was
    resolved. *)
Theorem X4_free_play_never_rewards (w : World) :
  playMode = Free ->
  reachable w ->
  earnedARK w = 0%Z /\ earnedXP w = 0%Z /\ Forall is_send (calls w).
Proof.
  intros Hfree. induction 1 as [|e w Hr IH].
  - repeat split. constructor.
  - by apply run_effects_free_play, handle_free_play.
Qed.

Lemma handle_offline (e : Event) (w : World) :
  gameClient w = false ->
  side w = None /\ pendingWinnerSide w = None /\ pendingRpsReveal w = None
  /\ Forall is_addXP (calls w) ->
  side (handle e w) = None /\ pendingWinnerSide (handle e w) = None
  /\ pendingRpsReveal (handle e w) = None /\ Forall is_addXP (calls (handle e w)).
Proof.
  intros Hnc (Hs & Hp & Hr & Hc).
  destruct e; unfold_handlers; cbv zeta; split_cases; repeat apply conj; calls_solve.
Qed.

Lemma run_effects_offline (w : World) :
  side w = None /\ pendingWinnerSide w = None /\ pendingRpsReveal w = None
  /\ Forall is_addXP (calls w) ->
  run_effects w = w.
Proof.
  intros (Hs & Hp & Hr & Hc). unfold run_effects, pendingWinnerEffect, pendingRevealEffect.
  rewrite Hs, Hp. cbn. repeat case_match; reflexivity.
Qed.

(** X5. Without a socket client (a session against the built-in opponent,
    or a multiplayer one that has no match id) nothing is ever sent and
    nothing is ever received: in every reachable world the only calls made
    are the wallet's, the local side is unassigned and no terminal event or
    reveal is buffered, so the replay effects never run. *)
Theorem X5_offline_session_is_silent (w : World) :
  has_client = false ->
  reachable w ->
  Forall is_addXP (calls w) /\ side w = None /\ pendingWinnerSide w = None
  /\ pendingRpsReveal w = None /\ run_effects w = w.
Proof.
  intros Hnc Hr.
  assert (H : side w = None /\ pendingWinnerSide w = None
              /\ pendingRpsReveal w = None /\ Forall is_addXP (calls w)).
  { induction Hr as [|e w Hr IH].
    - repeat split. constructor.
    - unfold step. rewrite run_effects_offline.
      all: apply handle_offline; auto; by rewrite reachable_gameClient. }
  pose proof (run_effects_offline w H). tauto.
Qed.

Lemma ticks_add (a b : nat) (w : World) : ticks (a + b) w = ticks a (ticks b w).
Proof. unfold ticks. apply Nat.iter_add. Qed.

(** X6. Whatever budget the clock holds, [n + 1] seconds say, an
    uninterrupted run of periods takes one second off per period for the
    first [n] of them without touching phase or outcome; the next period
    finishes the session with the winner the timeout branch picks, and from
    then on, however many periods follow, the session is still finished with
    that single resolution. *)
Theorem X6_clock_expires_once (n : nat) (w : World) (g : Winner) :
  clock_paused w = false ->
  turnTime w = Z.of_nat (S n) ->
  timeout_winner w = Some g ->
  (forall m, m <= n ->
     turnTime (ticks m w) = (turnTime w - Z.of_nat m)%Z
     /\ gameState (ticks m w) = gameState w /\ ended (ticks m w) = ended w)
  /\ (forall m, S n <= m ->
      turnTime (ticks m w) = 0%Z /\ gameState (ticks m w) = Finished
      /\ winner (ticks m w) = Some g /\ ended (ticks m w) = ended w ++ [g]).
Proof.
  intros Hp Ht Hg. split.
  - intros m Hm. rewrite ticks_countdown by (auto; lia). cbn. auto.
  - intros m Hm.
    destruct (ticks_expiry n w g Hp Ht Hg) as (H1 & H2 & H3 & H4 & H5).
    replace m with ((m - S n) + S n) by lia.
    rewrite ticks_add, H5. auto.
Qed.

(** X7. For a game the page has no rules for (chess), the timeout branch
    resolves nothing: the clock runs down to zero and stays there, and no
    number of periods ends the session. *)
Theorem X7_unruled_game_never_times_out (m : nat) (w : World) :
  game_name = OtherGame ->
  (0 <= turnTime w)%Z ->
  gameState (ticks m w) = gameState w /\ winner (ticks m w) = winner w
  /\ ended (ticks m w) = ended w
  /\ (0 <= turnTime (ticks m w) <= turnTime w)%Z
  /\ (clock_paused w = false ->
      turnTime (ticks m w) = Z.max 0 (turnTime w - Z.of_nat m)).
Proof.
  intros Hgame H0. induction m as [|m IH].
  - cbn. repeat split; try lia.
  - destruct IH as (Hg & Hw & He & Ht & Hz).
    unfold ticks in *. rewrite Nat.iter_succ.
    set (w' := Nat.iter m (handle Tick) w) in *.
    assert (Hp : clock_paused w' = clock_paused w).
    { unfold clock_paused. rewrite Hg.
      clear -Hgame. unfold w'. induction m as [|m IH]; [reflexivity|].
      rewrite Nat.iter_succ.
      set (v := Nat.iter m (handle Tick) w) in *.
      cbn [handle]. unfold tick, timeout_resolution. rewrite Hgame.
      destruct (clock_paused v); [exact IH|].
      destruct (turnTime v <=? 1)%Z; exact IH. }
    cbn [handle]. unfold tick, timeout_resolution. rewrite Hgame, Hp.
    destruct (clock_paused w) eqn:Hcp.
    + repeat split; auto; try lia; try discriminate.
    + specialize (Hz eq_refl).
      destruct (Z.leb_spec (turnTime w') 1); cbn; repeat split; auto; lia.
Qed.

End SessionProperties.

(** ** Further properties of the rule engines *)

Section RuleEngines.

Lemma first_line_Some {A} (test : A -> option Token) (ls : list A) (t : Token) :
  first_line test ls = Some t -> exists l, l ∈ ls /\ test l = Some t.
Proof.
  induction ls as [|l ls IH]; cbn; [discriminate|].
  destruct (test l) as [u|] eqn:Hl.
  - intros [= ->]. exists l. split; [left|done].
  - intros H. destruct (IH H) as (l' & Hin & Ht). exists l'. split; [by right|done].
Qed.

Lemma first_line_None {A} (test : A -> option Token) (ls : list A) :
  first_line test ls = None <-> forall l, l ∈ ls -> test l = None.
Proof.
  induction ls as [|l ls IH]; cbn.
  - split; [intros _ l Hl; by apply elem_of_nil in Hl|done].
  - destruct (test l) as [u|] eqn:Hl.
    + split; [discriminate|]. intros H. rewrite <- Hl. apply H. left.
    + rewrite IH. split.
      * intros H l' Hin. apply elem_of_cons in Hin as [->|Hin]; auto.
      * intros H l' Hin. apply H. by right.
Qed.

Lemma ttt_line_Some (b : Board) (x y z : nat) (t : Token) :
  ttt_line b (x, y, z) = Some t
  <-> cell b x = Some t /\ cell b y = Some t /\ cell b z = Some t.
Proof.
  unfold ttt_line. destruct (cell b x) as [u|]; [|split; [discriminate|by intros [? _]]].
  destruct (decide (cell b y = Some u)) as [Hy|Hy],
           (decide (cell b z = Some u)) as [Hz|Hz];
    rewrite ?(bool_decide_true _ Hy), ?(bool_decide_false _ Hy),
            ?(bool_decide_true _ Hz), ?(bool_decide_false _ Hz); cbn;
    (split; [intros [= <-]; auto | intros ([= <-] & ? & ?); congruence])
    || (split; [discriminate | intros ([= <-] & ? & ?); congruence]).
Qed.

Lemma ttt_line_None (b : Board) (l : nat * nat * nat) :
  ttt_line b l = None <-> forall t, ttt_line b l <> Some t.
Proof. destruct (ttt_line b l); naive_solver. Qed.

Lemma ttt_detected_line (b : Board) (t : Token) :
  checkTTTWinner b = Some t -> three_in_line b t.
Proof.
  unfold checkTTTWinner, three_in_line.
  intros H. apply first_line_Some in H as ([[x y] z] & Hin & Hl).
  apply ttt_line_Some in Hl. eauto 10.
Qed.

Lemma ttt_undetected (b : Board) :
  checkTTTWinner b = None <-> forall u, ~ three_in_line b u.
Proof.
  unfold checkTTTWinner, three_in_line. rewrite first_line_None. split.
  - intros H u (x & y & z & Hin & Hc). apply ttt_line_Some in Hc.
    rewrite (H _ Hin) in Hc. discriminate.
  - intros H [[x y] z] Hin. apply ttt_line_None. intros u Hu.
    apply ttt_line_Some in Hu. apply (H u). eauto 10.
Qed.

(** X8. Tic-Tac-Toe win detection is exact: it reports a token only if
    that token holds all three cells of one of the eight lines, and it
    reports nothing exactly when no token holds a line. *)
Theorem X8_ttt_detection_is_exact (b : Board) (t : Token) :
  (checkTTTWinner b = Some t -> three_in_line b t)
  /\ (checkTTTWinner b = None <-> forall u, ~ three_in_line b u).
Proof. split; [apply ttt_detected_line|apply ttt_undetected]. Qed.

Lemma cell_rename (f : Token -> Token) (b : Board) (i : nat) :
  cell (rename f b) i = f <$> cell b i.
Proof.
  unfold cell, rename. revert i.
  induction b as [|v b IH]; intros [|i]; cbn; try reflexivity;
    first [by destruct v | apply IH].
Qed.

Lemma cell_rename_eq (f : Token -> Token) `{!Inj (=) (=) f} (b : Board) (i : nat) (t : Token) :
  bool_decide (cell (rename f b) i = Some (f t)) = bool_decide (cell b i = Some t).
Proof.
  apply bool_decide_ext. rewrite cell_rename.
  destruct (cell b i) as [u|]; cbn; [|naive_solver].
  split; [intros [= H]; by apply (inj f) in H as ->|by intros [= ->]].
Qed.

Lemma first_line_rename {A} (f : Token -> Token) (test test' : A -> option Token)
    (ls : list A) :
  (forall l, test' l = f <$> test l) ->
  first_line test' ls = f <$> first_line test ls.
Proof.
  intros H. induction ls as [|l ls IH]; cbn; [reflexivity|].
  rewrite H. destruct (test l); cbn; [reflexivity|exact IH].
Qed.

(** X9. Win detection does not depend on which token is which: renaming
    the tokens of a board one-to-one renames the reported winner
    accordingly, for Tic-Tac-Toe and for Connect-Four.  In particular,
    exchanging X and O exchanges the winner. *)
Theorem X9_detection_commutes_with_renaming
    (f : Token -> Token) (b : Board) :
  Inj (=) (=) f ->
  checkTTTWinner (rename f b) = f <$> checkTTTWinner b
  /\ checkC4Winner (rename f b) = f <$> checkC4Winner b.
Proof.
  intros Hf. split.
  - apply first_line_rename. intros [[x y] z]. unfold ttt_line.
    rewrite cell_rename. destruct (cell b x) as [u|]; cbn; [|reflexivity].
    rewrite !cell_rename_eq by done. by case_match.
  - apply first_line_rename. intros [idx d]. unfold c4_line.
    rewrite cell_rename. destruct (cell b idx) as [u|]; cbn; [|reflexivity].
    rewrite !cell_rename_eq by done. by case_match.
Qed.

Lemma c4_line_Some (b : Board) (idx o : nat) (t : Token) :
  c4_line b (idx, o) = Some t
  <-> forall k, k < 4 -> cell b (idx + k * o) = Some t.
Proof.
  unfold c4_line. split.
  - destruct (cell b idx) as [u|] eqn:H0; [|discriminate].
    destruct (decide (cell b (idx + o) = Some u)) as [H1|H1];
      [rewrite (bool_decide_true _ H1)|rewrite (bool_decide_false _ H1); discriminate].
    destruct (decide (cell b (idx + 2 * o) = Some u)) as [H2|H2];
      [rewrite (bool_decide_true _ H2)|rewrite (bool_decide_false _ H2); discriminate].
    destruct (decide (cell b (idx + 3 * o) = Some u)) as [H3|H3];
      [rewrite (bool_decide_true _ H3)|rewrite (bool_decide_false _ H3); discriminate].
    cbn. intros [= <-] k Hk.
    destruct k as [|[|[|[|k]]]]; [| | | |lia].
    + by rewrite Nat.mul_0_l, Nat.add_0_r.
    + by rewrite Nat.mul_1_l.
    + exact H2.
    + exact H3.
  - intros H.
    pose proof (H 0 ltac:(lia)) as H0. rewrite Nat.mul_0_l, Nat.add_0_r in H0.
    pose proof (H 1 ltac:(lia)) as H1. rewrite Nat.mul_1_l in H1.
    pose proof (H 2 ltac:(lia)) as H2. pose proof (H 3 ltac:(lia)) as H3.
    rewrite H0, (bool_decide_true _ H1), (bool_decide_true _ H2),
      (bool_decide_true _ H3). reflexivity.
Qed.

Lemma line_cell_offset (d : Direction) (r c k : nat) :
  line_in_grid d r c -> k < 4 ->
  line_cell d r c k = (r * 7 + c) + k * line_offset d.
Proof. intros (Hr & Hc & Hd) Hk. destruct d; cbn in *; lia. Qed.

Lemma line_in_gridb_spec (d : Direction) (r c : nat) :
  line_in_gridb d r c = true <-> line_in_grid d r c.
Proof.
  unfold line_in_gridb, line_in_grid.
  destruct d; rewrite !andb_true_iff, !bool_decide_eq_true; tauto.
Qed.

Lemma direction_of_offset_spec (o : nat) (d : Direction) :
  direction_of_offset o = Some d -> o = line_offset d.
Proof.
  intros H. unfold direction_of_offset in H.
  repeat (case_match; try discriminate); simplify_eq; reflexivity.
Qed.

(** The scan visits lines of the grid only ... *)
Lemma scanned_lines_on_grid (idx o : nat) :
  (idx, o) ∈ c4_lines ->
  exists d r c, o = line_offset d /\ line_in_grid d r c /\ idx = r * 7 + c.
Proof.
  intros Hin.
  assert (Hall : forallb (fun l : nat * nat =>
      match direction_of_offset l.2 with
      | Some d => line_in_gridb d (l.1 / 7) (l.1 mod 7)
      | None => false
      end) c4_lines = true) by (vm_compute; reflexivity).
  rewrite forallb_forall in Hall. apply list_elem_of_In in Hin.
  specialize (Hall _ Hin). cbn in Hall.
  destruct (direction_of_offset o) as [d|] eqn:Hd; [|discriminate].
  exists d, (idx / 7), (idx mod 7).
  split; [by apply direction_of_offset_spec|].
  split; [by apply line_in_gridb_spec|].
  rewrite (Nat.div_mod_eq idx 7) at 1. lia.
Qed.

(** ... and it visits every line of the grid. *)
Lemma grid_lines_scanned (d : Direction) (r c : nat) :
  line_in_grid d r c -> (r * 7 + c, line_offset d) ∈ c4_lines.
Proof.
  intros Hg.
  assert (Hall : forallb (fun d' => forallb (fun r' => forallb (fun c' =>
      implb (line_in_gridb d' r' c')
            (bool_decide ((r' * 7 + c', line_offset d') ∈ c4_lines)))
      (seq 0 7)) (seq 0 6)) [Horizontal; Vertical; DownRight; DownLeft] = true)
    by (vm_compute; reflexivity).
  rewrite forallb_forall in Hall.
  assert (Hd : In d [Horizontal; Vertical; DownRight; DownLeft])
    by (destruct d; cbn; tauto).
  specialize (Hall d Hd). rewrite forallb_forall in Hall.
  destruct Hg as (Hr & Hc & Hrest).
  specialize (Hall r ltac:(apply in_seq; lia)). rewrite forallb_forall in Hall.
  specialize (Hall c ltac:(apply in_seq; lia)).
  rewrite (proj2 (line_in_gridb_spec d r c)) in Hall by done.
  cbn in Hall. by apply bool_decide_eq_true in Hall.
Qed.

Lemma c4_detected_line (b : Board) (t : Token) :
  checkC4Winner b = Some t -> four_in_line b t.
Proof.
  unfold checkC4Winner, four_in_line.
  intros H. apply first_line_Some in H as ([idx o] & Hin & Hl).
  apply scanned_lines_on_grid in Hin as (d & r & c & -> & Hg & ->).
  exists d, r, c. split; [done|]. intros k Hk.
  rewrite line_cell_offset by done. by apply c4_line_Some.
Qed.

Lemma c4_undetected (b : Board) :
  checkC4Winner b = None <-> forall u, ~ four_in_line b u.
Proof.
  unfold checkC4Winner, four_in_line. rewrite first_line_None. split.
  - intros H u (d & r & c & Hg & Hc).
    pose proof (H _ (grid_lines_scanned d r c Hg)) as Hnone.
    assert (Hsome : c4_line b (r * 7 + c, line_offset d) = Some u).
    { apply c4_line_Some. intros k Hk. rewrite <- line_cell_offset by done. auto. }
    congruence.
  - intros H [idx o] Hin.
    destruct (c4_line b (idx, o)) as [u|] eqn:Hl; [|reflexivity].
    exfalso. apply (H u).
    apply scanned_lines_on_grid in Hin as (d & r & c & -> & Hg & ->).
    exists d, r, c. split; [done|]. intros k Hk.
    rewrite line_cell_offset by done. by apply c4_line_Some.
Qed.

(** X10. Connect-Four win detection is exact on the 7x6 grid: it reports
    a token only if that token holds four consecutive cells of a row, a
    column or a diagonal lying entirely on the grid (no wrap-around from one
    row to the next), and it reports nothing exactly when no token holds
    such a line. *)
Theorem X10_c4_detection_is_exact (b : Board) (t : Token) :
  (checkC4Winner b = Some t -> four_in_line b t)
  /\ (checkC4Winner b = None <-> forall u, ~ four_in_line b u).
Proof. split; [apply c4_detected_line|apply c4_undetected]. Qed.

Lemma empty_test (o : option Token) : negb (truthy_cell o) = true <-> o = None.
Proof. destruct o; cbn; split; congruence. Qed.

Lemma occupied_test (o : option Token) : negb (truthy_cell o) = false -> o <> None.
Proof. destruct o; cbn; congruence. Qed.

Lemma lowest_empty_row_spec (b : Board) (col : nat) :
  (forall row, lowest_empty_row b col = Some row ->
     row < 6 /\ cell b (row * 7 + col) = None
     /\ forall r, row < r < 6 -> cell b (r * 7 + col) <> None)
  /\ (lowest_empty_row b col = None
      <-> forall r, r < 6 -> cell b (r * 7 + col) <> None).
Proof.
  unfold lowest_empty_row. cbn [List.find]. split.
  - intros row H.
    repeat match type of H with
           | (if ?c then _ else _) = _ => destruct c eqn:?
           end; inversion H; subst; clear H;
      (split; [lia|]); (split; [by apply empty_test|]);
      intros r Hr;
      do 6 (destruct r as [|r]; [try lia; by apply occupied_test|]); lia.
  - split.
    + intros H.
      repeat match type of H with
             | (if ?c then _ else _) = _ => destruct c eqn:?; [discriminate|]
             end.
      intros r Hr.
      do 6 (destruct r as [|r]; [by apply occupied_test|]); lia.
    + intros H.
      repeat match goal with
             | |- (if negb (truthy_cell (cell b (?n * 7 + col))) then _ else _) = _ =>
                 let E := fresh in
                 destruct (negb (truthy_cell (cell b (n * 7 + col)))) eqn:E;
                 [apply empty_test in E; by apply (H n ltac:(lia)) in E|]
             end.
      reflexivity.
Qed.

(** X11. The landing row of a column is its lowest empty cell: the row
    found is on the grid, its cell is empty and every cell below it in the
    column is occupied; no row is found exactly when all six cells of the
    column are occupied. *)
Theorem X11_landing_row_is_lowest_empty (b : Board) (col : nat) :
  (forall row, lowest_empty_row b col = Some row ->
     row < 6 /\ cell b (row * 7 + col) = None
     /\ forall r, row < r < 6 -> cell b (r * 7 + col) <> None)
  /\ (lowest_empty_row b col = None
      <-> forall r, r < 6 -> cell b (r * 7 + col) <> None).
Proof. apply lowest_empty_row_spec. Qed.

Lemma cell_js_set (b : Board) (i j : nat) (v : option Token) :
  i < length b -> cell (js_set b i v) j = if decide (i = j) then v else cell b j.
Proof.
  intros Hi. unfold cell. case_decide as Hij.
  - subst. by rewrite js_set_lookup_eq.
  - by rewrite js_set_lookup_ne.
Qed.

(** A token landing on the lowest empty cell of its column keeps the board
    a gravity-respecting one. *)
Lemma landing_keeps_gravity (b : Board) (col row : nat) (t : Token) :
  c4_good b -> col < 7 -> lowest_empty_row b col = Some row ->
  c4_good (js_set b (row * 7 + col) (Some t)).
Proof.
  intros [Hlen Hgrav] Hcol Hrow.
  destruct (lowest_empty_row_spec b col) as [Hspec _].
  destruct (Hspec row Hrow) as (Hr6 & Hempty & Hbelow).
  assert (Hi : row * 7 + col < length b) by lia.
  split; [by rewrite js_set_length|].
  intros r c Hr Hc. rewrite !cell_js_set by done.
  destruct (decide (row * 7 + col = (r + 1) * 7 + c)); [done|].
  destruct (decide (row * 7 + col = r * 7 + c)).
  - intros _. assert (r = row /\ c = col) as [-> ->] by lia.
    apply Hbelow. lia.
  - by apply Hgrav.
Qed.

Lemma empty_board_good : c4_good (replicate 42 None).
Proof.
  split; [reflexivity|]. intros r c Hr Hc H. exfalso. apply H.
  unfold cell, Board. by rewrite lookup_replicate_2 by lia.
Qed.

(** X13. The Rock-Paper-Scissors rule is a fair cyclic order: a round is
    a draw exactly when both choices are equal, one player's win is the
    other's loss, every choice beats exactly one choice, and a missing
    choice makes the round a draw. *)
Theorem X13_rps_rule_is_antisymmetric (a b : RPSChoice) :
  (determineRPSWinner (Some a) (Some b) = RoundDraw <-> a = b)
  /\ (determineRPSWinner (Some a) (Some b) = RoundWin
      <-> determineRPSWinner (Some b) (Some a) = RoundLose)
  /\ (exists! c, determineRPSWinner (Some a) (Some c) = RoundWin)
  /\ determineRPSWinner None (Some b) = RoundDraw
  /\ determineRPSWinner (Some a) None = RoundDraw.
Proof.
  split; [|split; [|split; [|split; reflexivity]]].
  - destruct a, b; (split; intros H;
      first [reflexivity | discriminate H | vm_compute in H; discriminate H]).
  - destruct a, b; (split; intros H;
      first [reflexivity | vm_compute in H; discriminate H]).
  - destruct a;
      [exists Scissors | exists Rock | exists Paper];
      (split; [reflexivity|]); intros [] H; vm_compute in H; congruence.
Qed.

End RuleEngines.

(** ** Connect-Four against the built-in opponent *)

Section ConnectFourLocal.
Context `{P : Props}.

Ltac c4_fin :=
  cbn; split;
  [ first [ assumption | by apply landing_keeps_gravity | apply empty_board_good ]
  | rewrite ?Forall_app, ?Forall_singleton; cbn;
    repeat match goal with |- _ /\ _ => split end;
    first [ assumption | by apply landing_keeps_gravity | exact I | eauto ] ].

Lemma run_effects_c4_inv (w : World) : c4_inv w -> c4_inv (run_effects w).
Proof.
  intros [Hgood Ht]. unfold c4_inv, run_effects.
  unfold_handlers; cbv zeta; split_cases; c4_fin.
Qed.

Lemma handle_c4_inv (e : Event) (w : World) :
  gameClient w = false -> c4_inv w -> c4_inv (handle e w).
Proof.
  intros Hnc [Hgood Ht]. unfold c4_inv.
  destruct e;
    try (cbn [handle]; rewrite Hnc; by split);
    try (unfold_handlers; cbv zeta; split_cases; c4_fin; fail).
  - (* a click on a column *)
    cbn [handle].
    destruct (bool_decide (game_name = ConnectFour) && bool_decide (col < 7)
              && negb (c4_column_disabled w)) eqn:Hb; [|by split].
    apply andb_true_iff in Hb as [Hb _]. apply andb_true_iff in Hb as [_ Hcol].
    apply bool_decide_eq_true in Hcol.
    unfold handleC4ColumnClick. split_cases; c4_fin.
  - (* a pending timeout runs *)
    cbn [handle]. destruct (timers w !! k) as [t|] eqn:Hk; [|by split].
    assert (Hok : c4_timer_ok t) by (eapply Forall_lookup_1; eauto).
    assert (Hd : Forall c4_timer_ok (delete k (timers w)))
      by (by apply Forall_delete).
    destruct t; cbn in Hok;
      try (unfold_handlers; cbv zeta; split_cases; c4_fin; fail).
    + destruct Hok as (Hg & Hcol & Hrow).
      cbn [fire]. unfold c4_player_drop. cbv zeta.
      unfold_handlers; split_cases; c4_fin.
    + cbn [fire]. unfold c4_ai_think. cbv zeta.
      destruct (pick rnd _) as [aiCol|] eqn:Hpick; [|c4_fin].
      apply pick_elem_of, list_elem_of_filter in Hpick as [_ Hin].
      apply elem_of_seq in Hin.
      destruct (lowest_empty_row currentBoard aiCol) eqn:Hrow; c4_fin. lia.
    + destruct Hok as (Hg & Hcol & Hrow).
      cbn [fire]. unfold c4_ai_drop. cbv zeta.
      unfold_handlers; split_cases; c4_fin.
Qed.

Lemma reachable_c4_inv (w : World) : has_client = false -> reachable w -> c4_inv w.
Proof.
  intros Hnc Hr. induction Hr as [|e w Hr IH].
  - split; [apply empty_board_good|constructor].
  - apply run_effects_c4_inv, handle_c4_inv; [|done].
    by rewrite reachable_gameClient.
Qed.

(** X12. Without a socket (so against the built-in opponent) the
    Connect-Four board obeys gravity in every reachable world: it always has
    its 42 cells, and a cell above the bottom row is occupied only if the
    cell directly below it is. *)
Theorem X12_local_c4_board_obeys_gravity (w : World) :
  has_client = false ->
  reachable w ->
  length (c4Board w) = 42 /\ gravity (c4Board w).
Proof. intros Hnc Hr. by apply reachable_c4_inv. Qed.

End ConnectFourLocal.

(** ** Tic-Tac-Toe against the built-in opponent *)

Ltac ssplit := repeat match goal with |- _ /\ _ => split end.

Ltac mem_solve :=
  rewrite ?elem_of_app, ?elem_of_cons, ?list_elem_of_singleton, ?elem_of_nil in *;
  naive_solver.

Section TicTacToeLocal.
Context `{P : Props}.

Lemma lookup_board_of (pm om : list nat) (j : nat) :
  board_of pm om !! j = if decide (j < 9) then Some (cell_of pm om j) else None.
Proof.
  unfold board_of, Board. case_decide as Hj.
  - change (map (cell_of pm om) (seq 0 9)) with (cell_of pm om <$> seq 0 9).
    rewrite list_lookup_fmap, lookup_seq_lt by done. reflexivity.
  - apply lookup_ge_None. rewrite length_map, length_seq. lia.
Qed.

Lemma length_board_of (pm om : list nat) : length (board_of pm om) = 9.
Proof. unfold board_of. by rewrite length_map, length_seq. Qed.

Lemma lookup_js_set (b : Board) (i j : nat) (v : option Token) :
  i < length b ->
  js_set b i v !! j = if decide (i = j) then Some v else b !! j.
Proof.
  intros Hi. case_decide as Hij.
  - subst. by apply js_set_lookup_eq.
  - by apply js_set_lookup_ne.
Qed.

(** Writing one cell of a board given by histories. *)
Lemma board_of_write (pm om pm' om' : list nat) (i : nat) (v : option Token) :
  i < 9 ->
  cell_of pm' om' i = v ->
  (forall j, j <> i -> cell_of pm' om' j = cell_of pm om j) ->
  js_set (board_of pm om) i v = board_of pm' om'.
Proof.
  intros Hi Hv Hrest. apply list_eq. intros j.
  rewrite lookup_js_set by (by rewrite length_board_of).
  rewrite !lookup_board_of.
  destruct (decide (i = j)) as [<-|Hne].
  - case_decide; [by rewrite Hv|lia].
  - case_decide; [|done]. by rewrite Hrest.
Qed.

Lemma board_place_X (pm om : list nat) (i : nat) :
  i < 9 -> js_set (board_of pm om) i (Some X) = board_of (pm ++ [i]) om.
Proof.
  intros Hi. apply board_of_write; [done| |].
  - unfold cell_of. rewrite decide_True; [done|mem_solve].
  - intros j Hj. unfold cell_of.
    destruct (decide (j ∈ pm)); [rewrite decide_True; [done|mem_solve]|].
    rewrite decide_False; [done|mem_solve].
Qed.

Lemma board_place_O (pm om : list nat) (i : nat) :
  i < 9 -> i ∉ pm -> js_set (board_of pm om) i (Some O) = board_of pm (om ++ [i]).
Proof.
  intros Hi Hp. apply board_of_write; [done| |].
  - unfold cell_of. rewrite decide_False by done.
    rewrite decide_True; [done|mem_solve].
  - intros j Hj. unfold cell_of. destruct (decide (j ∈ pm)); [done|].
    destruct (decide (j ∈ om)); [rewrite decide_True; [done|mem_solve]|].
    rewrite decide_False; [done|mem_solve].
Qed.

Lemma board_evict_X (o : nat) (rest om : list nat) :
  o < 9 -> o ∉ rest -> o ∉ om ->
  js_set (board_of (o :: rest) om) o None = board_of rest om.
Proof.
  intros Ho Hr Hm. apply board_of_write; [done| |].
  - unfold cell_of. by rewrite !decide_False.
  - intros j Hj. unfold cell_of.
    destruct (decide (j ∈ rest)); [rewrite decide_True; [done|mem_solve]|].
    rewrite (decide_False (P := j ∈ o :: rest)); [done|mem_solve].
Qed.

Lemma board_evict_O (pm : list nat) (o : nat) (rest : list nat) :
  o < 9 -> o ∉ pm -> o ∉ rest ->
  js_set (board_of pm (o :: rest)) o None = board_of pm rest.
Proof.
  intros Ho Hp Hr. apply board_of_write; [done| |].
  - unfold cell_of. by rewrite !decide_False.
  - intros j Hj. unfold cell_of. destruct (decide (j ∈ pm)); [done|].
    destruct (decide (j ∈ rest)); [rewrite decide_True; [done|mem_solve]|].
    rewrite (decide_False (P := j ∈ o :: rest)); [done|mem_solve].
Qed.

Lemma board_of_empty_cell (pm om : list nat) (i : nat) :
  board_of pm om !! i = Some None -> i < 9 /\ i ∉ pm /\ i ∉ om.
Proof.
  rewrite lookup_board_of. case_decide; [|done]. unfold cell_of.
  repeat case_decide; naive_solver.
Qed.

Lemma board_of_mark (pm om : list nat) (i : nat) :
  (forall j, j ∈ pm -> j ∉ om) ->
  Forall (fun j => j < 9) pm -> Forall (fun j => j < 9) om ->
  (board_of pm om !! i = Some (Some X) <-> i ∈ pm)
  /\ (board_of pm om !! i = Some (Some O) <-> i ∈ om).
Proof.
  intros Hdis Hp Ho. rewrite Forall_forall in Hp, Ho.
  rewrite lookup_board_of. unfold cell_of.
  split; (split; [repeat case_decide; naive_solver|]); intros Hin.
  - rewrite decide_True by auto. by rewrite decide_True.
  - rewrite decide_True by auto. rewrite decide_False by (intros ?; by eapply Hdis).
    by rewrite decide_True.
Qed.

Lemma consistent_place_X (b : Board) (pm om : list nat) (i : nat) :
  ttt_consistent b pm om -> b !! i = Some None -> ~ 3 <= length pm ->
  ttt_consistent (js_set b i (Some X)) (pm ++ [i]) om.
Proof.
  intros (-> & Np & No & Hd & Fp & Fo & Lp & Lo) Hi Hlen.
  apply board_of_empty_cell in Hi as (Hi & Hip & Hio).
  repeat apply conj; auto.
  - by apply board_place_X.
  - apply NoDup_app. repeat split; [done| |apply NoDup_singleton].
    intros x Hx ->%list_elem_of_singleton. done.
  - intros x [Hx| ->%list_elem_of_singleton]%elem_of_app; auto.
  - apply Forall_app. split; [done|]. by apply Forall_singleton.
  - rewrite length_app. cbn. lia.
Qed.

Lemma consistent_place_O (b : Board) (pm om : list nat) (i : nat) :
  ttt_consistent b pm om -> b !! i = Some None -> ~ 3 <= length om ->
  ttt_consistent (js_set b i (Some O)) pm (om ++ [i]).
Proof.
  intros (-> & Np & No & Hd & Fp & Fo & Lp & Lo) Hi Hlen.
  apply board_of_empty_cell in Hi as (Hi & Hip & Hio).
  repeat apply conj; auto.
  - by apply board_place_O.
  - apply NoDup_app. repeat split; [done| |apply NoDup_singleton].
    intros x Hx ->%list_elem_of_singleton. done.
  - intros x Hx [Hm| ->%list_elem_of_singleton]%elem_of_app; [by eapply Hd|done].
  - apply Forall_app. split; [done|]. by apply Forall_singleton.
  - rewrite length_app. cbn. lia.
Qed.

Lemma consistent_evict_place_X (b : Board) (o : nat) (rest om : list nat) (i : nat) :
  ttt_consistent b (o :: rest) om -> b !! i = Some None ->
  ttt_consistent (js_set (js_set b o None) i (Some X)) (rest ++ [i]) om.
Proof.
  intros (-> & Np & No & Hd & Fp & Fo & Lp & Lo) Hi.
  apply board_of_empty_cell in Hi as (Hi & Hip & Hio).
  apply NoDup_cons in Np as [Hor Np]. apply Forall_cons in Fp as [Ho Fp].
  apply not_elem_of_cons in Hip as [Hne Hip].
  assert (Hoo : o ∉ om) by (apply Hd; left).
  rewrite board_evict_X by done.
  repeat apply conj; auto.
  - by apply board_place_X.
  - apply NoDup_app. repeat split; [done| |apply NoDup_singleton].
    intros x Hx ->%list_elem_of_singleton. done.
  - intros x [Hx| ->%list_elem_of_singleton]%elem_of_app; [|done].
    apply Hd. by right.
  - apply Forall_app. split; [done|]. by apply Forall_singleton.
  - rewrite length_app. cbn in *. lia.
Qed.

Lemma consistent_evict_place_O (b : Board) (pm : list nat) (o : nat) (rest : list nat)
    (i : nat) :
  ttt_consistent b pm (o :: rest) -> b !! i = Some None ->
  ttt_consistent (js_set (js_set b o None) i (Some O)) pm (rest ++ [i]).
Proof.
  intros (-> & Np & No & Hd & Fp & Fo & Lp & Lo) Hi.
  apply board_of_empty_cell in Hi as (Hi & Hip & Hio).
  apply NoDup_cons in No as [Hor No]. apply Forall_cons in Fo as [Ho Fo].
  apply not_elem_of_cons in Hio as [Hne Hio].
  assert (Hop : o ∉ pm) by (intros Hin; apply (Hd o Hin); left).
  rewrite board_evict_O by done.
  repeat apply conj; auto.
  - by apply board_place_O.
  - apply NoDup_app. repeat split; [done| |apply NoDup_singleton].
    intros x Hx ->%list_elem_of_singleton. done.
  - intros x Hx [Hm| ->%list_elem_of_singleton]%elem_of_app; [|done].
    apply (Hd x Hx). by right.
  - apply Forall_app. split; [done|]. by apply Forall_singleton.
  - rewrite length_app. cbn in *. lia.
Qed.

Lemma playerSymbol_unassigned (c : View) :
  role <> Some P2 -> side c = None -> playerSymbol c = X /\ opponentSymbol c = O.
Proof.
  intros Hrole Hside. unfold opponentSymbol, playerSymbol. rewrite Hside.
  destruct (decide (role = Some P2)); [done|]. by rewrite decide_True.
Qed.

(** The invariant only looks at the side, the Tic-Tac-Toe hooks and the
    pending timeouts. *)
Lemma ttt_inv_frame (w w' : World) :
  side w' = side w -> ttt w' = ttt w -> timers w' = timers w ->
  ttt_inv w -> ttt_inv w'.
Proof.
  intros Hs Ht Hq. unfold ttt_inv, ttt_pending_ok. by rewrite Hs, Ht, Hq.
Qed.

Lemma cell_empty_lookup (b : Board) (i : nat) :
  i < length b -> truthy_cell (cell b i) = false -> b !! i = Some None.
Proof.
  intros Hi Hc. unfold cell in Hc.
  destruct (b !! i) as [[t|]|] eqn:E; cbn in Hc; try done.
  apply lookup_ge_None in E. lia.
Qed.

Lemma pick_is_Some {A} (rnd : nat) (l : list A) : l <> [] -> is_Some (pick rnd l).
Proof.
  intros Hl. unfold pick. apply lookup_lt_is_Some.
  apply Nat.mod_upper_bound. by destruct l.
Qed.

Section Invariant.
Hypothesis Hgame : game_name = TicTacToe.
Hypothesis Hrole : role <> Some P2.

Lemma click_ttt_inv (index : nat) (w : World) :
  gameClient w = false -> ttt_inv w -> ttt_inv (handle (ClickTTT index) w).
Proof using All.
  intros Hnc Hinv. cbn [handle].
  destruct (bool_decide (game_name = TicTacToe)
            && bool_decide (index < length (tttBoard w))
            && negb (ttt_cell_disabled w)) eqn:Hb; [|exact Hinv].
  apply andb_true_iff in Hb as [Hb Hdis]. apply andb_true_iff in Hb as [_ Hidx].
  apply bool_decide_eq_true in Hidx. apply negb_true_iff in Hdis.
  unfold ttt_cell_disabled in Hdis.
  apply orb_false_elim in Hdis as [Hdis Hfade].
  apply orb_false_elim in Hdis as [Hdis Hturn].
  apply orb_false_elim in Hdis as [Hfin Hstarted].
  apply bool_decide_eq_false in Hfade. apply bool_decide_eq_false in Hturn.
  assert (Hf : fadingCell w = None) by (by destruct (fadingCell w); [destruct Hfade|]).
  assert (Ht : tttCurrentPlayer w = playerSymbol w)
    by (by destruct (decide (tttCurrentPlayer w = playerSymbol w)); [|destruct Hturn]).
  pose proof Hinv as Hinv0. destruct Hinv as (Hside & Hcons & Hpend).
  destruct (playerSymbol_unassigned w Hrole Hside) as [Hps Hos].
  assert (Hq : timers w = []).
  { unfold ttt_pending_ok in Hpend.
    destruct (timers w) as [|t [|t' ts]]; [done| |by destruct t].
    destruct t; try done.
    - destruct Hpend as (_ & _ & _ & _ & _ & _ & _ & Hfc). congruence.
    - destruct Hpend as (_ & _ & Hcur). congruence.
    - destruct Hpend as (_ & _ & _ & _ & _ & Hfc). congruence. }
  unfold handleTTTCellClick.
  destruct (negb (started w) || truthy_cell (cell (tttBoard w) index)
            || bool_decide (tttCurrentPlayer w <> playerSymbol w)
            || bool_decide (fadingCell w <> None)) eqn:Hguard;
    [exact Hinv0|].
  apply orb_false_elim in Hguard as [Hguard _].
  apply orb_false_elim in Hguard as [Hguard _].
  apply orb_false_elim in Hguard as [_ Hcell].
  apply cell_empty_lookup in Hcell; [|done].
  destruct (decide (opponentType = VsPlayer)) as [Hmp|Hai].
  { rewrite Hnc. exact Hinv0. }
  destruct (decide (3 <= length (playerMoves w))) as [Hlen|Hlen].
  - destruct (playerMoves w) as [|o rest] eqn:Hpm; [exact Hinv0|].
    unfold ttt_inv, ttt_pending_ok. cbn. rewrite Hq, ?Hpm. cbn.
    ssplit; auto.
  - cbv zeta. rewrite Hps, Hos.
    assert (Hcons' : ttt_consistent (js_set (tttBoard w) index (Some X))
                       (playerMoves w ++ [index]) (opponentMoves w))
      by (by apply consistent_place_X).
    destruct (decide (checkTTTWinner (js_set (tttBoard w) index (Some X)) = Some X)).
    + unfold handleGameEnd. unfold ttt_inv, ttt_pending_ok.
      destruct playMode; cbn; rewrite Hq; ssplit; auto.
    + destruct (decide (opponentType = VsAI)) as [_|Hno];
        [|by destruct opponentType].
      unfold ttt_inv, ttt_pending_ok, makeAIMove. cbn. rewrite Hq. cbn.
      ssplit; auto.
Qed.

Lemma fire_ttt_inv (k rnd : nat) (w : World) :
  ttt_inv w -> ttt_inv (handle (Fire k rnd) w).
Proof using All.
  intros Hinv. pose proof Hinv as Hinv0.
  destruct Hinv as (Hside & Hcons & Hpend).
  cbn [handle]. unfold ttt_pending_ok in Hpend.
  destruct (timers w) as [|t [|t' ts]] eqn:Hq;
    [exact Hinv0| |by destruct t].
  destruct k as [|k]; [|exact Hinv0]. cbn [lookup list_lookup delete list_delete].
  destruct t; try done.
  - (* the player's fade ends *)
    destruct Hpend as (Hb & Hp & Ho & Hsc & Hhead & Hlen & Hcell & Hfc).
    destruct (playerSymbol_unassigned c Hrole Hsc) as [Hps Hos].
    destruct (playerMoves w) as [|o rest] eqn:Hpm; [done|].
    injection Hhead as ->.
    cbn [fire]. unfold ttt_player_fade. cbv zeta. rewrite Hps, Hos, Hb, Hp, Ho.
    cbn [tail].
    assert (Hcons' : ttt_consistent
              (js_set (js_set (tttBoard w) oldestMove None) index (Some X))
              (rest ++ [index]) (opponentMoves w))
      by (by apply consistent_evict_place_X).
    destruct (decide (checkTTTWinner _ = Some X)).
    + unfold handleGameEnd, ttt_inv, ttt_pending_ok.
      destruct playMode; cbn; ssplit; auto.
    + destruct (decide (opponentType = VsAI));
        unfold ttt_inv, ttt_pending_ok, makeAIMove; cbn; ssplit; auto.
  - (* the built-in opponent has thought *)
    destruct Hpend as (-> & -> & Hcur).
    cbn [fire]. unfold ttt_ai_think.
    destruct (pick rnd (positions None (tttBoard w))) as [aiMove|] eqn:Hpick.
    2:{ unfold ttt_inv, ttt_pending_ok. cbn. ssplit; auto. }
    apply pick_positions in Hpick.
    destruct (decide (3 <= length (opponentMoves w))) as [Hlen|Hlen].
    + destruct (opponentMoves w) as [|o rest] eqn:Hom.
      * unfold ttt_inv, ttt_pending_ok. cbn. rewrite ?Hom. ssplit; auto.
      * unfold ttt_inv, ttt_pending_ok. cbn. rewrite ?Hom. ssplit; auto.
    + cbv zeta.
      assert (Hcons' : ttt_consistent (js_set (tttBoard w) aiMove (Some O))
                         (playerMoves w) (opponentMoves w ++ [aiMove]))
        by (by apply consistent_place_O).
      destruct (decide (checkTTTWinner _ = Some O)).
      * unfold handleGameEnd, ttt_inv, ttt_pending_ok.
        destruct playMode; cbn; ssplit; auto.
      * unfold ttt_inv, ttt_pending_ok. cbn. ssplit; auto.
  - (* the built-in opponent's fade ends *)
    destruct Hpend as (-> & -> & Hhead & Hlen & Hcell & Hfc).
    destruct (opponentMoves w) as [|o rest] eqn:Hom; [done|].
    injection Hhead as ->.
    cbn [fire]. unfold ttt_ai_fade. cbv zeta. cbn [tail].
    assert (Hcons' : ttt_consistent
              (js_set (js_set (tttBoard w) oldestMove None) aiMove (Some O))
              (playerMoves w) (rest ++ [aiMove]))
      by (by apply consistent_evict_place_O).
    destruct (decide (checkTTTWinner _ = Some O)).
    + unfold handleGameEnd, ttt_inv, ttt_pending_ok.
      destruct playMode; cbn; ssplit; auto.
    + unfold ttt_inv, ttt_pending_ok. cbn. ssplit; auto.
Qed.

Lemma handle_ttt_inv (e : Event) (w : World) :
  gameClient w = false -> ttt_inv w -> ttt_inv (handle e w).
Proof using All.
  intros Hnc Hinv.
  destruct e;
    try (cbn [handle]; rewrite Hnc; exact Hinv);
    try (apply (ttt_inv_frame w); [frame|frame|frame|exact Hinv]).
  - by apply click_ttt_inv.
  - cbn [handle]. rewrite Hgame.
    rewrite (bool_decide_false (TicTacToe = ConnectFour)) by done. exact Hinv.
  - cbn [handle]. rewrite Hgame.
    rewrite (bool_decide_false (TicTacToe = RockPaperScissors)) by done. exact Hinv.
  - by apply fire_ttt_inv.
Qed.

Lemma reachable_ttt_inv (w : World) :
  has_client = false -> reachable w -> ttt_inv w.
Proof using All.
  intros Hnc Hr.
  assert (H : (side w = None /\ pendingWinnerSide w = None
               /\ pendingRpsReveal w = None /\ Forall is_addXP (calls w))
              /\ ttt_inv w).
  { induction Hr as [|e w Hr [IHo IHt]].
    - split; [repeat split; constructor|].
      unfold ttt_inv, ttt_pending_ok, ttt_consistent. cbn.
      ssplit; auto; try constructor; try lia.
      intros i Hi. by apply elem_of_nil in Hi.
    - assert (Hc : gameClient w = false) by (by rewrite reachable_gameClient).
      pose proof (handle_offline e w Hc IHo) as Ho.
      unfold step. rewrite (run_effects_offline _ Ho).
      split; [exact Ho|]. by apply handle_ttt_inv. }
  apply H.
Qed.

Lemma consistent_marks (b : Board) (pm om : list nat) (t : Token) (h : list nat) :
  ttt_consistent b pm om ->
  (t = X /\ h = pm) \/ (t = O /\ h = om) ->
  (forall i, b !! i = Some (Some t) <-> i ∈ h)
  /\ length (positions (Some t) b) <= 3.
Proof using Type.
  intros (-> & Np & No & Hd & Fp & Fo & Lp & Lo) Hcase.
  assert (Hiff : forall i, board_of pm om !! i = Some (Some t) <-> i ∈ h).
  { intros i. destruct (board_of_mark pm om i Hd Fp Fo) as [HX HO].
    destruct Hcase as [[Ht Hh]|[Ht Hh]]; subst; assumption. }
  split; [exact Hiff|].
  assert (Hsub : positions (Some t) (board_of pm om) ⊆+ h).
  { apply NoDup_submseteq.
    - unfold positions. apply NoDup_filter, NoDup_seq.
    - intros i Hi. unfold positions in Hi.
      apply list_elem_of_filter in Hi as [Hi _]. by apply Hiff. }
  apply submseteq_length in Hsub.
  destruct Hcase as [[_ Hh]|[_ Hh]]; subst; lia.
Qed.

Lemma consistent_empties (b : Board) (pm om : list nat) :
  ttt_consistent b pm om -> 3 <= length (positions None b).
Proof using Type.
  intros (-> & Np & No & Hd & Fp & Fo & Lp & Lo).
  unfold positions. rewrite length_board_of.
  pose proof (filter_app_complement
                (fun i => board_of pm om !! i = Some None) (seq 0 9)) as Hperm.
  apply Permutation_length in Hperm. rewrite length_app, length_seq in Hperm.
  assert (Hsub : filter (fun i => ~ board_of pm om !! i = Some None) (seq 0 9)
                 ⊆+ pm ++ om).
  { apply NoDup_submseteq; [apply NoDup_filter, NoDup_seq|].
    intros i Hi. apply list_elem_of_filter in Hi as [Hne Hi].
    apply elem_of_seq in Hi. rewrite lookup_board_of in Hne.
    rewrite decide_True in Hne by lia. apply elem_of_app.
    destruct (decide (i ∈ pm)) as [|Hp]; [by left|].
    destruct (decide (i ∈ om)) as [|Ho]; [by right|].
    exfalso. apply Hne. unfold cell_of. by rewrite !decide_False. }
  apply submseteq_length in Hsub. rewrite length_app in Hsub. lia.
Qed.

(** X14. Against the built-in opponent (X for the player, O for the
    opponent) the decay rule holds in every reachable world: the board has
    its nine cells, each side's history lists exactly the cells holding that
    side's marks, without repetition, neither side ever has more than three
    marks on the board, and at least three cells are empty. *)
Theorem X14_local_ttt_decay_invariant (w : World) :
  has_client = false ->
  reachable w ->
  length (tttBoard w) = 9
  /\ (forall i, tttBoard w !! i = Some (Some X) <-> i ∈ playerMoves w)
  /\ (forall i, tttBoard w !! i = Some (Some O) <-> i ∈ opponentMoves w)
  /\ NoDup (playerMoves w) /\ NoDup (opponentMoves w)
  /\ length (positions (Some X) (tttBoard w)) <= 3
  /\ length (positions (Some O) (tttBoard w)) <= 3
  /\ 3 <= length (positions None (tttBoard w)).
Proof using All.
  intros Hnc Hr. destruct (reachable_ttt_inv w Hnc Hr) as (_ & Hcons & _).
  destruct (consistent_marks _ _ _ X (playerMoves w) Hcons) as [HX HXn]; [by left|].
  destruct (consistent_marks _ _ _ O (opponentMoves w) Hcons) as [HO HOn]; [by right|].
  pose proof (consistent_empties _ _ _ Hcons) as He.
  destruct Hcons as (Hb & Np & No & _).
  ssplit; auto. rewrite Hb. apply length_board_of.
Qed.

(** X15. Against the built-in opponent at most one delayed callback is
    pending at any time, and a pending move of the built-in opponent was
    scheduled with the current board and history; whatever the random draw,
    it finds an empty cell of the current board to play on. *)
Theorem X15_built_in_opponent_always_moves
    (w : World) (k : nat) (c : View) (b : Board) (ms : list nat) (rnd : nat) :
  has_client = false ->
  reachable w ->
  length (timers w) <= 1
  /\ (timers w !! k = Some (TTTAIThink c b ms) ->
      b = tttBoard w /\ ms = opponentMoves w
      /\ exists aiMove, pick rnd (positions None b) = Some aiMove
                     /\ tttBoard w !! aiMove = Some None).
Proof using All.
  intros Hnc Hr. destruct (reachable_ttt_inv w Hnc Hr) as (_ & Hcons & Hpend).
  unfold ttt_pending_ok in Hpend.
  destruct (timers w) as [|t [|t' ts]]; [split; [cbn; lia|done]| |by destruct t].
  split; [cbn; lia|]. destruct k as [|k]; [|done]. cbn. intros [= ->].
  destruct Hpend as (-> & -> & _). ssplit; auto.
  pose proof (consistent_empties _ _ _ Hcons) as He.
  destruct (pick_is_Some rnd (positions None (tttBoard w))) as [a Ha].
  { intros Hnil. rewrite Hnil in He. cbn in He. lia. }
  exists a. split; [done|]. by eapply pick_positions.
Qed.

End Invariant.

End TicTacToeLocal.

(** ** Further properties of the handlers *)

Section HandlerProperties.
Context `{P : Props}.

(** X16. Illegal local input is silently dropped.  A Tic-Tac-Toe click
    before the start, on an occupied cell, out of turn or during a fade, a
    Connect-Four click before the start, out of turn, during a drop or on a
    column whose six cells are occupied, and a Rock-Paper-Scissors choice
    made while waiting or revealing (or an empty one) each leave the world
    exactly as it was. *)
Theorem X16_illegal_input_is_dropped
    (c : View) (w : World) (index col : nat) (choice : option RPSChoice) :
  (started c = false \/ cell (tttBoard c) index <> None
   \/ tttCurrentPlayer c <> playerSymbol c \/ fadingCell c <> None ->
   handleTTTCellClick c index w = w)
  /\ (started c = false \/ c4CurrentPlayer c <> playerColor c
      \/ c4DroppingToken c <> None
      \/ (forall r, r < 6 -> cell (c4Board c) (r * 7 + col) <> None) ->
      handleC4ColumnClick c col w = w)
  /\ (rpsWaitingForOpponent c = true \/ rpsRevealing c = true \/ choice = None ->
      handleRPSChoice c choice w = w).
Proof.
  split; [|split].
  - intros H. unfold handleTTTCellClick.
    destruct (negb (started c) || truthy_cell (cell (tttBoard c) index)
              || bool_decide (tttCurrentPlayer c <> playerSymbol c)
              || bool_decide (fadingCell c <> None)) eqn:G; [reflexivity|].
    exfalso.
    apply orb_false_elim in G as [G G4]. apply orb_false_elim in G as [G G3].
    apply orb_false_elim in G as [G1 G2].
    apply bool_decide_eq_false in G3. apply bool_decide_eq_false in G4.
    destruct H as [H|[H|[H|H]]]; [|  |done|done].
    + rewrite H in G1. discriminate.
    + destruct (cell (tttBoard c) index); [discriminate|done].
  - intros H. unfold handleC4ColumnClick.
    destruct (negb (started c) || bool_decide (c4CurrentPlayer c <> playerColor c)
              || bool_decide (c4DroppingToken c <> None)) eqn:G; [reflexivity|].
    apply orb_false_elim in G as [G G3]. apply orb_false_elim in G as [G1 G2].
    apply bool_decide_eq_false in G2. apply bool_decide_eq_false in G3.
    destruct H as [H|[H|[H|H]]]; [|done|done|].
    + rewrite H in G1. discriminate.
    + apply (proj2 (proj2 (lowest_empty_row_spec (c4Board c) col))) in H.
      by rewrite H.
  - intros H. unfold handleRPSChoice. destruct choice as [ch|]; [|reflexivity].
    destruct H as [H|[H|H]]; [| |done]; rewrite H; by rewrite ?orb_true_r.
Qed.

(** X17. How a [game_end] is read.  The draw flag comes first: with it
    the session ends in a draw at once, whatever else the payload says and
    whether or not the local side is known.  A payload with neither the flag
    nor a winning side is settled at once by comparing its winner address
    with the local one, the local player winning exactly if they are
    equal. *)
Theorem X17_game_end_precedence (w : World) (d : GameEndData) :
  gameClient w = true ->
  let w' := step (WsGameEnd d) w in
  (ge_isDraw d = true ->
   gameState w' = Finished /\ winner w' = Some Draw /\ ended w' = ended w ++ [Draw])
  /\ (ge_isDraw d = false -> ge_winnerSide d = None ->
      let g := if decide (ge_winner d = address) then Player else Opponent in
      gameState w' = Finished /\ winner w' = Some g /\ ended w' = ended w ++ [g]).
Proof.
  intros Hc w'. unfold w', step. cbn [handle]. rewrite Hc. unfold onGameEnd.
  split.
  - intros ->. rewrite run_effects_finished; apply handleGameEnd_finished.
  - intros -> ->. cbv zeta.
    destruct (decide (ge_winner d = address));
      (rewrite run_effects_finished; apply handleGameEnd_finished).
Qed.

(** X18. Confirming the forfeit, whenever the exit dialog is open (also
    over a session that is already finished), closes the dialog and resolves
    the session as a loss of the local player: the opponent is recorded as
    the winner, a staked session costs the stake, and the opponent is
    notified over the socket, when there is one, before the XP change is
    handed to the wallet. *)
Theorem X18_forfeit_is_a_loss (w : World) :
  showExitDialog w = true ->
  let w' := step Forfeit w in
  gameState w' = Finished /\ winner w' = Some Opponent
  /\ showExitDialog w' = false /\ ended w' = ended w ++ [Opponent]
  /\ calls w' = calls w
       ++ (if gameClient w then [SendForfeit] else [])
       ++ match playMode with
          | Stake => [AddXP (calculateXPChange false xp (opponentXP w))]
          | Free => []
          end
  /\ (playMode = Stake -> earnedARK w' = (- stakeAmount)%Z)
  /\ (playMode = Free -> earnedARK w' = 0%Z).
Proof.
  intros Hd w'. unfold w', step. cbn [handle]. rewrite Hd.
  rewrite run_effects_finished
    by (unfold handleForfeit; apply handleGameEnd_finished).
  unfold handleForfeit, handleGameEnd.
  destruct (gameClient w), playMode; cbn;
    rewrite ?bool_decide_false by done; rewrite ?app_nil_r, <- ?app_assoc;
    ssplit; auto; discriminate.
Qed.

(** X22. The built-in Connect-Four opponent never targets a full column
    and never passes while a column is open: if the top cell of every column
    is occupied its thinking callback does nothing; otherwise it starts a
    drop in a column whose top cell is empty, at the lowest empty row of that
    column. *)
Theorem X22_c4_opponent_picks_an_open_column
    (c : View) (b : Board) (rnd : nat) (w : World) :
  ((forall col, col < 7 -> cell b col <> None) ->
   fire (C4AIThink c b) rnd w = w)
  /\ ((exists col, col < 7 /\ cell b col = None) ->
      exists aiCol row,
        aiCol < 7 /\ cell b aiCol = None /\ lowest_empty_row b aiCol = Some row
        /\ fire (C4AIThink c b) rnd w
           = w |> setC4DroppingToken (Some (aiCol, row))
               |> schedule (C4AIDrop c b aiCol row)).
Proof.
  cbn [fire]. unfold c4_ai_think. cbv zeta.
  set (avail := filter (fun col => cell b col = None) (seq 0 7)).
  split.
  - intros Hfull. destruct (pick rnd avail) as [aiCol|] eqn:Hp; [|reflexivity].
    apply pick_elem_of, list_elem_of_filter in Hp as [Hempty Hin].
    apply elem_of_seq in Hin. exfalso. apply (Hfull aiCol); [lia|done].
  - intros (col & Hcol & Hempty).
    assert (Hne : avail <> []).
    { intros Hnil. assert (Hin : col ∈ avail).
      { apply list_elem_of_filter. split; [done|]. apply elem_of_seq. lia. }
      rewrite Hnil in Hin. by apply elem_of_nil in Hin. }
    destruct (pick_is_Some rnd avail Hne) as [aiCol Hp]. rewrite Hp.
    apply pick_elem_of, list_elem_of_filter in Hp as [Hai Hin].
    apply elem_of_seq in Hin.
    destruct (lowest_empty_row b aiCol) as [row|] eqn:Hrow.
    + exists aiCol, row. ssplit; auto. lia.
    + pose proof (proj1 (proj2 (lowest_empty_row_spec b aiCol)) Hrow) as Hfull.
      exfalso. apply (Hfull 0); [lia|]. exact Hai.
Qed.

End HandlerProperties.

(** ** Rounds of Rock-Paper-Scissors and the unused opponent-move handler *)

Section RoundProperties.
Context `{P : Props}.

Lemma run_effects_no_side (w : World) : side w = None -> run_effects w = w.
Proof.
  intros H. unfold run_effects, pendingWinnerEffect, pendingRevealEffect.
  rewrite H. repeat case_match; reflexivity.
Qed.

(** The only pending timeout runs, in a session whose side is not known. *)
Lemma step_fire_only (t : Timer) (rnd : nat) (w : World) :
  timers w = [t] ->
  side (fire t rnd (set_timers [] w)) = None ->
  step (Fire 0 rnd) w = fire t rnd (set_timers [] w).
Proof.
  intros Ht Hs. unfold step. cbn [handle]. rewrite Ht. cbn [lookup list_lookup delete list_delete].
  by apply run_effects_no_side.
Qed.

(** X19. One whole round against the built-in opponent: a choice made
    while nothing is pending, followed by the three delayed callbacks.  The
    opponent's choice is the drawn one, the scores are those of the render
    in which the choice was made plus one point for the round's winner (none
    on a tie), and then either a score has reached 5 and the session is
    finished with that side as the winner, or the next round is open: round
    counter plus one, choices and result cleared, both gates lowered, the
    clock back at 30 and nothing pending. *)
Theorem X19_local_rps_round (w : World) (ch : RPSChoice) (rnd r2 r3 : nat) :
  game_name = RockPaperScissors -> opponentType = VsAI ->
  gameState w = Playing -> side w = None ->
  rpsWaitingForOpponent w = false -> rpsRevealing w = false -> timers w = [] ->
  exists oc,
    pick rnd [Rock; Paper; Scissors] = Some oc
    /\ let result := determineRPSWinner (Some ch) (Some oc) in
       let np := (rpsPlayerScore w + match result with RoundWin => 1 | _ => 0 end)%Z in
       let no := (rpsOpponentScore w + match result with RoundLose => 1 | _ => 0 end)%Z in
       let w' := run [ClickRPS ch; Fire 0 rnd; Fire 0 r2; Fire 0 r3] w in
       rpsPlayerScore w' = np /\ rpsOpponentScore w' = no
       /\ if (5 <=? np)%Z then
            gameState w' = Finished /\ winner w' = Some Player
            /\ ended w' = ended w ++ [Player]
          else if (5 <=? no)%Z then
            gameState w' = Finished /\ winner w' = Some Opponent
            /\ ended w' = ended w ++ [Opponent]
          else rps_round_done w np no w'.
Proof.
  intros Hgame Hopp Hplay Hside Hwait Hrev Hq.
  destruct (pick_is_Some rnd [Rock; Paper; Scissors]) as [oc Hp]; [done|].
  exists oc. split; [exact Hp|]. cbv zeta.
  unfold run. cbn [foldl].
  assert (E1 : step (ClickRPS ch) w
               = w |> setRpsPlayerChoice (Some ch) |> setRpsWaitingForOpponent true
                   |> schedule (RPSAICommit w ch)).
  { unfold step. cbn [handle]. unfold rps_choice_disabled, handleRPSChoice.
    rewrite Hwait, Hrev, Hplay, bool_decide_true by done.
    rewrite bool_decide_false by done. cbn [negb andb orb].
    rewrite decide_False by congruence.
    apply run_effects_no_side. exact Hside. }
  rewrite E1. clear E1.
  rewrite (step_fire_only (RPSAICommit w ch) rnd);
    [|cbn; by rewrite Hq|cbn [fire]; unfold rps_ai_commit; rewrite Hp; exact Hside].
  cbn [fire]. unfold rps_ai_commit. rewrite Hp.
  rewrite (step_fire_only (RPSAIReveal w ch oc) r2);
    [|reflexivity
     |cbn [fire]; unfold rps_ai_reveal; cbv zeta;
      destruct (determineRPSWinner (Some ch) (Some oc)); exact Hside].
  cbn [fire]. unfold rps_ai_reveal. cbv zeta.
  destruct (determineRPSWinner (Some ch) (Some oc)) eqn:Hres;
    rewrite ?Z.add_0_r;
    (erewrite step_fire_only;
     [|reflexivity
      |cbn [fire]; unfold rps_ai_result, handleGameEnd;
       repeat case_match; exact Hside]);
    cbn [fire]; unfold rps_ai_result;
    repeat (destruct (5 <=? _)%Z);
    try (unfold handleGameEnd; destruct playMode; cbn; ssplit; reflexivity);
    unfold rps_round_done; cbn; rewrite ?Hq; ssplit; reflexivity.
Qed.

Lemma run_effects_no_pending (w : World) :
  pendingWinnerSide w = None -> pendingRpsReveal w = None -> run_effects w = w.
Proof.
  intros H1 H2. unfold run_effects, pendingWinnerEffect, pendingRevealEffect.
  rewrite H1, H2. repeat case_match; reflexivity.
Qed.

(** The only pending timeout runs and leaves nothing buffered. *)
Lemma step_fire_idle (t : Timer) (rnd : nat) (w : World) :
  timers w = [t] ->
  pendingWinnerSide (fire t rnd (set_timers [] w)) = None ->
  pendingRpsReveal (fire t rnd (set_timers [] w)) = None ->
  step (Fire 0 rnd) w = fire t rnd (set_timers [] w).
Proof.
  intros Ht H1 H2. unfold step. cbn [handle]. rewrite Ht.
  cbn [lookup list_lookup delete list_delete].
  by apply run_effects_no_pending.
Qed.

(** X20. A multiplayer reveal is read from the local side.  The socket
    callback was created by the first render, in which the side is unknown,
    so it only buffers the payload; the replay effect shows it as soon as
    the side is known and the session is running.  With the side known, a
    reveal followed by its two delayed callbacks shows the local choice and
    the opponent's choice taken from the payload by side, gives one point to
    the round's winner (none on a tie) and opens the next round; the session
    itself is left running whatever the scores, since the match is ended by
    [game_end].  With the side unknown the payload waits, everything else
    unchanged, until [start] brings the side. *)
Theorem X20_reveal_is_read_from_the_local_side
    (w : World) (d : RevealData) (s : Side) (sd : StartData) (r1 r2 : nat) :
  game_name = RockPaperScissors -> gameClient w = true ->
  gameState w = Playing -> pendingWinnerSide w = None -> timers w = [] ->
  let result := reveal_result s d in
  let shown (w1 : World) :=
    rpsPlayerChoice w1 = Some (choice_of s d)
    /\ rpsOpponentChoice w1 = Some (choice_of (other_side s) d)
    /\ rpsRevealing w1 = true /\ rpsWaitingForOpponent w1 = false
    /\ pendingRpsReveal w1 = None
    /\ timers w1 = [RPSRevealResult result] in
  (side w = Some s ->
   shown (step (WsRpsReveal d) w)
   /\ rps_round_done w
        (rpsPlayerScore w + match result with RoundWin => 1 | _ => 0 end)
        (rpsOpponentScore w + match result with RoundLose => 1 | _ => 0 end)
        (run [WsRpsReveal d; Fire 0 r1; Fire 0 r2] w))
  /\ (side w = None -> start_side sd = Some s ->
      step (WsRpsReveal d) w = setPendingRpsReveal (Some d) w
      /\ shown (step (WsStart sd) (step (WsRpsReveal d) w))).
Proof.
  intros Hgame Hc Hplay Hpw Hq. cbv zeta.
  assert (Hmine : (if decide (s = SideA) then rv_aChoice d else rv_bChoice d)
                  = choice_of s d) by (by destruct s).
  assert (Htheirs : (if decide (s = SideA) then rv_bChoice d else rv_aChoice d)
                    = choice_of (other_side s) d) by (by destruct s).
  assert (Hbuf : handle (WsRpsReveal d) w = setPendingRpsReveal (Some d) w).
  { cbn [handle]. rewrite Hc. unfold onRpsReveal.
    rewrite decide_True by done. reflexivity. }
  split.
  - intros Hs.
    assert (E1 : step (WsRpsReveal d) w
                 = w |> setPendingRpsReveal (Some d) |> rps_show_reveal s d
                     |> setPendingRpsReveal None).
    { unfold step. rewrite Hbuf.
      unfold run_effects, pendingWinnerEffect, pendingRevealEffect. cbn.
      rewrite Hplay, Hpw, Hs, decide_True by done. reflexivity. }
    split.
    + rewrite E1. unfold rps_show_reveal. cbn. rewrite Hq, Hmine, Htheirs.
      ssplit; reflexivity.
    + unfold run. cbn [foldl]. rewrite E1. unfold rps_show_reveal. cbv zeta.
      fold (reveal_result s d).
      rewrite (step_fire_idle (RPSRevealResult (reveal_result s d)) r1);
        [|cbn; by rewrite Hq
         |cbn [fire]; unfold rps_reveal_result; by destruct (reveal_result s d)
         |cbn [fire]; unfold rps_reveal_result; by destruct (reveal_result s d)].
      cbn [fire]. unfold rps_reveal_result. cbv zeta.
      destruct (reveal_result s d);
        (rewrite (step_fire_idle RPSRevealReset r2); [|reflexivity|exact Hpw|reflexivity]);
        cbn [fire]; unfold rps_round_done, rps_next_round; cbn;
        rewrite ?Z.add_0_r; ssplit; reflexivity.
  - intros Hs Hsd.
    assert (E1 : step (WsRpsReveal d) w = setPendingRpsReveal (Some d) w).
    { unfold step. rewrite Hbuf. apply run_effects_no_side. exact Hs. }
    split; [exact E1|]. rewrite E1.
    unfold step. cbn [handle]. 
    replace (gameClient (setPendingRpsReveal (Some d) w)) with (gameClient w)
      by reflexivity.
    rewrite Hc. unfold onStart. rewrite Hsd. cbv zeta.
    unfold run_effects, pendingWinnerEffect, pendingRevealEffect.
    destruct (start_elapsed sd); cbn;
      rewrite Hplay, Hpw, decide_True by done; cbn;
      rewrite Hq, Hmine, Htheirs; ssplit; reflexivity.
Qed.

(** X21. [handleOpponentTTTMove], the handler for an opponent's move that
    no socket callback calls.  It applies the move at once: no fade is
    announced and nothing is scheduled.  The opponent's history is updated in
    placement order, so three recorded cells stay three; with three cells
    recorded the oldest one is emptied before the new mark is written, and
    win detection runs on that board.  A line of either symbol then ends the
    session, as a win of the local player exactly if the symbol is the local
    one; without a line the phase is unchanged and the turn passes to the
    local player with a fresh clock. *)
Theorem X21_opponent_move_handler (c : View) (position : nat) (w : World) :
  let w' := handleOpponentTTTMove c position w in
  opponentMoves w' = placed (opponentMoves c) position
  /\ (length (opponentMoves c) <= 3 -> length (opponentMoves w') <= 3)
  /\ (forall oldest rest, opponentMoves c = oldest :: rest -> 2 <= length rest ->
      tttBoard w' = post_eviction (tttBoard c) (opponentSymbol c) oldest position)
  /\ (length (opponentMoves c) < 3 ->
      tttBoard w' = js_set (tttBoard c) position (Some (opponentSymbol c)))
  /\ fadingCell w' = fadingCell w /\ timers w' = timers w
  /\ playerMoves w' = playerMoves w
  /\ tttCurrentPlayer w' = playerSymbol c
  /\ match checkTTTWinner (tttBoard w') with
     | Some t =>
         gameState w' = Finished
         /\ winner w' = Some (if decide (t = playerSymbol c) then Player else Opponent)
     | None => gameState w' = gameState w /\ winner w' = winner w /\ turnTime w' = 30%Z
     end.
Proof.
  cbv zeta. unfold handleOpponentTTTMove, placed, post_eviction.
  destruct (decide (3 <= length (opponentMoves c))) as [H3|H3].
  - destruct (opponentMoves c) as [|o rest] eqn:Hm; [cbn in H3; lia|].
    cbv zeta beta iota.
    destruct (checkTTTWinner (js_set (js_set (tttBoard c) o None) position
                                 (Some (opponentSymbol c)))) eqn:Hw;
      unfold handleGameEnd; destruct playMode; cbn; rewrite ?Hw;
      (ssplit; try reflexivity; try done;
       [ intros Hl; rewrite length_app; cbn in *; lia
       | intros ? ? [= <- <-] _; reflexivity
       | cbn in *; lia ]).
  - cbv zeta beta iota.
    destruct (checkTTTWinner (js_set (tttBoard c) position
                                 (Some (opponentSymbol c)))) eqn:Hw;
      unfold handleGameEnd; destruct playMode; cbn; rewrite ?Hw;
      (ssplit; try reflexivity; try done;
       [ intros Hl; rewrite length_app; cbn in *; lia
       | intros ? ? Hm Hl; rewrite Hm in H3; cbn in H3; lia ]).
Qed.

End RoundProperties.

(** ** No line goes unnoticed against the built-in opponent *)

Section NoHiddenLine.
Context `{P : Props}.

(** Writing a mark on a board without a line can only complete a line of
    that mark; emptying a cell completes none. *)
Lemma ttt_mark_line (b : Board) (i : nat) (t : Token) :
  i < length b -> checkTTTWinner b = None ->
  checkTTTWinner (js_set b i (Some t)) = None
  \/ checkTTTWinner (js_set b i (Some t)) = Some t.
Proof.
  intros Hi Hnone.
  destruct (checkTTTWinner (js_set b i (Some t))) as [u|] eqn:E; [right|by left].
  destruct (decide (u = t)) as [->|Hne]; [done|]. exfalso.
  apply ttt_detected_line in E as (x & y & z & Hin & Hx & Hy & Hz).
  rewrite cell_js_set in Hx, Hy, Hz by done.
  apply (proj1 (ttt_undetected b) Hnone u). exists x, y, z.
  repeat case_decide; simplify_eq; auto.
Qed.

Lemma ttt_clear_line (b : Board) (i : nat) :
  i < length b -> checkTTTWinner b = None -> checkTTTWinner (js_set b i None) = None.
Proof.
  intros Hi Hnone.
  destruct (checkTTTWinner (js_set b i None)) as [u|] eqn:E; [|done]. exfalso.
  apply ttt_detected_line in E as (x & y & z & Hin & Hx & Hy & Hz).
  rewrite cell_js_set in Hx, Hy, Hz by done.
  apply (proj1 (ttt_undetected b) Hnone u). exists x, y, z.
  repeat case_decide; simplify_eq; auto.
Qed.

Lemma c4_mark_line (b : Board) (i : nat) (t : Token) :
  i < length b -> checkC4Winner b = None ->
  checkC4Winner (js_set b i (Some t)) = None
  \/ checkC4Winner (js_set b i (Some t)) = Some t.
Proof.
  intros Hi Hnone.
  destruct (checkC4Winner (js_set b i (Some t))) as [u|] eqn:E; [right|by left].
  destruct (decide (u = t)) as [->|Hne]; [done|]. exfalso.
  apply c4_detected_line in E as (d & r & c & Hg & Hc).
  apply (proj1 (c4_undetected b) Hnone u). exists d, r, c. split; [done|].
  intros k Hk. specialize (Hc k Hk). rewrite cell_js_set in Hc by done.
  case_decide; simplify_eq; auto.
Qed.

Lemma landing_on_grid (b : Board) (col row : nat) :
  c4_good b -> col < 7 -> lowest_empty_row b col = Some row ->
  row * 7 + col < length b.
Proof.
  intros [Hl _] Hcol Hrow.
  apply (proj1 (lowest_empty_row_spec b col)) in Hrow as [Hr _]. lia.
Qed.

Ltac line_fin :=
  cbn; split;
  [ intros; first [ discriminate | assumption | reflexivity
                  | match goal with H : _ -> ?g |- ?g => apply H; congruence end ]
  | rewrite ?Forall_app, ?Forall_singleton; cbn; ssplit;
    first [assumption | exact I | auto] ].

Lemma run_effects_c4_line_inv (w : World) : c4_line_inv w -> c4_line_inv (run_effects w).
Proof.
  intros [Hb Hl]. unfold c4_line_inv, run_effects.
  unfold_handlers; cbv zeta; split_cases; line_fin.
Qed.

Lemma handle_c4_line_inv (e : Event) (w : World) :
  gameClient w = false -> c4_inv w -> c4_line_inv w -> c4_line_inv (handle e w).
Proof.
  intros Hnc [Hgood Ht] [Hb Hl]. unfold c4_line_inv.
  destruct e;
    try (cbn [handle]; rewrite Hnc; by split);
    try (unfold_handlers; cbv zeta; split_cases; line_fin; fail).
  - (* a click on a column *)
    cbn [handle].
    destruct (bool_decide (game_name = ConnectFour) && bool_decide (col < 7)
              && negb (c4_column_disabled w)) eqn:Hg; [|by split].
    apply andb_true_iff in Hg as [_ Hg]. apply negb_true_iff in Hg.
    unfold c4_column_disabled in Hg.
    apply orb_false_elim in Hg as [Hg _]. apply orb_false_elim in Hg as [Hg _].
    apply bool_decide_eq_false in Hg.
    assert (Hplay : gameState w = Playing) by (by destruct (gameState w)).
    specialize (Hb Hplay).
    unfold handleC4ColumnClick. split_cases; line_fin.
  - (* a pending timeout runs *)
    cbn [handle]. destruct (timers w !! k) as [t|] eqn:Hk; [|by split].
    assert (Hok : c4_timer_ok t) by (eapply Forall_lookup_1; eauto).
    assert (Hno : c4_timer_no_line t) by (eapply Forall_lookup_1; eauto).
    assert (Hd : Forall c4_timer_no_line (delete k (timers w)))
      by (by apply Forall_delete).
    destruct t; cbn [c4_timer_ok c4_timer_no_line] in Hok, Hno;
      try (unfold_handlers; cbv zeta; split_cases; line_fin; fail).
    + destruct Hok as (Hg & Hcol & Hrow).
      pose proof (landing_on_grid _ _ _ Hg Hcol Hrow) as Hi.
      cbn [fire]. unfold c4_player_drop. cbv zeta.
      destruct (c4_mark_line (c4Board c) (targetRow * 7 + col) (playerColor c) Hi Hno)
        as [E|E]; rewrite E.
      * rewrite decide_False by discriminate.
        unfold_handlers; split_cases; line_fin.
      * rewrite decide_True by reflexivity.
        unfold handleGameEnd; destruct playMode; line_fin.
    + destruct Hok as (Hg & Hcol & Hrow).
      pose proof (landing_on_grid _ _ _ Hg Hcol Hrow) as Hi.
      cbn [fire]. unfold c4_ai_drop. cbv zeta.
      destruct (c4_mark_line currentBoard (targetRow * 7 + aiCol) Yellow Hi Hno)
        as [E|E]; rewrite E.
      * rewrite decide_False by discriminate.
        unfold_handlers; split_cases; line_fin.
      * rewrite decide_True by reflexivity.
        unfold handleGameEnd; destruct playMode; line_fin.
Qed.

Lemma reachable_c4_line_inv (w : World) :
  has_client = false -> reachable w -> c4_line_inv w.
Proof.
  intros Hnc Hr. induction Hr as [|e w Hr IH].
  - split; [intros _; vm_compute; reflexivity|constructor].
  - apply run_effects_c4_line_inv, handle_c4_line_inv; [|by apply reachable_c4_inv|done].
    by rewrite reachable_gameClient.
Qed.

(** X23. Against the built-in opponent no Connect-Four line goes
    unnoticed: in every reachable world in which some token holds four
    consecutive cells of a row, a column or a diagonal of the grid, the
    session is finished. *)
Theorem X23_c4_line_ends_the_session (w : World) (t : Token) :
  has_client = false -> reachable w ->
  four_in_line (c4Board w) t -> gameState w = Finished.
Proof.
  intros Hnc Hr Hline. destruct (reachable_c4_line_inv w Hnc Hr) as [Hb _].
  destruct (gameState w); [|reflexivity].
  exfalso. by apply (proj1 (c4_undetected (c4Board w)) (Hb eq_refl) t).
Qed.

Section TicTacToe.
Hypothesis Hgame : game_name = TicTacToe.
Hypothesis Hrole : role <> Some P2.

Ltac ttt_line_fin :=
  cbn; intros;
  first [ discriminate | assumption | congruence
        | match goal with H : _ -> ?g |- ?g => apply H; congruence end ].

Lemma run_effects_ttt_line (w : World) :
  (gameState w = Playing -> checkTTTWinner (tttBoard w) = None) ->
  gameState (run_effects w) = Playing ->
  checkTTTWinner (tttBoard (run_effects w)) = None.
Proof using All.
  intros Hb. unfold run_effects.
  unfold_handlers; cbv zeta; split_cases; ttt_line_fin.
Qed.

Lemma handle_ttt_line (e : Event) (w : World) :
  gameClient w = false -> ttt_inv w ->
  (gameState w = Playing -> checkTTTWinner (tttBoard w) = None) ->
  gameState (handle e w) = Playing ->
  checkTTTWinner (tttBoard (handle e w)) = None.
Proof using All.
  intros Hnc (Hside & Hcons & Hpend) Hb Hp.
  destruct (gameState w) eqn:Hg;
    [|rewrite handle_keeps_finished in Hp by done; discriminate].
  specialize (Hb eq_refl). revert Hp.
  destruct (playerSymbol_unassigned w Hrole Hside) as [HX HO].
  destruct Hcons as (Hbd & Np & No & Hdis & Fp & Fo & Lp & Lo).
  assert (Hlen : length (tttBoard w) = 9) by (rewrite Hbd; apply length_board_of).
  destruct e;
    try (cbn [handle]; rewrite Hnc; auto; fail);
    try (unfold_handlers; cbv zeta; split_cases; ttt_line_fin; fail).
  - (* a click on a cell *)
    cbn [handle].
    destruct (bool_decide (game_name = TicTacToe)
              && bool_decide (index < length (tttBoard w))
              && negb (ttt_cell_disabled w)) eqn:G; [|auto].
    apply andb_true_iff in G as [G _]. apply andb_true_iff in G as [_ G].
    apply bool_decide_eq_true in G.
    unfold handleTTTCellClick. cbv zeta.
    destruct (ttt_mark_line (tttBoard w) index (playerSymbol w) G Hb) as [E|E];
      rewrite E; unfold_handlers; split_cases; ttt_line_fin.
  - (* a pending timeout runs *)
    cbn [handle]. unfold ttt_pending_ok in Hpend.
    destruct (timers w) as [|t [|t' ts]] eqn:Hq;
      [auto| |by destruct t].
    destruct k as [|k]; [|auto]. cbn [lookup list_lookup delete list_delete].
    destruct t; try done.
    + (* the player's evicting placement lands *)
      destruct Hpend as (Hbc & Hpm & Hom & Hsc & Hhead & H3 & Hcell & Hfade).
      assert (Ho : oldestMove < length (tttBoard w)).
      { rewrite Hlen. rewrite Forall_forall in Fp. apply Fp.
        destruct (playerMoves w); [done|]. injection Hhead as ->. left. }
      assert (Hi : index < length (tttBoard w)) by (eapply lookup_lt_Some; eauto).
      pose proof (ttt_clear_line _ _ Ho Hb) as Hclear.
      cbn [fire]. unfold ttt_player_fade. cbv zeta. rewrite Hbc.
      destruct (ttt_mark_line (js_set (tttBoard w) oldestMove None) index
                  (playerSymbol c)) as [E|E];
        [by rewrite js_set_length|exact Hclear| |];
        rewrite E; unfold_handlers; split_cases; ttt_line_fin.
    + (* the built-in opponent thinks *)
      destruct Hpend as (-> & -> & Hcur).
      cbn [fire]. unfold ttt_ai_think.
      destruct (pick rnd _) as [aiMove|] eqn:Hpick; [|ttt_line_fin].
      apply pick_positions in Hpick.
      assert (Hi : aiMove < length (tttBoard w)) by (eapply lookup_lt_Some; eauto).
      cbv zeta.
      destruct (ttt_mark_line (tttBoard w) aiMove O Hi Hb) as [E|E];
        rewrite E; unfold_handlers; split_cases; ttt_line_fin.
    + (* the built-in opponent's evicting placement lands *)
      destruct Hpend as (-> & -> & Hhead & H3 & Hcell & Hfade).
      assert (Ho : oldestMove < length (tttBoard w)).
      { rewrite Hlen. rewrite Forall_forall in Fo. apply Fo.
        destruct (opponentMoves w); [done|]. injection Hhead as ->. left. }
      assert (Hi : aiMove < length (tttBoard w)) by (eapply lookup_lt_Some; eauto).
      pose proof (ttt_clear_line _ _ Ho Hb) as Hclear.
      cbn [fire]. unfold ttt_ai_fade. cbv zeta.
      destruct (ttt_mark_line (js_set (tttBoard w) oldestMove None) aiMove O)
        as [E|E];
        [by rewrite js_set_length|exact Hclear| |];
        rewrite E; unfold_handlers; split_cases; ttt_line_fin.
Qed.

Lemma reachable_ttt_line (w : World) :
  has_client = false -> reachable w ->
  gameState w = Playing -> checkTTTWinner (tttBoard w) = None.
Proof using All.
  intros Hnc Hr. induction Hr as [|e w Hr IH].
  - intros _. vm_compute. reflexivity.
  - apply run_effects_ttt_line, handle_ttt_line; [|by apply reachable_ttt_inv|done].
    by rewrite reachable_gameClient.
Qed.

(** X24. Against the built-in opponent (X for the player, O for the
    opponent) no Tic-Tac-Toe line goes unnoticed, evictions included: in
    every reachable world in which some token holds the three cells of a
    line, the session is finished. *)
Theorem X24_ttt_line_ends_the_session (w : World) (t : Token) :
  has_client = false -> reachable w ->
  three_in_line (tttBoard w) t -> gameState w = Finished.
Proof using All.
  intros Hnc Hr Hline. pose proof (reachable_ttt_line w Hnc Hr) as Hb.
  destruct (gameState w); [|reflexivity].
  exfalso. by apply (proj1 (ttt_undetected (tttBoard w)) (Hb eq_refl) t).
Qed.

End TicTacToe.

End NoHiddenLine.

(** ** The further properties on sample sessions *)

Lemma X1_witness :
  let P := local_ttt in
  gameState (run [ClickTTT 4; Tick; OpenExitDialog] forfeited) = Finished.
Proof.
  cbv zeta.
  apply (proj1 (@X1_finished_is_absorbing local_ttt
                  [ClickTTT 4; Tick; OpenExitDialog] (@forfeited local_ttt))).
  vm_compute. reflexivity.
Defined.

Lemma X2_witness :
  let P := online_props TicTacToe in
  let w := online_started TicTacToe SideA SideA in
  (0 <= turnTime w)%Z /\ (turnTime (step (WsOpponentMove (Some 12%Z)) w) <= 30)%Z.
Proof.
  cbv zeta.
  destruct (@X2_turn_time_bounds (online_props TicTacToe)
              (WsOpponentMove (Some 12%Z)) (online_started TicTacToe SideA SideA))
    as [H1 H2].
  split.
  - apply H1. apply (reach_step _ _ reach_init).
  - apply H2; [vm_compute; discriminate|vm_compute; discriminate].
Defined.

Lemma X3_witness :
  let P := staked_ttt in outcome_consistent forfeited /\ outcome_consistent init.
Proof.
  cbv zeta. split.
  - apply (@X3_phase_and_outcome_agree staked_ttt). apply reachable_run, reach_init.
  - apply (@X3_phase_and_outcome_agree staked_ttt). apply reach_init.
Defined.

Lemma X4_witness :
  let P := local_ttt in
  gameState forfeited = Finished
  /\ earnedARK forfeited = 0%Z /\ earnedXP forfeited = 0%Z
  /\ Forall is_send (calls forfeited).
Proof.
  cbv zeta. split; [vm_compute; reflexivity|].
  apply (@X4_free_play_never_rewards local_ttt); [reflexivity|].
  apply reachable_run, reach_init.
Defined.

Lemma X5_witness :
  let P := staked_ttt in
  Forall is_addXP (calls forfeited) /\ side forfeited = None
  /\ pendingWinnerSide forfeited = None /\ pendingRpsReveal forfeited = None
  /\ run_effects forfeited = forfeited.
Proof.
  cbv zeta.
  apply (@X5_offline_session_is_silent staked_ttt); [reflexivity|].
  apply reachable_run, reach_init.
Defined.

Lemma X6_witness :
  let P := local_ttt in
  (turnTime (ticks 7 init) = 23%Z /\ gameState (ticks 7 init) = Playing)
  /\ turnTime (ticks 45 init) = 0%Z /\ gameState (ticks 45 init) = Finished
  /\ ended (ticks 45 init) = [Opponent].
Proof.
  cbv zeta.
  destruct (@X6_clock_expires_once local_ttt 29 (@init local_ttt) Opponent
              eq_refl eq_refl eq_refl) as [Hbefore Hafter].
  destruct (Hbefore 7 ltac:(lia)) as (H1 & H2 & _).
  destruct (Hafter 45 ltac:(lia)) as (H3 & H4 & _ & H5).
  repeat apply conj; [exact H1|exact H2|exact H3|exact H4|exact H5].
Defined.

Lemma X7_witness :
  let P := unruled in
  gameState (ticks 40 init) = Playing /\ turnTime (ticks 40 init) = 0%Z.
Proof.
  cbv zeta.
  destruct (@X7_unruled_game_never_times_out unruled 40 (@init unruled)
              eq_refl ltac:(vm_compute; discriminate))
    as (H1 & _ & _ & _ & H2).
  split; [exact H1|exact (H2 eq_refl)].
Defined.

Lemma X8_witness :
  three_in_line [Some X; Some X; Some X; Some O; Some O; None; None; None; None] X
  /\ forall u, ~ three_in_line (tttBoard ttt_three_each) u.
Proof.
  split.
  - apply (proj1 (X8_ttt_detection_is_exact _ X)). vm_compute. reflexivity.
  - apply (proj1 (proj2 (X8_ttt_detection_is_exact (tttBoard ttt_three_each) X))).
    vm_compute. reflexivity.
Defined.

Lemma X9_witness :
  checkTTTWinner
    (rename swap_marks [Some X; Some X; Some X; Some O; Some O; None; None; None; None])
  = Some O
  /\ checkC4Winner (rename swap_marks (c4Board c4_red_wins)) = Some Yellow.
Proof.
  assert (Hinj : Inj (=) (=) swap_marks).
  { intros a b. destruct a, b; cbn; congruence. }
  split.
  - apply (proj1 (X9_detection_commutes_with_renaming swap_marks
                    [Some X; Some X; Some X; Some O; Some O; None; None; None; None]
                    Hinj)).
  - apply (proj2 (X9_detection_commutes_with_renaming swap_marks
                    (c4Board c4_red_wins) Hinj)).
Defined.

Lemma X10_witness :
  four_in_line (c4Board c4_red_wins) Red /\ forall u, ~ four_in_line drawn_board u.
Proof.
  split.
  - apply (proj1 (X10_c4_detection_is_exact _ Red)). vm_compute. reflexivity.
  - apply (proj1 (proj2 (X10_c4_detection_is_exact drawn_board Red))).
    vm_compute. reflexivity.
Defined.

Lemma X11_witness :
  cell (c4Board c4_red_wins) (1 * 7 + 0) = None
  /\ forall r, r < 6 -> cell drawn_board (r * 7 + 3) <> None.
Proof.
  split.
  - apply (proj1 (X11_landing_row_is_lowest_empty (c4Board c4_red_wins) 0) 1).
    vm_compute. reflexivity.
  - apply (proj1 (proj2 (X11_landing_row_is_lowest_empty drawn_board 3))).
    vm_compute. reflexivity.
Defined.

Lemma X12_witness : length (c4Board c4_red_wins) = 42 /\ gravity (c4Board c4_red_wins).
Proof.
  apply (@X12_local_c4_board_obeys_gravity local_c4); [reflexivity|].
  apply reachable_run, reach_init.
Defined.

Lemma X14_witness :
  let w := ttt_three_each in
  length (tttBoard w) = 9
  /\ (forall i, tttBoard w !! i = Some (Some X) <-> i ∈ playerMoves w)
  /\ (forall i, tttBoard w !! i = Some (Some O) <-> i ∈ opponentMoves w)
  /\ NoDup (playerMoves w) /\ NoDup (opponentMoves w)
  /\ length (positions (Some X) (tttBoard w)) <= 3
  /\ length (positions (Some O) (tttBoard w)) <= 3
  /\ 3 <= length (positions None (tttBoard w)).
Proof.
  cbv zeta.
  apply (@X14_local_ttt_decay_invariant local_ttt eq_refl ltac:(discriminate));
    [reflexivity|].
  apply reachable_run, reach_init.
Defined.

Lemma X15_witness :
  let P := local_ttt in
  let w := run [ClickTTT 0] init in
  length (timers w) <= 1
  /\ exists aiMove, pick 5 (positions None (tttBoard w)) = Some aiMove
                 /\ tttBoard w !! aiMove = Some None.
Proof.
  cbv zeta.
  destruct (@X15_built_in_opponent_always_moves local_ttt eq_refl ltac:(discriminate)
              (@run local_ttt [ClickTTT 0] (@init local_ttt)) 0
              (@init local_ttt)
              (tttBoard (@run local_ttt [ClickTTT 0] (@init local_ttt)))
              (opponentMoves (@run local_ttt [ClickTTT 0] (@init local_ttt)))
              5 eq_refl (reachable_run _ _ reach_init)) as [H1 H2].
  split; [exact H1|].
  destruct (H2 ltac:(vm_compute; reflexivity)) as (_ & _ & H3). exact H3.
Defined.

Lemma X16_witness :
  let P := local_ttt in
  handleTTTCellClick ttt_three_each 0 ttt_three_each = ttt_three_each.
Proof.
  cbv zeta.
  apply (proj1 (@X16_illegal_input_is_dropped local_ttt
                  ttt_three_each ttt_three_each 0 0 None)).
  right. left. vm_compute. discriminate.
Defined.

Lemma X17_witness :
  let P := online_props TicTacToe in
  winner (step (WsGameEnd flagged_draw) init) = Some Draw.
Proof.
  cbv zeta.
  destruct (@X17_game_end_precedence (online_props TicTacToe)
              (@init (online_props TicTacToe)) flagged_draw eq_refl)
    as (Hdraw & _).
  destruct (Hdraw eq_refl) as (_ & H & _). exact H.
Defined.

Lemma X18_witness :
  let P := staked_ttt in
  gameState forfeited = Finished /\ winner forfeited = Some Opponent
  /\ earnedARK forfeited = (-10)%Z.
Proof.
  cbv zeta.
  destruct (@X18_forfeit_is_a_loss staked_ttt
              (@step staked_ttt OpenExitDialog (@init staked_ttt)) eq_refl)
    as (H1 & H2 & _ & _ & _ & H3 & _).
  repeat apply conj; [exact H1|exact H2|exact (H3 eq_refl)].
Defined.

Lemma X19_witness :
  let P := local_rps in
  let w' := run [ClickRPS Rock; Fire 0 2; Fire 0 0; Fire 0 0] init in
  rpsPlayerScore w' = 1%Z /\ rpsOpponentScore w' = 0%Z
  /\ rpsCurrentRound w' = 2%Z /\ gameState w' = Playing /\ timers w' = [].
Proof.
  cbv zeta.
  destruct (@X19_local_rps_round local_rps (@init local_rps) Rock 2 0 0
              eq_refl eq_refl eq_refl eq_refl eq_refl eq_refl eq_refl)
    as (oc & Hp & H).
  vm_compute in Hp. injection Hp as <-.
  cbv zeta in H. destruct H as (H1 & H2 & H3).
  vm_compute in H3.
  destruct H3 as (H4 & _ & H5 & _ & _ & _ & _ & _ & _ & _ & _ & H6).
  repeat apply conj; [exact H1|exact H2|exact H5|exact H4|exact H6].
Defined.

Lemma X20_witness :
  let P := online_props RockPaperScissors in
  let w := online_started RockPaperScissors SideB SideA in
  rpsPlayerChoice (step (WsRpsReveal sample_reveal) w) = Some Paper
  /\ rpsOpponentChoice (step (WsRpsReveal sample_reveal) w) = Some Rock
  /\ rpsPlayerScore (run [WsRpsReveal sample_reveal; Fire 0 0; Fire 0 0] w) = 1%Z.
Proof.
  cbv zeta.
  destruct (@X20_reveal_is_read_from_the_local_side (online_props RockPaperScissors)
              (online_started RockPaperScissors SideB SideA) sample_reveal SideB
              (start_as SideB SideA) 0 0 eq_refl eq_refl eq_refl eq_refl eq_refl)
    as [Hknown _].
  destruct (Hknown eq_refl) as [(H1 & H2 & _) (_ & _ & _ & H3 & _)].
  repeat apply conj; [exact H1|exact H2|exact H3].
Defined.

Lemma X23_witness :
  four_in_line (c4Board c4_red_wins) Red /\ gameState c4_red_wins = Finished.
Proof.
  assert (Hline : four_in_line (c4Board c4_red_wins) Red).
  { exists Vertical, 2, 0. split; [vm_compute; lia|].
    intros k Hk. destruct k as [|[|[|[|k]]]]; [reflexivity..|lia]. }
  split; [exact Hline|].
  apply (@X23_c4_line_ends_the_session local_c4 c4_red_wins Red eq_refl
           (reachable_run _ _ reach_init) Hline).
Defined.

Lemma X24_witness :
  three_in_line (tttBoard ttt_x_wins) X /\ gameState ttt_x_wins = Finished.
Proof.
  assert (Hline : three_in_line (tttBoard ttt_x_wins) X).
  { exists 0, 1, 2. repeat apply conj; [|reflexivity..].
    apply elem_of_cons. left. reflexivity. }
  split; [exact Hline|].
  apply (@X24_ttt_line_ends_the_session local_ttt eq_refl ltac:(discriminate)
           ttt_x_wins X eq_refl (reachable_run _ _ reach_init) Hline).
Defined.
